(** * Dendritic Gated Network: per-example inference/update step

    Shallow embedding of the two step functions of
    [gated_linear_networks/colabs/dendritic_gated_network.ipynb]
    ([step_square_loss], [step_bernoulli], with [sigmoid] and
    [inverse_sigmoid]) and of the NumPy array operations they call.

    Numbers.  The notebook computes on [float64].  The embedding works in
    exact real arithmetic ([R]): rounding, overflow, signed zeros, infinities
    and NaN are outside the model.  [np.exp] and [np.log] are the real
    exponential and logarithm; they agree with NumPy wherever NumPy returns a
    finite value, which for [inverse_sigmoid] means arguments strictly between
    0 and 1.

    Arrays.  An [ndarray] is a shape together with an indexing map; only the
    entries inside the shape are meaningful, and every operation below reads
    in-range entries only (module [ExtFacts] proves it).  Shape mismatches
    raise, as in NumPy.  [inputs] is a 1-D array, and the arrays of [weights]
    and [hyperplanes] are 3-D, as the notebook builds them.

    Arguments.  [hyperplane_bias_magnitude], [learning_rate] and [epsilon]
    are floats; [target] is a float or [None], its default.

    State.  The weight arrays are mutated in place by the source.  A step
    therefore returns the weight list as it stands when the call ends,
    together with the returned pair or the exception raised; a layer that was
    updated before a later layer raised stays updated.  The arrays of the
    [weights] list are taken to be distinct objects. *)

From Stdlib Require Import Reals Lra Lia List Arith Bool.
Import ListNotations.
Local Open Scope R_scope.

(** ** Exceptions and the error monad *)

Inductive exn : Type :=
| ValueError          (* shapes not aligned / not broadcastable *)
| TypeError           (* arithmetic on [None] *)
| IndexError          (* [r_out[0]] on an empty array *)
| UnboundLocalError.  (* [r_out] read before assignment *)

Definition result (A : Type) : Type := (exn + A)%type.

Definition ret {A : Type} (a : A) : result A := inr a.
Definition raise {A : Type} (e : exn) : result A := inl e.

Definition bind {A B : Type} (m : result A) (k : A -> result B) : result B :=
  match m with
  | inl e => inl e
  | inr a => k a
  end.

Notation "x <- m ;; k" := (bind m (fun x => k))
  (at level 100, m at next level, right associativity).

(** ** NumPy arrays and the operations the notebook uses *)

Module Np.

Record ndarray1 : Type := Arr1 { len : nat; at1 : nat -> R }.
Record ndarray2 : Type := Arr2 { rows : nat; cols : nat; at2 : nat -> nat -> R }.
Record ndarray3 : Type :=
  Arr3 { dim0 : nat; dim1 : nat; dim2 : nat; at3 : nat -> nat -> nat -> R }.

(** Boolean arrays: [gate_values] and [update_indicator]. *)
Record boolarray1 : Type := BArr1 { blen : nat; bat1 : nat -> bool }.
Record boolarray2 : Type :=
  BArr2 { brows : nat; bcols : nat; bat2 : nat -> nat -> bool }.

(** Sum of [f 0 .. f (n-1)]. *)
Fixpoint rsum (n : nat) (f : nat -> R) : R :=
  match n with
  | O => 0
  | S m => rsum m f + f m
  end.

(** A boolean operand of a float operation is promoted: [True] is 1.0. *)
Definition b2r (b : bool) : R := if b then 1 else 0.

Definition Rltb (x y : R) : bool := if Rlt_dec x y then true else false.

(** [np.hstack([c, v])] for a scalar [c] and a 1-D array [v]. *)
Definition hstack (c : R) (v : ndarray1) : ndarray1 :=
  Arr1 (S (len v)) (fun i => match i with O => c | S j => at1 v j end).

(** Element-wise application of a scalar function. *)
Definition map1 (f : R -> R) (v : ndarray1) : ndarray1 :=
  Arr1 (len v) (fun i => f (at1 v i)).

(** [a.dot(v)], 3-D by 1-D: sum product over the last axis of [a] and [v]. *)
Definition dot31 (a : ndarray3) (v : ndarray1) : result ndarray2 :=
  if dim2 a =? len v
  then ret (Arr2 (dim0 a) (dim1 a)
              (fun i j => rsum (len v) (fun k => at3 a i j k * at1 v k)))
  else raise ValueError.

(** [np.heaviside(x1, x2)]: 0 if [x1 < 0], [x2] if [x1 == 0], 1 if [x1 > 0]. *)
Definition heaviside (x1 x2 : R) : R :=
  if Rlt_dec x1 0 then 0 else if Rlt_dec 0 x1 then 1 else x2.

(** [astype(bool)] of one float: nonzero is [True]. *)
Definition astype_bool (x : R) : bool :=
  if Req_dec_T x 0 then false else true.

(** [np.heaviside(a, x2).astype(bool)] on a 2-D array. *)
Definition heaviside_bool (a : ndarray2) (x2 : R) : boolarray2 :=
  BArr2 (rows a) (cols a) (fun i j => astype_bool (heaviside (at2 a i j) x2)).

(** [g.dot(w)], 2-D boolean by 3-D float.  For an N-D array [a] and an M-D
    array [b] with M >= 2, [np.dot] is a sum product over the last axis of
    [a] and the second-to-last axis of [b]:
    [dot(a, b)[i,k,m] = sum_j a[i,j] * b[k,j,m]],
    of shape [a.shape[:-1] + b.shape[:-2] + b.shape[-1:]]. *)
Definition dot23 (g : boolarray2) (w : ndarray3) : result ndarray3 :=
  if bcols g =? dim1 w
  then ret (Arr3 (brows g) (dim0 w) (dim2 w)
              (fun i k m => rsum (bcols g) (fun j => b2r (bat2 g i j) * at3 w k j m)))
  else raise ValueError.

(** [t.sum(axis=1)] of a 3-D array. *)
Definition sum_axis1 (t : ndarray3) : ndarray2 :=
  Arr2 (dim0 t) (dim2 t) (fun i m => rsum (dim1 t) (fun k => at3 t i k m)).

(** [a.dot(v)], 2-D by 1-D. *)
Definition dot21 (a : ndarray2) (v : ndarray1) : result ndarray1 :=
  if cols a =? len v
  then ret (Arr1 (rows a) (fun i => rsum (len v) (fun m => at2 a i m * at1 v m)))
  else raise ValueError.

(** Broadcasting an operand axis of extent [src] onto a destination axis of
    extent [dst]: allowed when the extents agree or [src] is 1, and then the
    operand is read at the same index, respectively at index 0. *)
Definition broadcastable (src dst : nat) : bool := (src =? dst) || (src =? 1).
Definition bidx (src dst i : nat) : nat := if src =? dst then i else O.

(** [w -= d]: in-place subtraction; [d] is broadcast to the shape of [w]. *)
Definition isub (w d : ndarray3) : result ndarray3 :=
  if broadcastable (dim0 d) (dim0 w) && broadcastable (dim1 d) (dim1 w)
     && broadcastable (dim2 d) (dim2 w)
  then ret (Arr3 (dim0 w) (dim1 w) (dim2 w)
              (fun n b m => at3 w n b m
                            - at3 d (bidx (dim0 d) (dim0 w) n)
                                     (bidx (dim1 d) (dim1 w) b)
                                     (bidx (dim2 d) (dim2 w) m)))
  else raise ValueError.

(** [np.clip(x, lo, hi)] is [minimum(maximum(x, lo), hi)]. *)
Definition clip (x lo hi : R) : R := Rmin (Rmax x lo) hi.

(** [np.logaddexp(a, b)] is [log(exp(a) + exp(b))]. *)
Definition logaddexp (a b : R) : R := ln (exp a + exp b).

(** [v[0]]. *)
Definition getitem0 (v : ndarray1) : result R :=
  match len v with
  | O => raise IndexError
  | S _ => ret (at1 v O)
  end.

(** Arrays written as nested lists, for concrete inputs. *)
Definition of_list1 (l : list R) : ndarray1 :=
  Arr1 (length l) (fun i => nth i l 0).
Definition of_list3 (b k : nat) (l : list (list (list R))) : ndarray3 :=
  Arr3 (length l) b k (fun i j m => nth m (nth j (nth i l []) []) 0).

End Np.
Import Np.

(** ** The notebook's functions *)

(** [sigmoid(x)]: [np.exp(-np.logaddexp(0, -x))]. *)
Definition sigmoid (x : R) : R := exp (- logaddexp 0 (- x)).

(** [inverse_sigmoid(x)]: [np.log(x/(1-x))]. *)
Definition inverse_sigmoid (x : R) : R := ln (x / (1 - x)).

(** [gate_values = np.heaviside(h.dot(side_info), 0).astype(bool)] *)
Definition gate_values (h : ndarray3) (side_info : ndarray1) : result boolarray2 :=
  a <- dot31 h side_info ;;
  ret (heaviside_bool a 0).

(** [effective_weights = gate_values.dot(w).sum(axis=1)] *)
Definition effective_weights (g : boolarray2) (w : ndarray3) : result ndarray2 :=
  t <- dot23 g w ;;
  ret (sum_axis1 t).

(** [(r_out[:, None] - target) * v[None]]: entry [(n, m)] is
    [(r_out[n] - target) * v[m]].  With [target = None] the update raises
    [TypeError] before [w] is written: at this subtraction, or, for an
    [r_out] without elements, at the cast of the in-place subtraction. *)
Definition residual_outer (r_out : ndarray1) (target : option R) (v : ndarray1)
  : result ndarray2 :=
  match target with
  | None => raise TypeError
  | Some t => ret (Arr2 (len r_out) (len v) (fun n m => (at1 r_out n - t) * at1 v m))
  end.

(** [learning_rate * gate_values[:, :, None] * grad[:, None]]: the operands
    have shapes [N, B, 1] and [N, 1, L], where [N] is both the number of rows
    of [gate_values] and the length of [r_out]; entry [(n, b, m)] is
    [learning_rate * gate_values[n, b] * grad[n, m]]. *)
Definition gated_delta (learning_rate : R) (g : boolarray2) (grad : ndarray2)
  : ndarray3 :=
  Arr3 (brows g) (bcols g) (cols grad)
    (fun n b m => learning_rate * b2r (bat2 g n b) * at2 grad n m).

(** One iteration of the layer loop of [step_square_loss]: the array bound to
    [w] after the iteration and the new [r_out]. *)
Definition layer_square_loss (side_info : ndarray1) (learning_rate : R)
    (target : option R) (update : bool)
    (w h : ndarray3) (r_in : ndarray1) : result (ndarray3 * ndarray1) :=
  let r_in := hstack 1 r_in in
  gate_values <- gate_values h side_info ;;
  effective_weights <- effective_weights gate_values w ;;
  r_out <- dot21 effective_weights r_in ;;
  w <- (if update
        then grad <- residual_outer r_out target r_in ;;
             isub w (gated_delta learning_rate gate_values grad)
        else ret w) ;;
  ret (w, r_out).

(** [update_indicator = np.logical_and(r_out < 1 - epsilon, r_out > epsilon)] *)
Definition update_indicator (r_out : ndarray1) (epsilon : R) : boolarray1 :=
  BArr1 (len r_out)
    (fun n => Rltb (at1 r_out n) (1 - epsilon) && Rltb epsilon (at1 r_out n)).

(** [(r_out[:, None] - target) * h_in[None] * update_indicator[:, None]] *)
Definition bernoulli_grad (r_out : ndarray1) (target : option R) (h_in : ndarray1)
    (ind : boolarray1) : result ndarray2 :=
  g <- residual_outer r_out target h_in ;;
  ret (Arr2 (rows g) (cols g) (fun n m => at2 g n m * b2r (bat1 ind n))).

(** One iteration of the layer loop of [step_bernoulli]. *)
Definition layer_bernoulli (side_info : ndarray1) (learning_rate epsilon : R)
    (target : option R) (update : bool)
    (w h : ndarray3) (r_in : ndarray1) : result (ndarray3 * ndarray1) :=
  let r_in := hstack (sigmoid 1) r_in in
  let h_in := map1 inverse_sigmoid r_in in
  gate_values <- gate_values h side_info ;;
  effective_weights <- effective_weights gate_values w ;;
  h_out <- dot21 effective_weights h_in ;;
  let r_out := map1 (fun x => clip (sigmoid x) epsilon (1 - epsilon)) h_out in
  w <- (if update
        then let update_indicator := update_indicator r_out epsilon in
             grad <- bernoulli_grad r_out target h_in update_indicator ;;
             isub w (gated_delta learning_rate gate_values grad)
        else ret w) ;;
  ret (w, r_out).

(** [for w, h in zip(weights, hyperplanes): ...; r_in = r_out].  The loop
    stops at the shorter list.  It returns the weight list as the loop leaves
    it and either the exception raised or the last binding of [r_out]
    ([None] while unbound). *)
Fixpoint run_layers (layer : ndarray3 -> ndarray3 -> ndarray1 -> result (ndarray3 * ndarray1))
    (weights hyperplanes : list ndarray3) (r_in : ndarray1) (r_out : option ndarray1)
  : list ndarray3 * result (option ndarray1) :=
  match weights, hyperplanes with
  | w :: ws, h :: hs =>
      match layer w h r_in with
      | inl e => (weights, inl e)
      | inr (w', r) =>
          let st := run_layers layer ws hs r (Some r) in
          (w' :: fst st, snd st)
      end
  | _, _ => (weights, inr r_out)
  end.

(** [r_out = r_out[0]] after the loop. *)
Definition final_output (r_out : option ndarray1) : result R :=
  match r_out with
  | None => raise UnboundLocalError
  | Some v => getitem0 v
  end.

Definition step_square_loss (inputs : ndarray1) (weights hyperplanes : list ndarray3)
    (hyperplane_bias_magnitude learning_rate : R) (target : option R) (update : bool)
  : list ndarray3 * result (R * R) :=
  let r_in := inputs in
  let side_info := hstack hyperplane_bias_magnitude inputs in
  let st := run_layers (layer_square_loss side_info learning_rate target update)
              weights hyperplanes r_in None in
  (fst st,
   r_out <- snd st ;;
   r_out <- final_output r_out ;;
   loss <- match target with
           | None => raise TypeError
           | Some target => ret ((target - r_out) ^ 2 / 2)
           end ;;
   ret (r_out, loss)).

Definition step_bernoulli (inputs : ndarray1) (weights hyperplanes : list ndarray3)
    (hyperplane_bias_magnitude learning_rate epsilon : R) (target : option R)
    (update : bool)
  : list ndarray3 * result (R * R) :=
  let r_in := map1 (fun x => clip (sigmoid x) epsilon (1 - epsilon)) inputs in
  let side_info := hstack hyperplane_bias_magnitude inputs in
  let st := run_layers (layer_bernoulli side_info learning_rate epsilon target update)
              weights hyperplanes r_in None in
  (fst st,
   r_out <- snd st ;;
   r_out <- final_output r_out ;;
   loss <- match target with
           | None => raise TypeError
           | Some target => ret (- (target * r_out + (1 - target) * (1 - r_out)))
           end ;;
   ret (r_out, loss)).

(** ** Specification-side definitions *)

(** The dot product [h[n,b,:] . s] that decides gate [(n, b)]. *)
Definition hyperplane_dot (h : ndarray3) (s : ndarray1) (n b : nat) : R :=
  rsum (len s) (fun k => at3 h n b k * at1 s k).

(** The gate rule as the specification words it: true exactly when the dot
    product is [>= 0]. *)
Definition gate_ties_to_one (h : ndarray3) (s : ndarray1) : Prop :=
  forall G, gate_values h s = inr G ->
  forall n b, (n < brows G)%nat -> (b < bcols G)%nat ->
    (bat2 G n b = true <-> 0 <= hyperplane_dot h s n b).

(** [h] with row [(n, b)] replaced by its negation. *)
Definition negate_row (h : ndarray3) (n b : nat) : ndarray3 :=
  Arr3 (dim0 h) (dim1 h) (dim2 h)
    (fun i j k => if (i =? n) && (j =? b) then - at3 h i j k else at3 h i j k).

(** Negating row [(n, b)] changes gate [(n, b)] and no other gate. *)
Definition negation_flips_exactly (h : ndarray3) (s : ndarray1) (n b : nat) : Prop :=
  forall G G', gate_values h s = inr G -> gate_values (negate_row h n b) s = inr G' ->
    bat2 G' n b <> bat2 G n b /\
    forall i j, (i < brows G)%nat -> (j < bcols G)%nat -> (i, j) <> (n, b) ->
      bat2 G' i j = bat2 G i j.

(** The effective weights as the specification words them: neuron [n] sums
    its own rows [W[n,b,:]] over the branches [b] whose gate [G[n,b]] fired. *)
Definition effective_weights_spec (g : boolarray2) (w : ndarray3) (n m : nat) : R :=
  rsum (dim1 w) (fun b => b2r (bat2 g n b) * at3 w n b m).

(** The gate bit of [(n, b)], when [h.dot(side_info)] is defined. *)
Definition gate_bit (h : ndarray3) (side_info : ndarray1) (n b : nat) : bool :=
  astype_bool (heaviside (hyperplane_dot h side_info n b) 0).

(** Shapes of one layer as the data model gives them: hyperplanes
    [neurons, branches, D+1] and weights [neurons, branches, K+1], where [d]
    is the length of the raw input and [k] the width of the incoming
    activation. *)
Definition layer_ok (d k : nat) (w h : ndarray3) : bool :=
  (dim0 h =? dim0 w) && (dim1 h =? dim1 w) && (dim2 h =? S d) && (dim2 w =? S k).

(** Shapes of a layer stack: the next layer's incoming width is this layer's
    neuron count, and the last layer has one neuron. *)
Fixpoint stack_ok (d k : nat) (weights hyperplanes : list ndarray3) : bool :=
  match weights, hyperplanes with
  | [], [] => k =? 1
  | w :: ws, h :: hs => layer_ok d k w h && stack_ok d (dim0 w) ws hs
  | _, _ => false
  end.

(** A network for inputs of length [d]: at least one layer, shapes as above. *)
Definition network_ok (d : nat) (weights hyperplanes : list ndarray3) : bool :=
  match weights with
  | [] => false
  | _ :: _ => stack_ok d d weights hyperplanes
  end.

(** Every in-range entry of [w] is zero. *)
Definition all_zero (w : ndarray3) : Prop :=
  forall n b m, (n < dim0 w)%nat -> (b < dim1 w)%nat -> (m < dim2 w)%nat ->
    at3 w n b m = 0.

(** Update locality for one layer: [w'] has the shape of [w], and where the
    hyperplane and weight arrays have the same number of neurons, every row
    [(n, b)] whose gate did not fire is unchanged. *)
Definition frame (side_info : ndarray1) (h w w' : ndarray3) : Prop :=
  dim0 w' = dim0 w /\ dim1 w' = dim1 w /\ dim2 w' = dim2 w /\
  (dim0 h = dim0 w ->
   forall n b m, gate_bit h side_info n b = false -> at3 w' n b m = at3 w n b m).

(** ** Array identity

    Two arrays are the same array when they have the same shape and the same
    entries inside it. *)

Module Ext.

Definition eq1 (a b : ndarray1) : Prop :=
  len a = len b /\ forall i, (i < len a)%nat -> at1 a i = at1 b i.

Definition eq2 (a b : ndarray2) : Prop :=
  rows a = rows b /\ cols a = cols b /\
  forall i j, (i < rows a)%nat -> (j < cols a)%nat -> at2 a i j = at2 b i j.

Definition eq3 (a b : ndarray3) : Prop :=
  dim0 a = dim0 b /\ dim1 a = dim1 b /\ dim2 a = dim2 b /\
  forall i j k, (i < dim0 a)%nat -> (j < dim1 a)%nat -> (k < dim2 a)%nat ->
    at3 a i j k = at3 b i j k.

Definition beq2 (a b : boolarray2) : Prop :=
  brows a = brows b /\ bcols a = bcols b /\
  forall i j, (i < brows a)%nat -> (j < bcols a)%nat -> bat2 a i j = bat2 b i j.

(** Two results agree: the same exception, or related values. *)
Definition result_rel {A : Type} (rel : A -> A -> Prop) (x y : result A) : Prop :=
  match x, y with
  | inl e, inl e' => e = e'
  | inr a, inr b => rel a b
  | _, _ => False
  end.

Definition option_rel {A : Type} (rel : A -> A -> Prop) (x y : option A) : Prop :=
  match x, y with
  | None, None => True
  | Some a, Some b => rel a b
  | _, _ => False
  end.

Definition layer_out_rel (p q : ndarray3 * ndarray1) : Prop :=
  eq3 (fst p) (fst q) /\ eq1 (snd p) (snd q).

End Ext.

(** ** Concrete inputs *)

Module Examples.

(** One neuron, one branch, hyperplane row [[1, -1]]; the side information
    of input [x = [1]] with bias magnitude 1 is [[1, 1]], orthogonal to it. *)
Definition tie_h : ndarray3 := of_list3 1 2 [[[1; -1]]].
Definition tie_x : ndarray1 := of_list1 [1].
Definition tie_s : ndarray1 := hstack 1 tie_x.

(** The single-layer square-loss scenario: hyperplane row [[1, 1]], weights
    [[0, 0]], input [x = [2]]. *)
Definition sc_h : ndarray3 := of_list3 1 2 [[[1; 1]]].
Definition sc_w : ndarray3 := of_list3 1 2 [[[0; 0]]].
Definition sc_x : ndarray1 := of_list1 [2].

(** One neuron with two branches: for input [x = [2]] the first gate
    fires and the second does not. *)
Definition loc_h : ndarray3 := of_list3 2 2 [[[1; 1]; [-1; -1]]].
Definition loc_w : ndarray3 := of_list3 2 2 [[[0; 0]; [5; 7]]].

(** One neuron, one branch, bias weight -100: the Bernoulli output of the
    layer saturates at the lower clip boundary. *)
Definition sat_w : ndarray3 := of_list3 1 2 [[[-100; 0]]].
Definition sat_r : ndarray1 := of_list1 [1 / 2].

(** Two layers, of two neurons and of one neuron, one branch each, for
    the input [x = [1]].  Both first-layer gates fire.  The first-layer
    weight rows are [[0, 1]] for neuron 0 and [[0, 2]] for neuron 1; the
    second layer reads the output of neuron 0. *)
Definition mix_x : ndarray1 := of_list1 [1].
Definition mix_h1 : ndarray3 := of_list3 1 2 [[[1; 0]]; [[1; 0]]].
Definition mix_w1 : ndarray3 := of_list3 1 2 [[[0; 1]]; [[0; 2]]].
Definition mix_h2 : ndarray3 := of_list3 1 2 [[[1; 0]]].
Definition mix_w2 : ndarray3 := of_list3 1 3 [[[0; 1; 0]]].

End Examples.

From Stdlib Require Import Permutation.

(** ** Quantities of the learning rule *)

(** The number of branches of neuron [n] whose gate fires. *)
Definition active_branches (h : ndarray3) (side_info : ndarray1) (n : nat) : R :=
  rsum (dim1 h) (fun b => b2r (gate_bit h side_info n b)).

(** The squared Euclidean norm of a 1-D array. *)
Definition sq_norm (v : ndarray1) : R :=
  rsum (len v) (fun m => at1 v m * at1 v m).

(** ** [forward_pass]

    [x] is a 2-D array and [y] a 1-D array; [zip(x, y)] pairs the rows of [x]
    with the entries of [y] and stops at the shorter one.  The rows are a
    list of 1-D arrays here and the targets a list of floats.  The weight
    arrays are the ones the steps mutate, so a pass returns the weight list
    as it leaves it, with the returned pair or the exception of the step
    that raised. *)

(** The type of [step_fn], called as
    [step_fn(x_i, weights, hyperplanes, target=y_i,
             learning_rate=learning_rate, update=update)]. *)
Definition step_fn_type : Type :=
  ndarray1 -> list ndarray3 -> list ndarray3 -> option R -> R -> bool ->
  list ndarray3 * result (R * R).

(** The two functions the notebook passes as [step_fn]; the parameters the
    call does not name take their defaults, [hyperplane_bias_magnitude = 1.]
    and [epsilon = 0.01]. *)
Definition call_step_square_loss : step_fn_type :=
  fun x_i weights hyperplanes target learning_rate update =>
    step_square_loss x_i weights hyperplanes 1 learning_rate target update.

Definition call_step_bernoulli : step_fn_type :=
  fun x_i weights hyperplanes target learning_rate update =>
    step_bernoulli x_i weights hyperplanes 1 learning_rate 0.01 target update.

(** The loop of [forward_pass], with the lists [losses] and [outputs] it
    appends to. *)
Fixpoint forward_loop (step_fn : step_fn_type) (xy : list (ndarray1 * R))
    (weights hyperplanes : list ndarray3) (learning_rate : R) (update : bool)
    (losses outputs : list R) : list ndarray3 * result (list R * list R) :=
  match xy with
  | [] => (weights, ret (losses, outputs))
  | (x_i, y_i) :: rest =>
      let st := step_fn x_i weights hyperplanes (Some y_i) learning_rate update in
      match snd st with
      | inl e => (fst st, inl e)
      | inr (y, l) =>
          forward_loop step_fn rest (fst st) hyperplanes learning_rate update
            (losses ++ [l]) (outputs ++ [y])
      end
  end.

(** [np.mean] of a list of floats.  For the empty list NumPy returns NaN,
    which the model does not have: statements about a mean are made for
    lists with an element. *)
Definition np_mean (l : list R) : R := fold_right Rplus 0 l / INR (length l).

Definition forward_pass (step_fn : step_fn_type) (x : list ndarray1) (y : list R)
    (weights hyperplanes : list ndarray3) (learning_rate : R) (update : bool)
  : list ndarray3 * result (R * list R) :=
  let st := forward_loop step_fn (combine x y) weights hyperplanes
              learning_rate update [] [] in
  (fst st,
   lo <- snd st ;;
   ret (np_mean (fst lo), snd lo)).

(** The (prediction, loss) pairs of the examples [xy] on fixed weights. *)
Definition example_results (step_fn : step_fn_type) (weights hyperplanes : list ndarray3)
    (learning_rate : R) (xy : list (ndarray1 * R)) (res : list (R * R)) : Prop :=
  Forall2 (fun e r =>
             snd (step_fn (fst e) weights hyperplanes (Some (snd e)) learning_rate false)
             = inr r) xy res.

(** ** Initialisation of weights and hyperplanes

    The notebook builds the network from [num_neurons] (neurons per layer,
    "the last element must be 1"), [num_branches] and [input_dim].  The
    Gaussian draws of [np.random.normal] are an argument here: any list of
    arrays of the drawn sizes. *)

(** [np.zeros((n, b, k))] *)
Definition np_zeros (n b k : nat) : ndarray3 := Arr3 n b k (fun _ _ _ => 0).

(** [num_inputs = np.hstack([input_dim + 1, num_neurons[:-1] + 1])] *)
Definition num_inputs (input_dim : nat) (num_neurons : list nat) : list nat :=
  (input_dim + 1)%nat :: map (fun n => (n + 1)%nat) (removelast num_neurons).

(** [weights_ = [np.zeros((num_neuron, num_branches, num_input))
                 for num_neuron, num_input in zip(num_neurons, num_inputs)]] *)
Definition init_weights (num_neurons : list nat) (num_branches input_dim : nat)
  : list ndarray3 :=
  map (fun ni => np_zeros (fst ni) num_branches (snd ni))
      (combine num_neurons (num_inputs input_dim num_neurons)).

(** [raw] is a possible value of
    [[np.random.normal(0, 1, size=(num_neuron, num_branches, input_dim + 1))
      for num_neuron in num_neurons]]. *)
Definition drawn (num_neurons : list nat) (num_branches input_dim : nat)
    (raw : list ndarray3) : Prop :=
  Forall2 (fun n h => dim0 h = n /\ dim1 h = num_branches
                      /\ dim2 h = (input_dim + 1)%nat)
          num_neurons raw.

(** [np.linalg.norm(h_[:, :, :-1], axis=(1, 2))[n]]: the Frobenius norm of
    the rows of neuron [n] without their last column. *)
Definition norm_head (h_ : ndarray3) (n : nat) : R :=
  sqrt (rsum (dim1 h_) (fun b =>
          rsum (pred (dim2 h_)) (fun k => at3 h_ n b k * at3 h_ n b k))).

(** [h_ / np.linalg.norm(h_[:, :, :-1], axis=(1, 2))[:, None, None]] *)
Definition normalise (h_ : ndarray3) : ndarray3 :=
  Arr3 (dim0 h_) (dim1 h_) (dim2 h_) (fun n b k => at3 h_ n b k / norm_head h_ n).

(** [hyperplanes_ = [h_ / ... for h_ in hyperplanes_]] *)
Definition init_hyperplanes (raw : list ndarray3) : list ndarray3 :=
  map normalise raw.

(** ** The training cell

    The last cell of the notebook runs, for each epoch, a training pass and
    an evaluation pass and prints the two mean losses and, for
    classification, the test accuracy.  What is printed is kept as a list of
    lines holding the numbers that are formatted. *)

(** [np.round] of one float: to the nearest integer, halves to the even
    one.  [up x - 1] is the floor of [x]. *)
Definition np_round (x : R) : R :=
  let f := (up x - 1)%Z in
  let d := x - IZR f in
  if Rlt_dec d (1 / 2) then IZR f
  else if Rlt_dec (1 / 2) d then IZR (f + 1)
  else if Z.even f then IZR f else IZR (f + 1).

(** [np.logical_xor(a, b)] of two 1-D arrays: the truth values of the
    entries, with a one-element array broadcast against the other. *)
Definition logical_xor (a b : list R) : result (list bool) :=
  if length a =? length b
  then ret (map (fun p => xorb (astype_bool (fst p)) (astype_bool (snd p)))
                (combine a b))
  else if length a =? 1
  then ret (map (fun v => xorb (astype_bool (hd 0 a)) (astype_bool v)) b)
  else if length b =? 1
  then ret (map (fun v => xorb (astype_bool v) (astype_bool (hd 0 b))) a)
  else raise ValueError.

(** [accuracy = 1 - np.mean(np.logical_xor(np.round(test_pred), y_test))] *)
Definition accuracy (test_pred y_test : list R) : result R :=
  d <- logical_xor (map np_round test_pred) y_test ;;
  ret (1 - np_mean (map b2r d)).

Inductive line : Type :=
| LossLine (epoch : nat) (test_loss train_loss : R)
| AccuracyLine (accuracy : R).

(** [for epoch in range(0, n_epochs): ...] over the epochs still to run.
    Returns the weights, the lines printed so far and whether the loop ended
    or raised. *)
Fixpoint training_loop (step : step_fn_type) (do_classification : bool)
    (x_train : list ndarray1) (y_train : list R)
    (x_test : list ndarray1) (y_test : list R)
    (hyperplanes_ : list ndarray3) (learning_rate_const : R)
    (epochs : list nat) (weights_ : list ndarray3) (printed : list line)
  : list ndarray3 * list line * result unit :=
  match epochs with
  | [] => (weights_, printed, ret tt)
  | epoch :: rest =>
      let tr := forward_pass step x_train y_train weights_ hyperplanes_
                  learning_rate_const true in
      match snd tr with
      | inl e => (fst tr, printed, inl e)
      | inr (train_loss, train_pred) =>
          let te := forward_pass step x_test y_test (fst tr) hyperplanes_
                      learning_rate_const false in
          match snd te with
          | inl e => (fst te, printed, inl e)
          | inr (test_loss, test_pred) =>
              let printed := printed ++ [LossLine epoch test_loss train_loss] in
              if do_classification
              then match accuracy test_pred y_test with
                   | inl e => (fst te, printed, inl e)
                   | inr a =>
                       training_loop step do_classification x_train y_train
                         x_test y_test hyperplanes_ learning_rate_const rest
                         (fst te) (printed ++ [AccuracyLine a])
                   end
              else training_loop step do_classification x_train y_train
                     x_test y_test hyperplanes_ learning_rate_const rest
                     (fst te) printed
          end
      end
  end.

(** The settings the cell chooses from [do_classification]. *)
Definition cell_n_epochs (do_classification : bool) : nat :=
  if do_classification then 3%nat else 10%nat.

Definition cell_learning_rate (do_classification : bool) : R :=
  if do_classification then 1e-4 else 1e-5.

Definition cell_step (do_classification : bool) : step_fn_type :=
  if do_classification then call_step_bernoulli else call_step_square_loss.

(** The cell. *)
Definition train (do_classification : bool)
    (x_train : list ndarray1) (y_train : list R)
    (x_test : list ndarray1) (y_test : list R)
    (weights_ hyperplanes_ : list ndarray3)
  : list ndarray3 * list line * result unit :=
  training_loop (cell_step do_classification) do_classification
    x_train y_train x_test y_test hyperplanes_
    (cell_learning_rate do_classification)
    (seq 0 (cell_n_epochs do_classification)) weights_ [].

(** The weights after [n] training passes that all return. *)
Fixpoint training_passes (step : step_fn_type) (x_train : list ndarray1)
    (y_train : list R) (hyperplanes_ : list ndarray3) (learning_rate_const : R)
    (n : nat) (weights_ : list ndarray3) : list ndarray3 :=
  match n with
  | O => weights_
  | S m =>
      training_passes step x_train y_train hyperplanes_ learning_rate_const m
        (fst (forward_pass step x_train y_train weights_ hyperplanes_
                learning_rate_const true))
  end.

(** Whether prediction [p] and label [t] agree: [p] above one half for a
    nonzero label, at most one half for label zero. *)
Definition agrees (p t : R) : bool := Bool.eqb (Rltb (1 / 2) p) (astype_bool t).

(** ** Further concrete inputs *)

Module MoreExamples.

(** Three neurons of one branch, to pair with the two-neuron hyperplane
    array [Examples.mix_h1]. *)
Definition wide_w : ndarray3 := of_list3 1 2 [[[0; 1]]; [[0; 2]]; [[0; 3]]].

End MoreExamples.

(** ** Basic facts *)

Lemma bind_inr {A B : Type} (m : result A) (k : A -> result B) (b : B) :
  bind m k = inr b -> exists a, m = inr a /\ k a = inr b.
Proof.
  destruct m as [e | a]; simpl; intros H.
  - discriminate H.
  - exists a. split; [reflexivity | exact H].
Qed.

Lemma rsum_ext (n : nat) (f g : nat -> R) :
  (forall i, (i < n)%nat -> f i = g i) -> rsum n f = rsum n g.
Proof.
  induction n as [| n IH]; intros Hfg; simpl.
  - reflexivity.
  - rewrite IH, (Hfg n) by (intros; try apply Hfg; lia). reflexivity.
Qed.

Lemma rsum_zero (n : nat) (f : nat -> R) :
  (forall i, (i < n)%nat -> f i = 0) -> rsum n f = 0.
Proof.
  induction n as [| n IH]; intros Hf; simpl.
  - reflexivity.
  - rewrite IH, (Hf n) by (intros; try apply Hf; lia). lra.
Qed.

Lemma rsum_opp (n : nat) (f : nat -> R) :
  rsum n (fun i => - f i) = - rsum n f.
Proof.
  induction n as [| n IH]; simpl.
  - lra.
  - rewrite IH. lra.
Qed.

Lemma rsum_one (f : nat -> R) : rsum 1 f = f O.
Proof. simpl. lra. Qed.

Lemma heaviside_pos (x y : R) : 0 < x -> heaviside x y = 1.
Proof.
  intros Hx. unfold heaviside.
  destruct (Rlt_dec x 0); [lra |].
  destruct (Rlt_dec 0 x); [reflexivity | lra].
Qed.

Lemma heaviside_neg (x y : R) : x < 0 -> heaviside x y = 0.
Proof.
  intros Hx. unfold heaviside.
  destruct (Rlt_dec x 0); [reflexivity | lra].
Qed.

Lemma heaviside_zero (y : R) : heaviside 0 y = y.
Proof.
  unfold heaviside.
  destruct (Rlt_dec 0 0); [lra | reflexivity].
Qed.

Lemma astype_bool_0 : astype_bool 0 = false.
Proof. unfold astype_bool. destruct (Req_dec_T 0 0); [reflexivity | lra]. Qed.

Lemma astype_bool_1 : astype_bool 1 = true.
Proof. unfold astype_bool. destruct (Req_dec_T 1 0); [lra | reflexivity]. Qed.

(** With second argument 0 the step is open at zero: the boolean is true
    exactly for a positive argument. *)
Lemma heaviside0_true (x : R) : astype_bool (heaviside x 0) = true <-> 0 < x.
Proof.
  destruct (Rtotal_order x 0) as [Hlt | [Heq | Hgt]].
  - rewrite heaviside_neg, astype_bool_0 by exact Hlt. split; [discriminate | lra].
  - subst x. rewrite heaviside_zero, astype_bool_0. split; [discriminate | lra].
  - rewrite heaviside_pos, astype_bool_1 by lra. split; [lra | reflexivity].
Qed.

Lemma heaviside0_false (x : R) : astype_bool (heaviside x 0) = false <-> x <= 0.
Proof.
  pose proof (heaviside0_true x) as H.
  destruct (astype_bool (heaviside x 0)); split; intros H'.
  - discriminate H'.
  - assert (0 < x) by (apply H; reflexivity). lra.
  - destruct (Rle_or_lt x 0) as [Hle | Hlt]; [exact Hle |].
    apply H in Hlt. discriminate Hlt.
  - reflexivity.
Qed.

(** [gate_values] succeeds exactly on aligned shapes, and then holds
    [gate_bit] at every index. *)
Lemma gate_values_inr (h : ndarray3) (s : ndarray1) (G : boolarray2) :
  gate_values h s = inr G ->
  dim2 h = len s /\ brows G = dim0 h /\ bcols G = dim1 h /\
  forall n b, bat2 G n b = gate_bit h s n b.
Proof.
  unfold gate_values, dot31. intros H.
  destruct (Nat.eqb_spec (dim2 h) (len s)) as [Heq | Hne]; simpl in H.
  - injection H as <-. simpl. repeat split; assumption.
  - discriminate H.
Qed.

Lemma gate_values_aligned (h : ndarray3) (s : ndarray1) :
  dim2 h = len s -> exists G, gate_values h s = inr G.
Proof.
  intros Heq. unfold gate_values, dot31.
  rewrite Heq, Nat.eqb_refl. simpl. eexists. reflexivity.
Qed.

(** ** GateEvaluator *)

Lemma gate_bit_true_iff (h : ndarray3) (s : ndarray1) (n b : nat) :
  gate_bit h s n b = true <-> 0 < hyperplane_dot h s n b.
Proof. apply heaviside0_true. Qed.

Lemma gate_bit_tie (h : ndarray3) (s : ndarray1) (n b : nat) :
  hyperplane_dot h s n b = 0 -> gate_bit h s n b = false.
Proof. intros Hz. apply heaviside0_false. rewrite Hz. lra. Qed.

Lemma hyperplane_dot_negate_row (h : ndarray3) (s : ndarray1) (n b i j : nat) :
  hyperplane_dot (negate_row h n b) s i j =
  if (i =? n) && (j =? b) then - hyperplane_dot h s i j else hyperplane_dot h s i j.
Proof.
  unfold hyperplane_dot, negate_row. simpl.
  destruct ((i =? n) && (j =? b)).
  - rewrite <- rsum_opp. apply rsum_ext. intros k _. lra.
  - reflexivity.
Qed.

Lemma gate_bit_negate_row_other (h : ndarray3) (s : ndarray1) (n b i j : nat) :
  (i, j) <> (n, b) -> gate_bit (negate_row h n b) s i j = gate_bit h s i j.
Proof.
  intros Hne. unfold gate_bit. rewrite hyperplane_dot_negate_row.
  destruct (Nat.eqb_spec i n) as [-> | Hi]; [| reflexivity].
  destruct (Nat.eqb_spec j b) as [-> | Hj]; [| reflexivity].
  contradiction Hne. reflexivity.
Qed.

Lemma gate_bit_negate_row_same (h : ndarray3) (s : ndarray1) (n b : nat) :
  gate_bit (negate_row h n b) s n b =
  astype_bool (heaviside (- hyperplane_dot h s n b) 0).
Proof.
  unfold gate_bit. rewrite hyperplane_dot_negate_row, !Nat.eqb_refl. reflexivity.
Qed.

Lemma gate_bit_negate_row_flip (h : ndarray3) (s : ndarray1) (n b : nat) :
  hyperplane_dot h s n b <> 0 ->
  gate_bit (negate_row h n b) s n b = negb (gate_bit h s n b).
Proof.
  intros Hnz. rewrite gate_bit_negate_row_same. unfold gate_bit.
  destruct (Rtotal_order (hyperplane_dot h s n b) 0) as [Hlt | [Heq | Hgt]].
  - rewrite (heaviside_pos (- _)), (heaviside_neg _ _ Hlt) by lra.
    rewrite astype_bool_0, astype_bool_1. reflexivity.
  - contradiction.
  - rewrite (heaviside_neg (- _)), (heaviside_pos _ _ Hgt) by lra.
    rewrite astype_bool_0, astype_bool_1. reflexivity.
Qed.

Lemma gate_bit_negate_row_tie (h : ndarray3) (s : ndarray1) (n b : nat) :
  hyperplane_dot h s n b = 0 -> gate_bit (negate_row h n b) s n b = false.
Proof.
  intros Hz. rewrite gate_bit_negate_row_same, Hz, Ropp_0, heaviside_zero.
  apply astype_bool_0.
Qed.

Lemma tie_dot_zero : hyperplane_dot Examples.tie_h Examples.tie_s 0 0 = 0.
Proof. unfold hyperplane_dot. simpl. lra. Qed.

(** C2, as the code has it: on aligned shapes the gate pattern has one bit
    per (neuron, branch), and the bit is true exactly when the dot product
    [h[n,b,:] . s] is strictly positive; at a dot product of exactly zero the
    bit is false, because the second argument of [np.heaviside] is 0. *)
Theorem gate_values_strict_threshold (h : ndarray3) (s : ndarray1) :
  dim2 h = len s ->
  exists G, gate_values h s = inr G /\
    brows G = dim0 h /\ bcols G = dim1 h /\
    (forall n b, bat2 G n b = true <-> 0 < hyperplane_dot h s n b) /\
    (forall n b, hyperplane_dot h s n b = 0 -> bat2 G n b = false).
Proof.
  intros Hal. destruct (gate_values_aligned h s Hal) as [G HG].
  exists G. destruct (gate_values_inr h s G HG) as (_ & Hr & Hc & Hbit).
  split; [exact HG |]. split; [exact Hr |]. split; [exact Hc |]. split.
  - intros n b. rewrite Hbit. apply gate_bit_true_iff.
  - intros n b Hz. rewrite Hbit. apply gate_bit_tie, Hz.
Qed.

(** The rule at the scenario's hyperplane [[1, 1]] and side information
    [[1, 2]]. *)
Lemma gate_values_strict_threshold_witness :
  exists G, gate_values Examples.sc_h (hstack 1 Examples.sc_x) = inr G /\
    brows G = dim0 Examples.sc_h /\ bcols G = dim1 Examples.sc_h /\
    (forall n b, bat2 G n b = true <->
                 0 < hyperplane_dot Examples.sc_h (hstack 1 Examples.sc_x) n b) /\
    (forall n b, hyperplane_dot Examples.sc_h (hstack 1 Examples.sc_x) n b = 0 ->
                 bat2 G n b = false).
Proof.
  apply (gate_values_strict_threshold Examples.sc_h (hstack 1 Examples.sc_x)).
  reflexivity.
Defined.

(** C2, counterexample: for the hyperplane row [[1, -1]] and side information
    [[1, 1]] the dot product is 0, which is [>= 0], and the gate is false. *)
Lemma gate_ties_to_one_fails :
  ~ gate_ties_to_one Examples.tie_h Examples.tie_s.
Proof.
  intros Hspec.
  destruct (gate_values_aligned Examples.tie_h Examples.tie_s eq_refl) as [G HG].
  destruct (gate_values_inr _ _ _ HG) as (_ & Hr & Hc & Hbit).
  specialize (Hspec G HG 0%nat 0%nat).
  rewrite Hr, Hc, Hbit, (gate_bit_tie _ _ _ _ tie_dot_zero), tie_dot_zero in Hspec.
  destruct (Hspec Nat.lt_0_1 Nat.lt_0_1) as [_ Hback].
  discriminate Hback. lra.
Qed.

(** C3, as the code has it: the gate pattern is a boolean matrix of the
    shape of the first two axes of [h]; negating row [(n, b)] leaves every
    other gate unchanged, and it flips gate [(n, b)] exactly when the dot
    product of that row with [s] is nonzero.  On a zero dot product the gate
    is false before and after. *)
Theorem negate_row_gate (h : ndarray3) (s : ndarray1) (n b : nat) :
  dim2 h = len s ->
  exists G G',
    gate_values h s = inr G /\ gate_values (negate_row h n b) s = inr G' /\
    brows G' = brows G /\ bcols G' = bcols G /\
    (forall i j, (i, j) <> (n, b) -> bat2 G' i j = bat2 G i j) /\
    (hyperplane_dot h s n b <> 0 -> bat2 G' n b = negb (bat2 G n b)) /\
    (hyperplane_dot h s n b = 0 -> bat2 G n b = false /\ bat2 G' n b = false).
Proof.
  intros Hal.
  destruct (gate_values_aligned h s Hal) as [G HG].
  destruct (gate_values_aligned (negate_row h n b) s Hal) as [G' HG'].
  exists G, G'.
  destruct (gate_values_inr _ _ _ HG) as (_ & Hr & Hc & Hbit).
  destruct (gate_values_inr _ _ _ HG') as (_ & Hr' & Hc' & Hbit').
  split; [exact HG |]. split; [exact HG' |].
  split; [rewrite Hr, Hr'; reflexivity |].
  split; [rewrite Hc, Hc'; reflexivity |].
  split; [| split].
  - intros i j Hne. rewrite Hbit, Hbit'. apply gate_bit_negate_row_other, Hne.
  - intros Hnz. rewrite Hbit, Hbit'. apply gate_bit_negate_row_flip, Hnz.
  - intros Hz. rewrite Hbit, Hbit'. split.
    + apply gate_bit_tie, Hz.
    + apply gate_bit_negate_row_tie, Hz.
Qed.

(** The rule at the orthogonal row, where the zero case applies. *)
Lemma negate_row_gate_witness :
  exists G G',
    gate_values Examples.tie_h Examples.tie_s = inr G /\
    gate_values (negate_row Examples.tie_h 0 0) Examples.tie_s = inr G' /\
    brows G' = brows G /\ bcols G' = bcols G /\
    (forall i j, (i, j) <> (0%nat, 0%nat) -> bat2 G' i j = bat2 G i j) /\
    (hyperplane_dot Examples.tie_h Examples.tie_s 0 0 <> 0 ->
     bat2 G' 0 0 = negb (bat2 G 0 0)) /\
    (hyperplane_dot Examples.tie_h Examples.tie_s 0 0 = 0 ->
     bat2 G 0 0 = false /\ bat2 G' 0 0 = false).
Proof.
  apply (negate_row_gate Examples.tie_h Examples.tie_s 0 0).
  reflexivity.
Defined.

(** C3, counterexample: negating the row [[1, -1]], whose dot product with
    [[1, 1]] is zero, changes no gate at all. *)
Lemma negation_flips_exactly_fails :
  ~ negation_flips_exactly Examples.tie_h Examples.tie_s 0 0.
Proof.
  intros Hspec.
  destruct (gate_values_aligned Examples.tie_h Examples.tie_s eq_refl) as [G HG].
  destruct (gate_values_aligned (negate_row Examples.tie_h 0 0) Examples.tie_s eq_refl)
    as [G' HG'].
  destruct (Hspec G G' HG HG') as [Hflip _].
  destruct (gate_values_inr _ _ _ HG) as (_ & _ & _ & Hbit).
  destruct (gate_values_inr _ _ _ HG') as (_ & _ & _ & Hbit').
  apply Hflip. rewrite Hbit, Hbit'.
  rewrite (gate_bit_tie _ _ _ _ tie_dot_zero).
  apply gate_bit_negate_row_tie, tie_dot_zero.
Qed.

(** ** LayerStep: effective weights *)

(** Evaluation of a step on concrete arrays: unfold the array operations,
    keeping the real arithmetic folded, and decide the gates. *)
Ltac np_simpl := cbn -[Rplus Rmult Rminus Rdiv Ropp Rinv pow IZR exp ln Rmin Rmax].
Ltac np_gates :=
  repeat first
    [ rewrite heaviside_pos by lra
    | rewrite heaviside_neg by lra ];
  rewrite ?astype_bool_1, ?astype_bool_0.
Ltac np_eval := np_simpl; np_gates; np_simpl.

(** What [gate_values.dot(w).sum(axis=1)] computes: the sum product runs over
    the branch axis, and the summed axis 1 of the 3-D intermediate is the
    neuron axis of [w]. *)
Lemma effective_weights_inr (g : boolarray2) (w : ndarray3) (E : ndarray2) :
  effective_weights g w = inr E ->
  bcols g = dim1 w /\ rows E = brows g /\ cols E = dim2 w /\
  forall n m, at2 E n m =
    rsum (dim0 w) (fun k => rsum (dim1 w) (fun j => b2r (bat2 g n j) * at3 w k j m)).
Proof.
  unfold effective_weights, dot23. intros H.
  destruct (Nat.eqb_spec (bcols g) (dim1 w)) as [Heq | Hne]; simpl in H.
  - injection H as <-. simpl. rewrite Heq. repeat split; reflexivity.
  - discriminate H.
Qed.

Lemma effective_weights_aligned (g : boolarray2) (w : ndarray3) :
  bcols g = dim1 w -> exists E, effective_weights g w = inr E.
Proof.
  intros Heq. unfold effective_weights, dot23.
  rewrite Heq, Nat.eqb_refl. simpl. eexists. reflexivity.
Qed.

(** Every neuron's effective weights are the gated sum over the rows of all
    neurons of [w]: they are the specification's per-neuron sum only when the
    other neurons contribute nothing. *)
Lemma effective_weights_all_neurons (g : boolarray2) (w : ndarray3) (E : ndarray2) :
  effective_weights g w = inr E ->
  forall n m, at2 E n m = rsum (dim0 w) (fun k =>
                rsum (dim1 w) (fun b => b2r (bat2 g n b) * at3 w k b m)).
Proof. intros H. apply (effective_weights_inr g w E H). Qed.

(** On a layer of a single neuron the code and the specification agree. *)
Lemma effective_weights_single_neuron (g : boolarray2) (w : ndarray3) (E : ndarray2) :
  effective_weights g w = inr E -> dim0 w = 1%nat ->
  forall m, at2 E 0 m = effective_weights_spec g w 0 m.
Proof.
  intros H H1 m. rewrite (effective_weights_all_neurons g w E H), H1, rsum_one.
  reflexivity.
Qed.

(** C1, the code at a two-neuron layer: with both gates firing and weight
    rows [[0, 1]] and [[0, 2]], the effective weight of neuron 0 at index 1
    is 3, the sum of both neurons' rows, where the per-neuron sum of the
    specification is 1; the step returns prediction 3. *)
Lemma step_square_loss_mixes_neurons :
  (exists G E,
     gate_values Examples.mix_h1 (hstack 1 Examples.mix_x) = inr G /\
     effective_weights G Examples.mix_w1 = inr E /\
     at2 E 0 1 = 3 /\
     effective_weights_spec G Examples.mix_w1 0 1 = 1) /\
  snd (step_square_loss Examples.mix_x
         [Examples.mix_w1; Examples.mix_w2] [Examples.mix_h1; Examples.mix_h2]
         1 0.1 (Some 0) false) = inr (3, 9 / 2).
Proof.
  split.
  - do 2 eexists. split; [reflexivity |]. split; [reflexivity |]. split.
    + np_eval. lra.
    + unfold effective_weights_spec. np_eval. lra.
  - np_eval. unfold ret. do 2 f_equal; lra.
Qed.

(** ** LayerStep: the in-place update *)

Lemma dot21_inr (a : ndarray2) (v r : ndarray1) :
  dot21 a v = inr r ->
  cols a = len v /\ len r = rows a /\
  forall i, at1 r i = rsum (len v) (fun m => at2 a i m * at1 v m).
Proof.
  unfold dot21. intros H.
  destruct (Nat.eqb_spec (cols a) (len v)) as [Heq | Hne]; simpl in H.
  - injection H as <-. simpl. repeat split; assumption.
  - discriminate H.
Qed.

Lemma isub_inr (w d w' : ndarray3) :
  isub w d = inr w' ->
  dim0 w' = dim0 w /\ dim1 w' = dim1 w /\ dim2 w' = dim2 w /\
  forall n b m, at3 w' n b m =
    at3 w n b m - at3 d (bidx (dim0 d) (dim0 w) n) (bidx (dim1 d) (dim1 w) b)
                        (bidx (dim2 d) (dim2 w) m).
Proof.
  unfold isub. intros H.
  destruct (broadcastable (dim0 d) (dim0 w) && broadcastable (dim1 d) (dim1 w)
            && broadcastable (dim2 d) (dim2 w)); simpl in H.
  - injection H as <-. simpl. repeat split; reflexivity.
  - discriminate H.
Qed.

Lemma bidx_same (d i : nat) : bidx d d i = i.
Proof. unfold bidx. rewrite Nat.eqb_refl. reflexivity. Qed.

(** The update on matching shapes: row [(n, b)] moves by
    [learning_rate * gate * grad[n,:]]. *)
Lemma isub_gated_delta (w w' : ndarray3) (lr : R) (g : boolarray2) (grad : ndarray2) :
  isub w (gated_delta lr g grad) = inr w' ->
  brows g = dim0 w -> bcols g = dim1 w -> cols grad = dim2 w ->
  forall n b m, at3 w' n b m = at3 w n b m - lr * b2r (bat2 g n b) * at2 grad n m.
Proof.
  intros H H0 H1 H2 n b m.
  destruct (isub_inr _ _ _ H) as (_ & _ & _ & Hat).
  rewrite Hat. simpl. rewrite H0, H1, H2, !bidx_same. reflexivity.
Qed.

(** The layer of [step_square_loss], inverted: the gate pattern is that of
    [h], and the output is the gated product. *)
Lemma layer_square_loss_inr (side : ndarray1) (lr : R) (target : option R)
    (update : bool) (w h : ndarray3) (r : ndarray1) (w' : ndarray3) (r_out : ndarray1) :
  layer_square_loss side lr target update w h r = inr (w', r_out) ->
  exists G E,
    gate_values h side = inr G /\ effective_weights G w = inr E /\
    dot21 E (hstack 1 r) = inr r_out /\
    if update
    then exists t, target = Some t /\
         isub w (gated_delta lr G
                   (Arr2 (len r_out) (S (len r))
                      (fun n m => (at1 r_out n - t) * at1 (hstack 1 r) m))) = inr w'
    else w' = w.
Proof.
  unfold layer_square_loss. intros H.
  apply bind_inr in H as (G & HG & H).
  apply bind_inr in H as (E & HE & H).
  apply bind_inr in H as (ro & Hro & H).
  apply bind_inr in H as (w1 & Hw & H).
  injection H as -> ->.
  exists G, E. repeat split; try assumption.
  destruct update.
  - apply bind_inr in Hw as (grad & Hgrad & Hsub).
    unfold residual_outer in Hgrad. destruct target as [t |]; [| discriminate Hgrad].
    injection Hgrad as <-. exists t. split; [reflexivity | exact Hsub].
  - injection Hw as <-. reflexivity.
Qed.

(** The same for the layer of [step_bernoulli]. *)
Lemma layer_bernoulli_inr (side : ndarray1) (lr eps : R) (target : option R)
    (update : bool) (w h : ndarray3) (r : ndarray1) (w' : ndarray3) (r_out : ndarray1) :
  layer_bernoulli side lr eps target update w h r = inr (w', r_out) ->
  exists G E h_out,
    gate_values h side = inr G /\ effective_weights G w = inr E /\
    dot21 E (map1 inverse_sigmoid (hstack (sigmoid 1) r)) = inr h_out /\
    r_out = map1 (fun x => clip (sigmoid x) eps (1 - eps)) h_out /\
    if update
    then exists t, target = Some t /\
         isub w (gated_delta lr G
                   (Arr2 (len r_out) (S (len r))
                      (fun n m =>
                         (at1 r_out n - t)
                         * at1 (map1 inverse_sigmoid (hstack (sigmoid 1) r)) m
                         * b2r (bat1 (update_indicator r_out eps) n)))) = inr w'
    else w' = w.
Proof.
  unfold layer_bernoulli. intros H.
  apply bind_inr in H as (G & HG & H).
  apply bind_inr in H as (E & HE & H).
  apply bind_inr in H as (ho & Hho & H).
  apply bind_inr in H as (w1 & Hw & H).
  injection H as -> <-.
  exists G, E, ho. repeat split; try assumption.
  destruct update.
  - apply bind_inr in Hw as (grad & Hgrad & Hsub).
    unfold bernoulli_grad, residual_outer in Hgrad.
    destruct target as [t |]; [| discriminate Hgrad].
    injection Hgrad as <-. exists t. split; [reflexivity | exact Hsub].
  - injection Hw as <-. reflexivity.
Qed.

Lemma frame_refl (side : ndarray1) (h w : ndarray3) : frame side h w w.
Proof. repeat split; reflexivity. Qed.

(** A successful update through [gate_values h side] respects the frame. *)
Lemma isub_gated_delta_frame (side : ndarray1) (h w w' : ndarray3) (lr : R)
    (G : boolarray2) (E grad : ndarray2) :
  gate_values h side = inr G -> effective_weights G w = inr E ->
  cols grad = cols E ->
  isub w (gated_delta lr G grad) = inr w' ->
  frame side h w w'.
Proof.
  intros HG HE Hcols Hsub.
  destruct (gate_values_inr _ _ _ HG) as (_ & Hr & _ & Hbit).
  destruct (effective_weights_inr _ _ _ HE) as (Hb & _ & Hc & _).
  destruct (isub_inr _ _ _ Hsub) as (H0 & H1 & H2 & _).
  split; [exact H0 |]. split; [exact H1 |]. split; [exact H2 |].
  intros Hn n b m Hgate.
  rewrite (isub_gated_delta _ _ _ _ _ Hsub) by congruence.
  rewrite Hbit, Hgate. simpl. ring.
Qed.

Lemma layer_square_loss_frame (side : ndarray1) (lr : R) (target : option R)
    (update : bool) (w h : ndarray3) (r : ndarray1) (w' : ndarray3) (r_out : ndarray1) :
  layer_square_loss side lr target update w h r = inr (w', r_out) ->
  frame side h w w'.
Proof.
  intros H.
  destruct (layer_square_loss_inr _ _ _ _ _ _ _ _ _ H) as (G & E & HG & HE & Hdot & Hw).
  destruct update.
  - destruct Hw as (t & _ & Hsub).
    refine (isub_gated_delta_frame side h w w' lr G E _ HG HE _ Hsub).
    simpl. destruct (dot21_inr _ _ _ Hdot) as (Hc & _). rewrite Hc. reflexivity.
  - subst w'. apply frame_refl.
Qed.

Lemma layer_bernoulli_frame (side : ndarray1) (lr eps : R) (target : option R)
    (update : bool) (w h : ndarray3) (r : ndarray1) (w' : ndarray3) (r_out : ndarray1) :
  layer_bernoulli side lr eps target update w h r = inr (w', r_out) ->
  frame side h w w'.
Proof.
  intros H.
  destruct (layer_bernoulli_inr _ _ _ _ _ _ _ _ _ _ H)
    as (G & E & ho & HG & HE & Hdot & _ & Hw).
  destruct update.
  - destruct Hw as (t & _ & Hsub).
    refine (isub_gated_delta_frame side h w w' lr G E _ HG HE _ Hsub).
    simpl. destruct (dot21_inr _ _ _ Hdot) as (Hc & _). rewrite Hc. reflexivity.
  - subst w'. apply frame_refl.
Qed.

(** ** NetworkStep: the layer loop *)

Section Loop.

Variable layer : ndarray3 -> ndarray3 -> ndarray1 -> result (ndarray3 * ndarray1).

(** A loop whose body never rebinds a weight array leaves the list as is. *)
Lemma run_layers_unchanged :
  (forall w h r w' r', layer w h r = inr (w', r') -> w' = w) ->
  forall ws hs r ro, fst (run_layers layer ws hs r ro) = ws.
Proof.
  intros Hbody. induction ws as [| w ws IH]; intros hs r ro.
  - reflexivity.
  - destruct hs as [| h hs]; [reflexivity |]. simpl.
    destruct (layer w h r) as [e | [w' r']] eqn:Hl; [reflexivity |].
    simpl. rewrite IH, (Hbody _ _ _ _ _ Hl). reflexivity.
Qed.

(** A relation between a layer's hyperplanes and its weights before and
    after, established by the body on success and reflexive, holds at every
    layer when the loop ends, whether it ran to the end or raised; a weight
    array with no hyperplane partner is not touched. *)
Lemma run_layers_pointwise (P : ndarray3 -> ndarray3 -> ndarray3 -> Prop) :
  (forall w h r w' r', layer w h r = inr (w', r') -> P h w w') ->
  (forall h w, P h w w) ->
  forall ws hs r ro,
    length (fst (run_layers layer ws hs r ro)) = length ws /\
    (forall i w w' h,
       nth_error ws i = Some w ->
       nth_error (fst (run_layers layer ws hs r ro)) i = Some w' ->
       nth_error hs i = Some h -> P h w w') /\
    (forall i, nth_error hs i = None ->
       nth_error (fst (run_layers layer ws hs r ro)) i = nth_error ws i).
Proof.
  intros Hbody Hrefl. induction ws as [| w ws IH]; intros hs r ro.
  - simpl. split; [reflexivity |]. split; [| reflexivity].
    intros i w w' h Hw. destruct i; discriminate Hw.
  - destruct hs as [| h hs].
    + simpl. split; [reflexivity |]. split; [| reflexivity].
      intros i w0 w' h _ _ Hh. destruct i; discriminate Hh.
    + simpl. destruct (layer w h r) as [e | [w1 r1]] eqn:Hl.
      * simpl. split; [reflexivity |]. split; [| reflexivity].
        intros i w0 w' h0 Hw Hw' _. rewrite Hw in Hw'. injection Hw' as <-.
        apply Hrefl.
      * simpl. destruct (IH hs r1 (Some r1)) as (Hlen & Hframe & Hrest).
        split; [rewrite Hlen; reflexivity |]. split.
        -- intros [| i] w0 w' h0 Hw Hw' Hh; simpl in Hw, Hw', Hh.
           ++ injection Hw as <-. injection Hw' as <-. injection Hh as <-.
              apply (Hbody _ _ _ _ _ Hl).
           ++ apply (Hframe i w0 w' h0 Hw Hw' Hh).
        -- intros [| i] Hh; simpl in Hh; [discriminate Hh |].
           simpl. apply Hrest, Hh.
Qed.

End Loop.

Lemma layer_square_loss_no_update (side : ndarray1) (lr : R) (target : option R)
    (w h : ndarray3) (r : ndarray1) (w' : ndarray3) (r_out : ndarray1) :
  layer_square_loss side lr target false w h r = inr (w', r_out) -> w' = w.
Proof.
  intros H.
  destruct (layer_square_loss_inr _ _ _ _ _ _ _ _ _ H) as (G & E & _ & _ & _ & Hw).
  exact Hw.
Qed.

Lemma layer_bernoulli_no_update (side : ndarray1) (lr eps : R) (target : option R)
    (w h : ndarray3) (r : ndarray1) (w' : ndarray3) (r_out : ndarray1) :
  layer_bernoulli side lr eps target false w h r = inr (w', r_out) -> w' = w.
Proof.
  intros H.
  destruct (layer_bernoulli_inr _ _ _ _ _ _ _ _ _ _ H)
    as (G & E & ho & _ & _ & _ & _ & Hw).
  exact Hw.
Qed.

(** C5: a step with [update = false] returns the weight list it was given;
    a step with [update = true] keeps the length of the list and the shape
    of every array, changes no array that has no hyperplane partner, and in
    layer [i] leaves every row [(n, b)] whose gate [gate_bit h_i side_info n b]
    is false as it was.  This holds when the step returns and when it raises,
    for both variants. *)
Theorem update_locality (x : ndarray1) (ws hs : list ndarray3) (c lr eps : R)
    (t : option R) (update : bool) (ws' : list ndarray3) :
  ws' = fst (step_square_loss x ws hs c lr t update) \/
  ws' = fst (step_bernoulli x ws hs c lr eps t update) ->
  (update = false -> ws' = ws) /\
  length ws' = length ws /\
  (forall i, nth_error hs i = None -> nth_error ws' i = nth_error ws i) /\
  forall i w w' h,
    nth_error ws i = Some w -> nth_error ws' i = Some w' -> nth_error hs i = Some h ->
    dim0 w' = dim0 w /\ dim1 w' = dim1 w /\ dim2 w' = dim2 w /\
    (dim0 h = dim0 w ->
     forall n b m, gate_bit h (hstack c x) n b = false ->
       at3 w' n b m = at3 w n b m).
Proof.
  intros [-> | ->]; unfold step_square_loss, step_bernoulli; simpl fst.
  - split.
    + intros ->. apply run_layers_unchanged. intros w h r w' r'.
      apply layer_square_loss_no_update.
    + destruct (run_layers_pointwise
                  (layer_square_loss (hstack c x) lr t update)
                  (frame (hstack c x))
                  (fun w h r w' r' => layer_square_loss_frame _ _ _ _ w h r w' r')
                  (frame_refl (hstack c x)) ws hs x None) as (Hlen & Hframe & Hrest).
      split; [exact Hlen |]. split; [exact Hrest |]. exact Hframe.
  - split.
    + intros ->. apply run_layers_unchanged. intros w h r w' r'.
      apply layer_bernoulli_no_update.
    + destruct (run_layers_pointwise
                  (layer_bernoulli (hstack c x) lr eps t update)
                  (frame (hstack c x))
                  (fun w h r w' r' => layer_bernoulli_frame _ _ _ _ _ w h r w' r')
                  (frame_refl (hstack c x)) ws hs
                  (map1 (fun v => clip (sigmoid v) eps (1 - eps)) x) None)
        as (Hlen & Hframe & Hrest).
      split; [exact Hlen |]. split; [exact Hrest |]. exact Hframe.
Qed.

(** A layer of one neuron and two branches: the second gate is false, and
    after an updating step the second weight row is still [[5, 7]]. *)
Lemma loc_gate_false :
  gate_bit Examples.loc_h (hstack 1 Examples.sc_x) 0 1 = false.
Proof. unfold gate_bit, hyperplane_dot. np_eval. reflexivity. Qed.

Lemma update_locality_witness :
  gate_bit Examples.loc_h (hstack 1 Examples.sc_x) 0 1 = false /\
  exists w',
    nth_error (fst (step_square_loss Examples.sc_x [Examples.loc_w] [Examples.loc_h]
                      1 0.1 (Some 3) true)) 0 = Some w' /\
    dim0 w' = 1%nat /\ dim1 w' = 2%nat /\ dim2 w' = 2%nat /\
    at3 w' 0 1 0 = 5 /\ at3 w' 0 1 1 = 7.
Proof.
  split; [exact loc_gate_false |].
  eexists. split; [reflexivity |].
  destruct (update_locality Examples.sc_x [Examples.loc_w] [Examples.loc_h]
              1 0.1 0 (Some 3) true _ (or_introl eq_refl)) as (_ & _ & _ & Hframe).
  destruct (Hframe 0%nat Examples.loc_w _ Examples.loc_h eq_refl eq_refl eq_refl)
    as (H0 & H1 & H2 & Hrow).
  split; [exact H0 |]. split; [exact H1 |]. split; [exact H2 |].
  split; exact (Hrow eq_refl 0%nat 1%nat _ loc_gate_false).
Defined.

(** ** Well-shaped networks return *)

Lemma layer_ok_true (d k : nat) (w h : ndarray3) :
  layer_ok d k w h = true ->
  dim0 h = dim0 w /\ dim1 h = dim1 w /\ dim2 h = S d /\ dim2 w = S k.
Proof.
  unfold layer_ok. rewrite !andb_true_iff, !Nat.eqb_eq. tauto.
Qed.

(** On well-shaped operands the update is defined. *)
Lemma isub_gated_delta_total (w : ndarray3) (lr : R) (g : boolarray2) (grad : ndarray2) :
  brows g = dim0 w -> bcols g = dim1 w -> cols grad = dim2 w ->
  exists w', isub w (gated_delta lr g grad) = inr w'.
Proof.
  intros H0 H1 H2. unfold isub, broadcastable. simpl.
  rewrite H0, H1, H2, !Nat.eqb_refl. simpl. eexists. reflexivity.
Qed.

(** A well-shaped layer of [step_square_loss] returns, with one output per
    neuron, provided a target is given when [update] is set. *)
Lemma layer_square_loss_total (side : ndarray1) (lr : R) (target : option R)
    (update : bool) (d : nat) (w h : ndarray3) (r : ndarray1) :
  len side = S d -> (update = true -> target <> None) ->
  layer_ok d (len r) w h = true ->
  exists w' r', layer_square_loss side lr target update w h r = inr (w', r')
                /\ len r' = dim0 w.
Proof.
  intros Hside Htarget Hok.
  apply layer_ok_true in Hok as (H0 & H1 & H2 & H3).
  unfold layer_square_loss.
  destruct (gate_values_aligned h side) as [G HG]; [congruence |].
  destruct (gate_values_inr _ _ _ HG) as (_ & Hr & Hc & _).
  rewrite HG. simpl.
  destruct (effective_weights_aligned G w) as [E HE]; [congruence |].
  destruct (effective_weights_inr _ _ _ HE) as (_ & HEr & HEc & _).
  rewrite HE. simpl.
  unfold dot21. simpl. rewrite HEc, H3, Nat.eqb_refl. simpl.
  destruct update.
  - destruct target as [t |]; [| contradiction (Htarget eq_refl); reflexivity].
    simpl.
    edestruct (isub_gated_delta_total w lr G) as [w' Hw'];
      [congruence | congruence | | rewrite Hw'].
    + simpl. symmetry. exact H3.
    + simpl. do 2 eexists. split; [reflexivity |]. simpl. congruence.
  - simpl. do 2 eexists. split; [reflexivity |]. simpl. congruence.
Qed.

Lemma layer_bernoulli_total (side : ndarray1) (lr eps : R) (target : option R)
    (update : bool) (d : nat) (w h : ndarray3) (r : ndarray1) :
  len side = S d -> (update = true -> target <> None) ->
  layer_ok d (len r) w h = true ->
  exists w' r', layer_bernoulli side lr eps target update w h r = inr (w', r')
                /\ len r' = dim0 w.
Proof.
  intros Hside Htarget Hok.
  apply layer_ok_true in Hok as (H0 & H1 & H2 & H3).
  unfold layer_bernoulli.
  destruct (gate_values_aligned h side) as [G HG]; [congruence |].
  destruct (gate_values_inr _ _ _ HG) as (_ & Hr & Hc & _).
  rewrite HG. simpl.
  destruct (effective_weights_aligned G w) as [E HE]; [congruence |].
  destruct (effective_weights_inr _ _ _ HE) as (_ & HEr & HEc & _).
  rewrite HE. simpl.
  unfold dot21. simpl. rewrite HEc, H3, Nat.eqb_refl. simpl.
  destruct update.
  - destruct target as [t |]; [| contradiction (Htarget eq_refl); reflexivity].
    simpl.
    edestruct (isub_gated_delta_total w lr G) as [w' Hw'];
      [congruence | congruence | | rewrite Hw'].
    + simpl. symmetry. exact H3.
    + simpl. do 2 eexists. split; [reflexivity |]. simpl. congruence.
  - simpl. do 2 eexists. split; [reflexivity |]. simpl. congruence.
Qed.

Section LoopResult.

Variable layer : ndarray3 -> ndarray3 -> ndarray1 -> result (ndarray3 * ndarray1).

(** The activation the loop ends with is the one it started with or the
    output of the body on one of the weight arrays. *)
Lemma run_layers_last (ws hs : list ndarray3) (r : ndarray1) (ro : option ndarray1)
    (v : ndarray1) :
  snd (run_layers layer ws hs r ro) = inr (Some v) ->
  ro = Some v \/
  exists w h r0 w1, In w ws /\ layer w h r0 = inr (w1, v).
Proof.
  revert hs r ro. induction ws as [| w ws IH]; intros hs r ro H.
  - left. simpl in H. injection H as ->. reflexivity.
  - destruct hs as [| h hs].
    + left. simpl in H. injection H as ->. reflexivity.
    + right. simpl in H.
      destruct (layer w h r) as [e | [w1 r1]] eqn:Hl; simpl in H.
      * discriminate H.
      * destruct (IH hs r1 (Some r1) H) as [Hro | (w0 & h0 & r0 & w2 & Hin & Hl0)].
        -- injection Hro as ->. exists w, h, r, w1.
           split; [left; reflexivity | exact Hl].
        -- exists w0, h0, r0, w2. split; [right; exact Hin | exact Hl0].
Qed.

Variable d : nat.

Hypothesis layer_total :
  forall w h r, layer_ok d (len r) w h = true ->
    exists w' r', layer w h r = inr (w', r') /\ len r' = dim0 w.

(** On a well-shaped stack of at least one layer the loop runs to the end
    and leaves a single output. *)
Lemma run_layers_total (ws hs : list ndarray3) (r : ndarray1) (ro : option ndarray1) :
  ws <> [] -> stack_ok d (len r) ws hs = true ->
  exists v, snd (run_layers layer ws hs r ro) = inr (Some v) /\ len v = 1%nat.
Proof.
  revert hs r ro. induction ws as [| w ws IH]; intros hs r ro Hne Hok.
  - contradiction Hne. reflexivity.
  - destruct hs as [| h hs]; [discriminate Hok |].
    simpl in Hok. apply andb_true_iff in Hok as [Hl Hrest].
    destruct (layer_total w h r Hl) as (w' & r' & Hrun & Hlen).
    simpl. rewrite Hrun. simpl.
    destruct ws as [| w2 ws].
    + destruct hs as [| h2 hs]; [| discriminate Hrest].
      simpl in Hrest. apply Nat.eqb_eq in Hrest.
      exists r'. split; [reflexivity | congruence].
    + apply IH; [discriminate | rewrite Hlen; exact Hrest].
Qed.

End LoopResult.

Lemma network_ok_true (d : nat) (ws hs : list ndarray3) :
  network_ok d ws hs = true -> ws <> [] /\ stack_ok d d ws hs = true.
Proof.
  unfold network_ok. destruct ws as [| w ws]; intros H.
  - discriminate H.
  - split; [discriminate | exact H].
Qed.

Lemma getitem0_inr (v : ndarray1) (p : R) : getitem0 v = inr p -> p = at1 v 0.
Proof.
  unfold getitem0. destruct (len v); intros H.
  - discriminate H.
  - injection H as <-. reflexivity.
Qed.

Lemma getitem0_one (v : ndarray1) : len v = 1%nat -> getitem0 v = inr (at1 v 0).
Proof. unfold getitem0. intros ->. reflexivity. Qed.

(** The result of a step, read off the loop. *)
Lemma step_square_loss_inr (x : ndarray1) (ws hs : list ndarray3) (c lr : R)
    (t : option R) (u : bool) (p l : R) :
  snd (step_square_loss x ws hs c lr t u) = inr (p, l) ->
  exists v tv,
    snd (run_layers (layer_square_loss (hstack c x) lr t u) ws hs x None)
      = inr (Some v) /\
    p = at1 v 0 /\ t = Some tv /\ l = (tv - p) ^ 2 / 2.
Proof.
  unfold step_square_loss. simpl snd. intros H.
  apply bind_inr in H as (ro & Hro & H).
  apply bind_inr in H as (p0 & Hp & H).
  apply bind_inr in H as (l0 & Hl & H).
  injection H as -> ->.
  destruct ro as [v |]; [| discriminate Hp].
  destruct t as [tv |]; [| discriminate Hl].
  injection Hl as <-.
  exists v, tv. split; [exact Hro |]. split; [apply getitem0_inr, Hp |].
  split; reflexivity.
Qed.

Lemma step_bernoulli_inr (x : ndarray1) (ws hs : list ndarray3) (c lr eps : R)
    (t : option R) (u : bool) (p l : R) :
  snd (step_bernoulli x ws hs c lr eps t u) = inr (p, l) ->
  exists v tv,
    snd (run_layers (layer_bernoulli (hstack c x) lr eps t u) ws hs
           (map1 (fun a => clip (sigmoid a) eps (1 - eps)) x) None)
      = inr (Some v) /\
    p = at1 v 0 /\ t = Some tv /\ l = - (tv * p + (1 - tv) * (1 - p)).
Proof.
  unfold step_bernoulli. simpl snd. intros H.
  apply bind_inr in H as (ro & Hro & H).
  apply bind_inr in H as (p0 & Hp & H).
  apply bind_inr in H as (l0 & Hl & H).
  injection H as -> ->.
  destruct ro as [v |]; [| discriminate Hp].
  destruct t as [tv |]; [| discriminate Hl].
  injection Hl as <-.
  exists v, tv. split; [exact Hro |]. split; [apply getitem0_inr, Hp |].
  split; reflexivity.
Qed.

(** A well-shaped network with a target returns from either step. *)
Lemma step_square_loss_total (x : ndarray1) (ws hs : list ndarray3) (c lr tv : R)
    (u : bool) :
  network_ok (len x) ws hs = true ->
  exists v,
    snd (run_layers (layer_square_loss (hstack c x) lr (Some tv) u) ws hs x None)
      = inr (Some v) /\
    snd (step_square_loss x ws hs c lr (Some tv) u)
      = inr (at1 v 0, (tv - at1 v 0) ^ 2 / 2).
Proof.
  intros Hok. apply network_ok_true in Hok as [Hne Hok].
  destruct (run_layers_total (layer_square_loss (hstack c x) lr (Some tv) u) (len x))
    with (ws := ws) (hs := hs) (r := x) (ro := @None ndarray1) as (v & Hv & Hlen);
    try assumption.
  - intros w h r. apply layer_square_loss_total; [reflexivity | discriminate].
  - exists v. split; [exact Hv |].
    unfold step_square_loss. simpl snd. rewrite Hv. simpl.
    rewrite (getitem0_one v Hlen). reflexivity.
Qed.

Lemma step_bernoulli_total (x : ndarray1) (ws hs : list ndarray3) (c lr eps tv : R)
    (u : bool) :
  network_ok (len x) ws hs = true ->
  exists v,
    snd (run_layers (layer_bernoulli (hstack c x) lr eps (Some tv) u) ws hs
           (map1 (fun a => clip (sigmoid a) eps (1 - eps)) x) None)
      = inr (Some v) /\
    snd (step_bernoulli x ws hs c lr eps (Some tv) u)
      = inr (at1 v 0, - (tv * at1 v 0 + (1 - tv) * (1 - at1 v 0))).
Proof.
  intros Hok. apply network_ok_true in Hok as [Hne Hok].
  destruct (run_layers_total (layer_bernoulli (hstack c x) lr eps (Some tv) u) (len x))
    with (ws := ws) (hs := hs)
         (r := map1 (fun a => clip (sigmoid a) eps (1 - eps)) x)
         (ro := @None ndarray1) as (v & Hv & Hlen);
    try assumption.
  - intros w h r. apply layer_bernoulli_total; [reflexivity | discriminate].
  - exists v. split; [exact Hv |].
    unfold step_bernoulli. simpl snd. rewrite Hv. simpl.
    rewrite (getitem0_one v Hlen). reflexivity.
Qed.

(** ** Bernoulli variant: the output bound *)

Lemma clip_bounds (x lo hi : R) : lo <= hi -> lo <= clip x lo hi <= hi.
Proof.
  intros Hle. unfold clip. split.
  - apply Rmin_glb; [apply Rmax_r | exact Hle].
  - apply Rmin_r.
Qed.

(** Every output of a Bernoulli layer is a clipped value. *)
Lemma layer_bernoulli_bounds (side : ndarray1) (lr eps : R) (t : option R) (u : bool)
    (w h : ndarray3) (r : ndarray1) (w' : ndarray3) (r_out : ndarray1) :
  eps <= 1 - eps ->
  layer_bernoulli side lr eps t u w h r = inr (w', r_out) ->
  forall n, eps <= at1 r_out n <= 1 - eps.
Proof.
  intros Heps H n.
  destruct (layer_bernoulli_inr _ _ _ _ _ _ _ _ _ _ H)
    as (G & E & ho & _ & _ & _ & -> & _).
  simpl. apply clip_bounds, Heps.
Qed.

(** C4: with [epsilon <= 1 - epsilon], whatever the input, the weights and
    the hyperplanes, a prediction returned by [step_bernoulli] lies in
    [[epsilon, 1 - epsilon]]; and on a well-shaped network of at least one
    layer, called with a target, the step does return a prediction. *)
Theorem bernoulli_prediction_bounded (x : ndarray1) (ws hs : list ndarray3)
    (c lr eps : R) (t : option R) (u : bool) :
  eps <= 1 - eps ->
  (forall p l, snd (step_bernoulli x ws hs c lr eps t u) = inr (p, l) ->
     eps <= p <= 1 - eps) /\
  (network_ok (len x) ws hs = true -> t <> None ->
   exists p l, snd (step_bernoulli x ws hs c lr eps t u) = inr (p, l)).
Proof.
  intros Heps. split.
  - intros p l H.
    destruct (step_bernoulli_inr _ _ _ _ _ _ _ _ _ _ H) as (v & tv & Hv & -> & _ & _).
    destruct (run_layers_last _ _ _ _ _ _ Hv)
      as [Hnone | (w & h & r0 & w1 & _ & Hl)]; [discriminate Hnone |].
    apply (layer_bernoulli_bounds _ _ _ _ _ _ _ _ _ _ Heps Hl).
  - intros Hok Ht. destruct t as [tv |]; [| contradiction Ht; reflexivity].
    destruct (step_bernoulli_total x ws hs c lr eps tv u Hok) as (v & _ & Hstep).
    do 2 eexists. exact Hstep.
Qed.

(** The bound at [epsilon = 0.01] on the single-layer network. *)
Lemma bernoulli_prediction_bounded_witness :
  0.01 <= 1 - 0.01 /\
  exists p l,
    snd (step_bernoulli Examples.sc_x [Examples.sc_w] [Examples.sc_h]
           1 0.1 0.01 (Some 1) false) = inr (p, l) /\
    0.01 <= p <= 1 - 0.01.
Proof.
  assert (Heps : 0.01 <= 1 - 0.01) by lra.
  split; [exact Heps |].
  destruct (bernoulli_prediction_bounded Examples.sc_x [Examples.sc_w] [Examples.sc_h]
              1 0.1 0.01 (Some 1) false Heps) as [Hbound Hret].
  destruct (Hret eq_refl) as (p & l & Hstep); [discriminate |].
  exists p, l. split; [exact Hstep | exact (Hbound p l Hstep)].
Defined.

(** The bound needs [epsilon <= 1 - epsilon]: with a larger margin the clip
    returns its upper argument, and every returned prediction is
    [1 - epsilon], below [epsilon]. *)
Lemma clip_inverted (x lo hi : R) : hi < lo -> clip x lo hi = hi.
Proof.
  intros Hlt. unfold clip. apply Rmin_right.
  apply Rle_trans with lo; [lra | apply Rmax_r].
Qed.

Lemma bernoulli_prediction_large_margin (x : ndarray1) (ws hs : list ndarray3)
    (c lr eps : R) (t : option R) (u : bool) (p l : R) :
  1 - eps < eps ->
  snd (step_bernoulli x ws hs c lr eps t u) = inr (p, l) -> p = 1 - eps.
Proof.
  intros Heps H.
  destruct (step_bernoulli_inr _ _ _ _ _ _ _ _ _ _ H) as (v & tv & Hv & -> & _ & _).
  destruct (run_layers_last _ _ _ _ _ _ Hv)
    as [Hnone | (w & h & r0 & w1 & _ & Hl)]; [discriminate Hnone |].
  destruct (layer_bernoulli_inr _ _ _ _ _ _ _ _ _ _ Hl)
    as (G & E & ho & _ & _ & _ & -> & _).
  simpl. apply clip_inverted, Heps.
Qed.

(** ** Zero weights *)

Lemma sigmoid_0 : sigmoid 0 = 1 / 2.
Proof.
  unfold sigmoid, logaddexp. rewrite Ropp_0, exp_0.
  replace (1 + 1) with 2 by lra.
  rewrite exp_Ropp, exp_ln by lra. lra.
Qed.

Lemma clip_half (eps : R) : eps <= 1 / 2 -> clip (1 / 2) eps (1 - eps) = 1 / 2.
Proof.
  intros Heps. unfold clip.
  rewrite Rmax_left by exact Heps. apply Rmin_left. lra.
Qed.

(** All-zero weights give all-zero effective weights, for any gate pattern:
    the sum over all neurons' rows is still a sum of zeros. *)
Lemma effective_weights_zero (g : boolarray2) (w : ndarray3) (E : ndarray2) :
  all_zero w -> effective_weights g w = inr E ->
  forall n m, (m < cols E)%nat -> at2 E n m = 0.
Proof.
  intros Hz HE n m Hm.
  destruct (effective_weights_inr _ _ _ HE) as (_ & _ & Hc & Hat).
  rewrite Hat. apply rsum_zero. intros k Hk. apply rsum_zero. intros j Hj.
  rewrite (Hz k j m) by (try assumption; rewrite <- Hc; exact Hm). ring.
Qed.

Lemma dot21_zero (E : ndarray2) (v r : ndarray1) :
  (forall n m, (m < cols E)%nat -> at2 E n m = 0) ->
  dot21 E v = inr r -> forall n, at1 r n = 0.
Proof.
  intros Hz Hdot n. destruct (dot21_inr _ _ _ Hdot) as (Hc & _ & Hat).
  rewrite Hat. apply rsum_zero. intros m Hm.
  rewrite Hz by (rewrite Hc; exact Hm). ring.
Qed.

Lemma layer_square_loss_zero (side : ndarray1) (lr : R) (t : option R) (u : bool)
    (w h : ndarray3) (r : ndarray1) (w' : ndarray3) (r_out : ndarray1) :
  all_zero w ->
  layer_square_loss side lr t u w h r = inr (w', r_out) ->
  forall n, at1 r_out n = 0.
Proof.
  intros Hz H.
  destruct (layer_square_loss_inr _ _ _ _ _ _ _ _ _ H) as (G & E & _ & HE & Hdot & _).
  apply (dot21_zero E _ _ (effective_weights_zero G w E Hz HE) Hdot).
Qed.

Lemma layer_bernoulli_zero (side : ndarray1) (lr eps : R) (t : option R) (u : bool)
    (w h : ndarray3) (r : ndarray1) (w' : ndarray3) (r_out : ndarray1) :
  all_zero w -> eps <= 1 / 2 ->
  layer_bernoulli side lr eps t u w h r = inr (w', r_out) ->
  forall n, at1 r_out n = 1 / 2.
Proof.
  intros Hz Heps H n.
  destruct (layer_bernoulli_inr _ _ _ _ _ _ _ _ _ _ H)
    as (G & E & ho & _ & HE & Hdot & -> & _).
  simpl. rewrite (dot21_zero E _ _ (effective_weights_zero G w E Hz HE) Hdot).
  rewrite sigmoid_0. apply clip_half, Heps.
Qed.

Lemma zero_weights_square_loss_returned (x : ndarray1) (ws hs : list ndarray3)
    (c lr : R) (t : option R) (p l : R) :
  Forall all_zero ws ->
  snd (step_square_loss x ws hs c lr t false) = inr (p, l) -> p = 0.
Proof.
  intros Hz H.
  destruct (step_square_loss_inr _ _ _ _ _ _ _ _ _ H) as (v & tv & Hv & -> & _ & _).
  destruct (run_layers_last _ _ _ _ _ _ Hv)
    as [Hnone | (w & h & r0 & w1 & Hin & Hl)]; [discriminate Hnone |].
  apply (layer_square_loss_zero _ _ _ _ _ _ _ _ _
           (proj1 (Forall_forall _ _) Hz w Hin) Hl).
Qed.

Lemma zero_weights_bernoulli_returned (x : ndarray1) (ws hs : list ndarray3)
    (c lr eps : R) (t : option R) (p l : R) :
  Forall all_zero ws -> eps <= 1 / 2 ->
  snd (step_bernoulli x ws hs c lr eps t false) = inr (p, l) -> p = 1 / 2.
Proof.
  intros Hz Heps H.
  destruct (step_bernoulli_inr _ _ _ _ _ _ _ _ _ _ H) as (v & tv & Hv & -> & _ & _).
  destruct (run_layers_last _ _ _ _ _ _ Hv)
    as [Hnone | (w & h & r0 & w1 & Hin & Hl)]; [discriminate Hnone |].
  apply (layer_bernoulli_zero _ _ _ _ _ _ _ _ _ _
           (proj1 (Forall_forall _ _) Hz w Hin) Heps Hl).
Qed.

(** C7: a well-shaped network whose weights are all zero, called with a
    target and [update = false], returns prediction 0 from
    [step_square_loss], and, for [epsilon <= 1/2], prediction
    [sigmoid 0 = 1/2] from [step_bernoulli], for every input and every
    hyperplane stack.  The losses are those of these predictions. *)
Theorem zero_weights_prediction (x : ndarray1) (ws hs : list ndarray3)
    (c lr eps tv : R) :
  network_ok (len x) ws hs = true ->
  Forall all_zero ws ->
  snd (step_square_loss x ws hs c lr (Some tv) false) = inr (0, (tv - 0) ^ 2 / 2) /\
  sigmoid 0 = 1 / 2 /\
  (eps <= 1 / 2 ->
   snd (step_bernoulli x ws hs c lr eps (Some tv) false)
   = inr (1 / 2, - (tv * (1 / 2) + (1 - tv) * (1 - 1 / 2)))).
Proof.
  intros Hok Hz. split; [| split].
  - destruct (step_square_loss_total x ws hs c lr tv false Hok) as (v & _ & Hstep).
    rewrite Hstep.
    rewrite (zero_weights_square_loss_returned _ _ _ _ _ _ _ _ Hz Hstep).
    reflexivity.
  - exact sigmoid_0.
  - intros Heps.
    destruct (step_bernoulli_total x ws hs c lr eps tv false Hok) as (v & _ & Hstep).
    rewrite Hstep.
    rewrite (zero_weights_bernoulli_returned _ _ _ _ _ _ _ _ _ Hz Heps Hstep).
    reflexivity.
Qed.

(** The single-layer network with weights [[0, 0]]. *)
Lemma sc_w_all_zero : all_zero Examples.sc_w.
Proof.
  intros n b m Hn Hb Hm. simpl in Hn, Hb, Hm.
  destruct n as [| n]; [| lia]. destruct b as [| b]; [| lia].
  destruct m as [| [| m]]; [reflexivity | reflexivity | lia].
Qed.

Lemma zero_weights_prediction_witness :
  snd (step_square_loss Examples.sc_x [Examples.sc_w] [Examples.sc_h]
         1 0.1 (Some 3) false) = inr (0, (3 - 0) ^ 2 / 2) /\
  sigmoid 0 = 1 / 2 /\
  (0.01 <= 1 / 2 ->
   snd (step_bernoulli Examples.sc_x [Examples.sc_w] [Examples.sc_h]
          1 0.1 0.01 (Some 3) false)
   = inr (1 / 2, - (3 * (1 / 2) + (1 - 3) * (1 - 1 / 2)))).
Proof.
  apply (zero_weights_prediction Examples.sc_x [Examples.sc_w] [Examples.sc_h]
           1 0.1 0.01 3).
  - reflexivity.
  - constructor; [exact sc_w_all_zero | constructor].
Defined.

(** ** Bernoulli variant: saturated neurons *)

Lemma Rltb_true (x y : R) : Rltb x y = true <-> x < y.
Proof.
  unfold Rltb. destruct (Rlt_dec x y) as [Hlt | Hge]; split; intros H.
  - exact Hlt.
  - reflexivity.
  - discriminate H.
  - contradiction.
Qed.

(** The saturation test is the strict two-sided comparison. *)
Lemma update_indicator_true (r_out : ndarray1) (eps : R) (n : nat) :
  bat1 (update_indicator r_out eps) n = true <-> eps < at1 r_out n < 1 - eps.
Proof.
  simpl. rewrite andb_true_iff, !Rltb_true. tauto.
Qed.

Lemma update_indicator_boundary (r_out : ndarray1) (eps : R) (n : nat) :
  at1 r_out n = eps \/ at1 r_out n = 1 - eps ->
  bat1 (update_indicator r_out eps) n = false.
Proof.
  intros Hb. apply not_true_is_false. intros Hi.
  apply update_indicator_true in Hi. destruct Hb as [Hb | Hb]; lra.
Qed.

(** The rows a Bernoulli layer writes, on matching neuron counts. *)
Lemma layer_bernoulli_update (side : ndarray1) (lr eps t : R)
    (w h : ndarray3) (r : ndarray1) (w' : ndarray3) (r_out : ndarray1) :
  layer_bernoulli side lr eps (Some t) true w h r = inr (w', r_out) ->
  dim0 h = dim0 w ->
  forall n b m,
    at3 w' n b m =
    at3 w n b m
    - lr * b2r (gate_bit h side n b)
      * ((at1 r_out n - t) * inverse_sigmoid (at1 (hstack (sigmoid 1) r) m)
         * b2r (bat1 (update_indicator r_out eps) n)).
Proof.
  intros H Hn n b m.
  destruct (layer_bernoulli_inr _ _ _ _ _ _ _ _ _ _ H)
    as (G & E & ho & HG & HE & Hdot & _ & (t' & Ht & Hsub)).
  injection Ht as <-.
  destruct (gate_values_inr _ _ _ HG) as (_ & Hr & _ & Hbit).
  destruct (effective_weights_inr _ _ _ HE) as (Hb & _ & Hc & _).
  destruct (dot21_inr _ _ _ Hdot) as (Hcols & _).
  rewrite (isub_gated_delta _ _ _ _ _ Hsub); [| congruence | congruence |].
  - rewrite Hbit. reflexivity.
  - simpl. simpl in Hcols. congruence.
Qed.

(** C8: in a Bernoulli layer run with [update = true], the update indicator
    of neuron [n] is the strict test [epsilon < r_out[n] < 1 - epsilon]; a
    neuron whose output equals [epsilon] or [1 - epsilon] keeps all its
    weight rows, and a neuron whose output is strictly inside receives
    [W[n,b,:] -= learning_rate * G[n,b] * (r_out[n] - target) * h_in]. *)
Theorem saturated_neuron_not_updated (side : ndarray1) (lr eps t : R)
    (w h : ndarray3) (r : ndarray1) (w' : ndarray3) (r_out : ndarray1) :
  layer_bernoulli side lr eps (Some t) true w h r = inr (w', r_out) ->
  dim0 h = dim0 w ->
  forall n,
    (bat1 (update_indicator r_out eps) n = true <-> eps < at1 r_out n < 1 - eps) /\
    (at1 r_out n = eps \/ at1 r_out n = 1 - eps ->
     forall b m, at3 w' n b m = at3 w n b m) /\
    (eps < at1 r_out n < 1 - eps ->
     forall b m,
       at3 w' n b m =
       at3 w n b m
       - lr * b2r (gate_bit h side n b)
         * ((at1 r_out n - t) * inverse_sigmoid (at1 (hstack (sigmoid 1) r) m))).
Proof.
  intros H Hn n. split; [apply update_indicator_true |]. split.
  - intros Hb b m.
    rewrite (layer_bernoulli_update _ _ _ _ _ _ _ _ _ H Hn).
    rewrite (update_indicator_boundary _ _ _ Hb). simpl. ring.
  - intros Hin b m.
    rewrite (layer_bernoulli_update _ _ _ _ _ _ _ _ _ H Hn).
    rewrite (proj2 (update_indicator_true r_out eps n) Hin). simpl. ring.
Qed.

(** A layer that saturates: with bias weight -100 the output is clipped to
    [epsilon = 0.01], and the update leaves the neuron's rows as they were. *)
Lemma sigmoid_eq (x : R) : sigmoid x = / (1 + exp (- x)).
Proof.
  unfold sigmoid, logaddexp. rewrite exp_0, exp_Ropp, exp_ln; [reflexivity |].
  pose proof (exp_pos (- x)). lra.
Qed.

Lemma inverse_sigmoid_sigmoid (x : R) : inverse_sigmoid (sigmoid x) = x.
Proof.
  unfold inverse_sigmoid. rewrite sigmoid_eq, exp_Ropp.
  pose proof (exp_pos x) as Hpos.
  replace (/ (1 + / exp x) / (1 - / (1 + / exp x))) with (exp x).
  - apply ln_exp.
  - field. split; lra.
Qed.

Lemma sigmoid_neg100 : sigmoid (- 100) <= 0.01.
Proof.
  rewrite sigmoid_eq. replace (- -100) with 100 by lra.
  assert (H : 1 + 100 < exp 100) by (apply exp_ineq1; lra).
  apply Rle_trans with (/ 100); [| lra].
  apply Rinv_le_contravar; lra.
Qed.

Lemma clip_low (x lo hi : R) : x <= lo -> lo <= hi -> clip x lo hi = lo.
Proof.
  intros Hx Hle. unfold clip. rewrite Rmax_right by exact Hx.
  apply Rmin_left, Hle.
Qed.

Lemma saturated_neuron_not_updated_witness :
  exists w' r_out,
    layer_bernoulli (hstack 1 Examples.sc_x) 0.1 0.01 (Some 1) true
      Examples.sat_w Examples.sc_h Examples.sat_r = inr (w', r_out) /\
    at1 r_out 0 = 0.01 /\
    forall b m, at3 w' 0 b m = at3 Examples.sat_w 0 b m.
Proof.
  do 2 eexists. split; [reflexivity |].
  match goal with
  | |- at1 ?r 0 = _ /\ _ => assert (Hsat : at1 r 0 = 0.01)
  end.
  { np_eval. rewrite inverse_sigmoid_sigmoid.
    match goal with
    | |- clip (sigmoid ?a) _ _ = _ => replace a with (- 100) by lra
    end.
    apply clip_low; [exact sigmoid_neg100 | lra]. }
  split; [exact Hsat |].
  destruct (saturated_neuron_not_updated (hstack 1 Examples.sc_x) 0.1 0.01 1
              Examples.sat_w Examples.sc_h Examples.sat_r _ _ eq_refl eq_refl 0%nat)
    as (_ & Hboundary & _).
  apply Hboundary. left. exact Hsat.
Defined.

(** ** Missing target *)

(** C10: a call without a target raises, with [update] set or not, in both
    variants: no call returns a prediction without a loss. *)
Theorem step_without_target_raises (x : ndarray1) (ws hs : list ndarray3)
    (c lr eps : R) (u : bool) :
  (exists e, snd (step_square_loss x ws hs c lr None u) = inl e) /\
  (exists e, snd (step_bernoulli x ws hs c lr eps None u) = inl e).
Proof.
  split.
  - unfold step_square_loss. simpl snd.
    destruct (snd (run_layers _ ws hs x None)) as [e | ro]; simpl.
    + exists e. reflexivity.
    + destruct (final_output ro) as [e | p]; simpl; eexists; reflexivity.
  - unfold step_bernoulli. simpl snd.
    destruct (snd (run_layers _ ws hs _ None)) as [e | ro]; simpl.
    + exists e. reflexivity.
    + destruct (final_output ro) as [e | p]; simpl; eexists; reflexivity.
Qed.

(** ** The square-loss scenario *)

(** C6: one layer of one neuron and one branch, hyperplane row [[1, 1]],
    weights [[0, 0]], input [x = 2], target 3, learning rate 0.1,
    [update = true]: the biased input is [[1, 2]], the gate is true, the
    step returns prediction 0 and loss 4.5, and it leaves the single weight
    row equal to [[0.3, 0.6]]. *)
Theorem square_loss_scenario :
  let r := step_square_loss Examples.sc_x [Examples.sc_w] [Examples.sc_h]
             1 0.1 (Some 3) true in
  len (hstack 1 Examples.sc_x) = 2%nat /\
  at1 (hstack 1 Examples.sc_x) 0 = 1 /\ at1 (hstack 1 Examples.sc_x) 1 = 2 /\
  (exists G, gate_values Examples.sc_h (hstack 1 Examples.sc_x) = inr G /\
             bat2 G 0 0 = true) /\
  snd r = inr (0, 4.5) /\
  exists w', fst r = [w'] /\
    dim0 w' = 1%nat /\ dim1 w' = 1%nat /\ dim2 w' = 2%nat /\
    at3 w' 0 0 0 = 0.3 /\ at3 w' 0 0 1 = 0.6.
Proof.
  intro r. subst r.
  split; [reflexivity |]. split; [reflexivity |]. split; [reflexivity |].
  split; [| split].
  - eexists. split; [reflexivity |]. np_eval. reflexivity.
  - np_eval. unfold ret. do 2 f_equal; lra.
  - eexists. split; [reflexivity |].
    split; [reflexivity |]. split; [reflexivity |]. split; [reflexivity |].
    split; np_eval; lra.
Qed.

(** ** Determinism

    Every operation reads its operands inside their shapes only, so a step
    is a function of the arrays it is given, and of nothing else. *)

Module ExtFacts.
Import Ext.

Lemma result_rel_bind {A B : Type} (ra : A -> A -> Prop) (rb : B -> B -> Prop)
    (m m' : result A) (k k' : A -> result B) :
  result_rel ra m m' ->
  (forall a a', ra a a' -> result_rel rb (k a) (k' a')) ->
  result_rel rb (bind m k) (bind m' k').
Proof.
  intros Hm Hk. destruct m as [e | a], m' as [e' | a']; simpl in *;
    try contradiction.
  - exact Hm.
  - apply Hk, Hm.
Qed.

Lemma eq1_refl (a : ndarray1) : eq1 a a.
Proof. split; reflexivity. Qed.

Lemma eq3_refl (a : ndarray3) : eq3 a a.
Proof. repeat split; reflexivity. Qed.

Lemma hstack_ext (c : R) (a b : ndarray1) : eq1 a b -> eq1 (hstack c a) (hstack c b).
Proof.
  intros [Hl Hat]. split; simpl.
  - rewrite Hl. reflexivity.
  - intros [| i] Hi; [reflexivity | apply Hat; lia].
Qed.

Lemma map1_ext (f : R -> R) (a b : ndarray1) : eq1 a b -> eq1 (map1 f a) (map1 f b).
Proof.
  intros [Hl Hat]. split; simpl.
  - exact Hl.
  - intros i Hi. rewrite Hat by exact Hi. reflexivity.
Qed.

Lemma dot31_ext (h h' : ndarray3) (s s' : ndarray1) :
  eq3 h h' -> eq1 s s' -> result_rel eq2 (dot31 h s) (dot31 h' s').
Proof.
  intros (H0 & H1 & H2 & Hat) (Hl & Hs). unfold dot31.
  rewrite <- H2, <- Hl.
  destruct (Nat.eqb_spec (dim2 h) (len s)) as [Heq | Hne]; simpl.
  - split; [exact H0 |]. split; [exact H1 |].
    intros i j Hi Hj. apply rsum_ext. intros k Hk.
    rewrite Hat, Hs by (try assumption; lia). reflexivity.
  - reflexivity.
Qed.

Lemma gate_values_ext (h h' : ndarray3) (s s' : ndarray1) :
  eq3 h h' -> eq1 s s' -> result_rel beq2 (gate_values h s) (gate_values h' s').
Proof.
  intros Hh Hs. unfold gate_values.
  apply (result_rel_bind eq2 beq2); [apply dot31_ext; assumption |].
  intros a a' (Hr & Hc & Hat). simpl.
  split; [exact Hr |]. split; [exact Hc |].
  intros i j Hi Hj. simpl. rewrite Hat by assumption. reflexivity.
Qed.

Lemma effective_weights_ext (g g' : boolarray2) (w w' : ndarray3) :
  beq2 g g' -> eq3 w w' ->
  result_rel eq2 (effective_weights g w) (effective_weights g' w').
Proof.
  intros (Hr & Hc & Hg) (H0 & H1 & H2 & Hw). unfold effective_weights, dot23.
  rewrite <- Hc, <- H1.
  destruct (Nat.eqb_spec (bcols g) (dim1 w)) as [Heq | Hne]; simpl.
  - split; [exact Hr |]. split; [exact H2 |].
    intros i m Hi Hm. rewrite <- H0. apply rsum_ext. intros k Hk.
    apply rsum_ext. intros j Hj.
    rewrite Hg, Hw by (try assumption; lia). reflexivity.
  - reflexivity.
Qed.

Lemma dot21_ext (a a' : ndarray2) (v v' : ndarray1) :
  eq2 a a' -> eq1 v v' -> result_rel eq1 (dot21 a v) (dot21 a' v').
Proof.
  intros (Hr & Hc & Ha) (Hl & Hv). unfold dot21.
  rewrite <- Hc, <- Hl.
  destruct (Nat.eqb_spec (cols a) (len v)) as [Heq | Hne]; simpl.
  - split; [exact Hr |].
    intros i Hi. simpl in Hi. apply rsum_ext. intros m Hm.
    rewrite Ha, Hv by (try assumption; lia). reflexivity.
  - reflexivity.
Qed.

(** The layers without update. *)
Lemma layer_square_loss_ext (side side' : ndarray1) (lr : R) (t : option R)
    (w w' h h' : ndarray3) (r r' : ndarray1) :
  eq1 side side' -> eq3 w w' -> eq3 h h' -> eq1 r r' ->
  result_rel layer_out_rel
    (layer_square_loss side lr t false w h r)
    (layer_square_loss side' lr t false w' h' r').
Proof.
  intros Hside Hw Hh Hr. unfold layer_square_loss.
  apply (result_rel_bind beq2 _); [apply gate_values_ext; assumption |].
  intros G G' HG.
  apply (result_rel_bind eq2 _); [apply effective_weights_ext; assumption |].
  intros E E' HE.
  apply (result_rel_bind eq1 _);
    [apply dot21_ext; [exact HE | apply hstack_ext, Hr] |].
  intros ro ro' Hro. simpl. split; assumption.
Qed.

Lemma layer_bernoulli_ext (side side' : ndarray1) (lr eps : R) (t : option R)
    (w w' h h' : ndarray3) (r r' : ndarray1) :
  eq1 side side' -> eq3 w w' -> eq3 h h' -> eq1 r r' ->
  result_rel layer_out_rel
    (layer_bernoulli side lr eps t false w h r)
    (layer_bernoulli side' lr eps t false w' h' r').
Proof.
  intros Hside Hw Hh Hr. unfold layer_bernoulli.
  apply (result_rel_bind beq2 _); [apply gate_values_ext; assumption |].
  intros G G' HG.
  apply (result_rel_bind eq2 _); [apply effective_weights_ext; assumption |].
  intros E E' HE.
  apply (result_rel_bind eq1 _);
    [apply dot21_ext; [exact HE | apply map1_ext, hstack_ext, Hr] |].
  intros ho ho' Hho. simpl. split; [exact Hw | apply map1_ext, Hho].
Qed.

Section LoopExt.

Variables layer layer' :
  ndarray3 -> ndarray3 -> ndarray1 -> result (ndarray3 * ndarray1).

Hypothesis layer_ext :
  forall w w' h h' r r', eq3 w w' -> eq3 h h' -> eq1 r r' ->
    result_rel layer_out_rel (layer w h r) (layer' w' h' r').

Lemma run_layers_ext (ws ws' hs hs' : list ndarray3) :
  Forall2 eq3 ws ws' -> Forall2 eq3 hs hs' ->
  forall r r' ro ro', eq1 r r' -> option_rel eq1 ro ro' ->
    result_rel (option_rel eq1)
      (snd (run_layers layer ws hs r ro))
      (snd (run_layers layer' ws' hs' r' ro')).
Proof.
  intros Hws. revert hs hs'.
  induction Hws as [| w w' ws ws' Hw Hws IH]; intros hs hs' Hhs r r' ro ro' Hr Hro.
  - simpl. exact Hro.
  - destruct Hhs as [| h h' hs hs' Hh Hhs]; [exact Hro |]. simpl.
    pose proof (layer_ext w w' h h' r r' Hw Hh Hr) as Hl.
    destruct (layer w h r) as [e | [w1 r1]], (layer' w' h' r') as [e' | [w1' r1']];
      simpl in Hl; try contradiction.
    + exact Hl.
    + simpl. destruct Hl as [_ Hr1]. simpl in Hr1.
      apply IH; assumption.
Qed.

End LoopExt.

Lemma final_output_ext (ro ro' : option ndarray1) :
  option_rel eq1 ro ro' -> final_output ro = final_output ro'.
Proof.
  destruct ro as [v |], ro' as [v' |]; simpl; try contradiction.
  - intros [Hl Hat]. unfold getitem0. rewrite <- Hl.
    destruct (len v) eqn:Hlen; [reflexivity |].
    rewrite Hat by lia. reflexivity.
  - reflexivity.
Qed.

(** The tail of a step after the loop. *)
Lemma step_tail_ext (loss : R -> result R) (m m' : result (option ndarray1)) :
  result_rel (option_rel eq1) m m' ->
  (ro <- m ;; r_out <- final_output ro ;; l <- loss r_out ;; ret (r_out, l))
  = (ro <- m' ;; r_out <- final_output ro ;; l <- loss r_out ;; ret (r_out, l)).
Proof.
  destruct m as [e | ro], m' as [e' | ro']; simpl; try contradiction.
  - intros ->. reflexivity.
  - intros H. rewrite (final_output_ext ro ro' H). reflexivity.
Qed.

End ExtFacts.

(** C9: two calls of a step with [update = false] on the same input, the same
    weight arrays, the same hyperplane arrays and the same configuration
    return the same result, be it a (prediction, loss) pair or an exception;
    for both variants.  "The same array" is the same shape and the same
    entries. *)
Theorem step_deterministic (x x' : ndarray1) (ws ws' hs hs' : list ndarray3)
    (c lr eps : R) (t : option R) :
  Ext.eq1 x x' -> Forall2 Ext.eq3 ws ws' -> Forall2 Ext.eq3 hs hs' ->
  snd (step_square_loss x ws hs c lr t false)
  = snd (step_square_loss x' ws' hs' c lr t false) /\
  snd (step_bernoulli x ws hs c lr eps t false)
  = snd (step_bernoulli x' ws' hs' c lr eps t false).
Proof.
  intros Hx Hws Hhs. split.
  - unfold step_square_loss. simpl snd.
    apply (ExtFacts.step_tail_ext
             (fun r_out => match t with
                           | None => raise TypeError
                           | Some target => ret ((target - r_out) ^ 2 / 2)
                           end)).
    apply ExtFacts.run_layers_ext; try assumption; [| exact I].
    intros w w' h h' r r'. apply ExtFacts.layer_square_loss_ext.
    apply ExtFacts.hstack_ext, Hx.
  - unfold step_bernoulli. simpl snd.
    apply (ExtFacts.step_tail_ext
             (fun r_out => match t with
                           | None => raise TypeError
                           | Some target =>
                               ret (- (target * r_out + (1 - target) * (1 - r_out)))
                           end)).
    apply ExtFacts.run_layers_ext; try assumption;
      [| apply ExtFacts.map1_ext, Hx | exact I].
    intros w w' h h' r r'. apply ExtFacts.layer_bernoulli_ext.
    apply ExtFacts.hstack_ext, Hx.
Qed.

(** The input [[2]] given as two arrays that differ outside their shape. *)
Lemma step_deterministic_witness :
  snd (step_square_loss Examples.sc_x [Examples.sc_w] [Examples.sc_h]
         1 0.1 (Some 3) false)
  = snd (step_square_loss (Arr1 1 (fun _ => 2)) [Examples.sc_w] [Examples.sc_h]
           1 0.1 (Some 3) false) /\
  snd (step_bernoulli Examples.sc_x [Examples.sc_w] [Examples.sc_h]
         1 0.1 0.01 (Some 3) false)
  = snd (step_bernoulli (Arr1 1 (fun _ => 2)) [Examples.sc_w] [Examples.sc_h]
           1 0.1 0.01 (Some 3) false).
Proof.
  apply (step_deterministic Examples.sc_x (Arr1 1 (fun _ => 2))).
  - split; [reflexivity |]. intros [| i] Hi; [reflexivity | simpl in Hi; lia].
  - constructor; [apply ExtFacts.eq3_refl | constructor].
  - constructor; [apply ExtFacts.eq3_refl | constructor].
Defined.

(** Two calls in sequence: a call with [update = false] leaves the weight
    list as it was, so a second call with the same arguments finds the state
    the first one found and returns the same result. *)
Lemma step_twice_same (x : ndarray1) (ws hs : list ndarray3) (c lr eps : R)
    (t : option R) :
  snd (step_square_loss x (fst (step_square_loss x ws hs c lr t false)) hs c lr t false)
  = snd (step_square_loss x ws hs c lr t false) /\
  snd (step_bernoulli x (fst (step_bernoulli x ws hs c lr eps t false)) hs
         c lr eps t false)
  = snd (step_bernoulli x ws hs c lr eps t false).
Proof.
  split.
  - replace (fst (step_square_loss x ws hs c lr t false)) with ws; [reflexivity |].
    symmetry. unfold step_square_loss. simpl fst.
    apply run_layers_unchanged. intros w h r w' r'.
    apply layer_square_loss_no_update.
  - replace (fst (step_bernoulli x ws hs c lr eps t false)) with ws; [reflexivity |].
    symmetry. unfold step_bernoulli. simpl fst.
    apply run_layers_unchanged. intros w h r w' r'.
    apply layer_bernoulli_no_update.
Qed.

(** * Further properties of the notebook's code *)

(** ** [sigmoid] and [inverse_sigmoid] *)

Lemma sigmoid_range (x : R) : 0 < sigmoid x < 1.
Proof.
  rewrite sigmoid_eq. pose proof (exp_pos (- x)) as Hpos.
  split.
  - apply Rinv_0_lt_compat. lra.
  - rewrite <- Rinv_1 at 2. apply Rinv_lt_contravar; lra.
Qed.

Lemma sigmoid_increasing (x y : R) : x < y -> sigmoid x < sigmoid y.
Proof.
  intros Hxy. rewrite !sigmoid_eq.
  pose proof (exp_pos (- x)) as Hx. pose proof (exp_pos (- y)) as Hy.
  assert (Hexp : exp (- y) < exp (- x)) by (apply exp_increasing; lra).
  apply Rinv_lt_contravar; [| lra].
  apply Rmult_lt_0_compat; lra.
Qed.

Lemma odds_pos (p : R) : 0 < p < 1 -> 0 < p / (1 - p).
Proof. intros Hp. apply Rdiv_lt_0_compat; lra. Qed.

Lemma odds_increasing (p q : R) :
  0 < p < 1 -> 0 < q < 1 -> p < q -> p / (1 - p) < q / (1 - q).
Proof.
  intros Hp Hq Hpq.
  assert (H : q / (1 - q) - p / (1 - p) = (q - p) / ((1 - q) * (1 - p)))
    by (field; lra).
  assert (0 < (q - p) / ((1 - q) * (1 - p))).
  { apply Rdiv_lt_0_compat; [lra |]. apply Rmult_lt_0_compat; lra. }
  lra.
Qed.

Lemma inverse_sigmoid_increasing (p q : R) :
  0 < p < 1 -> 0 < q < 1 -> p < q -> inverse_sigmoid p < inverse_sigmoid q.
Proof.
  intros Hp Hq Hpq. unfold inverse_sigmoid.
  apply ln_increasing; [apply odds_pos, Hp | apply odds_increasing; assumption].
Qed.

Lemma sigmoid_inverse_sigmoid (p : R) :
  0 < p < 1 -> sigmoid (inverse_sigmoid p) = p.
Proof.
  intros Hp. rewrite sigmoid_eq. unfold inverse_sigmoid.
  rewrite exp_Ropp, exp_ln by (apply odds_pos, Hp).
  field. lra.
Qed.

(** X1: [inverse_sigmoid] undoes [sigmoid] at every real, and [sigmoid]
    undoes [inverse_sigmoid] at every probability strictly between 0 and 1. *)
Theorem sigmoid_round_trip (x p : R) :
  0 < p < 1 ->
  inverse_sigmoid (sigmoid x) = x /\ sigmoid (inverse_sigmoid p) = p.
Proof.
  intros Hp. split.
  - apply inverse_sigmoid_sigmoid.
  - apply sigmoid_inverse_sigmoid, Hp.
Qed.

Lemma sigmoid_round_trip_witness :
  inverse_sigmoid (sigmoid 3) = 3 /\ sigmoid (inverse_sigmoid (1 / 4)) = 1 / 4.
Proof. apply (sigmoid_round_trip 3 (1 / 4)). lra. Defined.

(** X2: [sigmoid] is the logistic function [1 / (1 + exp (-x))]: its values
    lie strictly between 0 and 1, it is strictly increasing, and
    [sigmoid (-x) = 1 - sigmoid x]. *)
Theorem sigmoid_logistic (x y : R) :
  sigmoid x = 1 / (1 + exp (- x)) /\
  0 < sigmoid x < 1 /\
  (x < y -> sigmoid x < sigmoid y) /\
  sigmoid (- x) = 1 - sigmoid x.
Proof.
  split; [rewrite sigmoid_eq; lra |].
  split; [apply sigmoid_range |].
  split; [apply sigmoid_increasing |].
  rewrite !sigmoid_eq, Ropp_involutive, exp_Ropp.
  pose proof (exp_pos x) as Hpos. field. lra.
Qed.

Lemma sigmoid_logistic_witness : 0 < sigmoid 0 < 1 /\ sigmoid 0 < sigmoid 1.
Proof.
  destruct (sigmoid_logistic 0 1) as (_ & Hrange & Hinc & _).
  split; [exact Hrange | apply Hinc; lra].
Defined.

(** ** The Bernoulli variant's input transform *)

Lemma clip_cases (x lo hi : R) :
  lo <= hi ->
  (x <= lo /\ clip x lo hi = lo) \/
  (lo <= x <= hi /\ clip x lo hi = x) \/
  (hi <= x /\ clip x lo hi = hi).
Proof.
  intros Hle. unfold clip.
  destruct (Rle_or_lt x lo) as [Hx | Hx].
  - left. split; [exact Hx |]. rewrite Rmax_right by exact Hx.
    apply Rmin_left, Hle.
  - rewrite Rmax_left by lra.
    destruct (Rle_or_lt x hi) as [Hh | Hh].
    + right. left. split; [lra | apply Rmin_left, Hh].
    + right. right. split; [lra | apply Rmin_right; lra].
Qed.

Lemma inverse_sigmoid_monotone (p q : R) :
  0 < p < 1 -> 0 < q < 1 -> p <= q -> inverse_sigmoid p <= inverse_sigmoid q.
Proof.
  intros Hp Hq [Hlt | ->].
  - left. apply inverse_sigmoid_increasing; assumption.
  - right. reflexivity.
Qed.

(** Clipping a probability and taking its logit is clipping the logit. *)
Lemma inverse_sigmoid_clip_sigmoid (x eps : R) :
  0 < eps <= 1 / 2 ->
  inverse_sigmoid (clip (sigmoid x) eps (1 - eps))
  = clip x (inverse_sigmoid eps) (inverse_sigmoid (1 - eps)).
Proof.
  intros Heps.
  pose proof (sigmoid_range x) as Hs.
  assert (He : 0 < eps < 1) by lra.
  assert (He' : 0 < 1 - eps < 1) by lra.
  assert (Hlo : inverse_sigmoid eps <= inverse_sigmoid (1 - eps))
    by (apply inverse_sigmoid_monotone; lra).
  destruct (clip_cases (sigmoid x) eps (1 - eps)) as [[Hc ->] | [[Hc ->] | [Hc ->]]];
    [lra | | |].
  - assert (Hx : x <= inverse_sigmoid eps).
    { rewrite <- (inverse_sigmoid_sigmoid x).
      apply inverse_sigmoid_monotone; assumption. }
    unfold clip. rewrite Rmax_right by exact Hx. symmetry. apply Rmin_left, Hlo.
  - rewrite inverse_sigmoid_sigmoid.
    assert (Hx : inverse_sigmoid eps <= inverse_sigmoid (sigmoid x)
                 <= inverse_sigmoid (1 - eps))
      by (split; apply inverse_sigmoid_monotone; try assumption; lra).
    rewrite inverse_sigmoid_sigmoid in Hx.
    unfold clip. rewrite Rmax_left by lra. symmetry. apply Rmin_left. lra.
  - assert (Hx : inverse_sigmoid (1 - eps) <= x).
    { rewrite <- (inverse_sigmoid_sigmoid x).
      apply inverse_sigmoid_monotone; assumption. }
    unfold clip. rewrite Rmax_left by lra. symmetry. apply Rmin_right, Hx.
Qed.

(** X3: for a clip margin [0 < epsilon <= 1/2], what [step_bernoulli] feeds
    into the linear combination of its first layer,
    [inverse_sigmoid(hstack([sigmoid(1.), clip(sigmoid(inputs), ...)]))], is
    the bias 1 followed by the raw inputs clipped to
    [[inverse_sigmoid epsilon, inverse_sigmoid (1 - epsilon)]]. *)
Theorem bernoulli_first_layer_logits (x : ndarray1) (eps : R) :
  0 < eps <= 1 / 2 ->
  Ext.eq1
    (map1 inverse_sigmoid
       (hstack (sigmoid 1) (map1 (fun v => clip (sigmoid v) eps (1 - eps)) x)))
    (hstack 1
       (map1 (fun v => clip v (inverse_sigmoid eps) (inverse_sigmoid (1 - eps))) x)).
Proof.
  intros Heps. split; [reflexivity |].
  intros [| i] _; simpl.
  - apply inverse_sigmoid_sigmoid.
  - apply inverse_sigmoid_clip_sigmoid, Heps.
Qed.

Lemma bernoulli_first_layer_logits_witness :
  Ext.eq1
    (map1 inverse_sigmoid
       (hstack (sigmoid 1)
          (map1 (fun v => clip (sigmoid v) 0.01 (1 - 0.01)) Examples.sc_x)))
    (hstack 1
       (map1 (fun v => clip v (inverse_sigmoid 0.01) (inverse_sigmoid (1 - 0.01)))
          Examples.sc_x)).
Proof. apply (bernoulli_first_layer_logits Examples.sc_x 0.01). lra. Defined.

(** ** Edge behaviour of the steps *)

(** X4: with no layer to run, because [weights] or [hyperplanes] is empty,
    both steps raise [UnboundLocalError] at [r_out[0]] and leave the weight
    list as it was. *)
Theorem step_no_layers (x : ndarray1) (ws hs : list ndarray3) (c lr eps : R)
    (t : option R) (u : bool) :
  ws = [] \/ hs = [] ->
  step_square_loss x ws hs c lr t u = (ws, inl UnboundLocalError) /\
  step_bernoulli x ws hs c lr eps t u = (ws, inl UnboundLocalError).
Proof.
  intros Hempty. unfold step_square_loss, step_bernoulli.
  assert (Hrun : forall layer r,
             run_layers layer ws hs r None = (ws, inr None)).
  { intros layer r. destruct Hempty as [-> | ->]; [reflexivity |].
    destruct ws; reflexivity. }
  rewrite !Hrun. split; reflexivity.
Qed.

Lemma step_no_layers_witness :
  step_square_loss Examples.sc_x [] [Examples.sc_h] 1 0.1 (Some 3) true
  = ([], inl UnboundLocalError) /\
  step_bernoulli Examples.sc_x [] [Examples.sc_h] 1 0.1 0.01 (Some 3) true
  = ([], inl UnboundLocalError).
Proof.
  apply (step_no_layers Examples.sc_x [] [Examples.sc_h]). left. reflexivity.
Defined.

Lemma gate_values_misaligned (h : ndarray3) (s : ndarray1) :
  dim2 h <> len s -> gate_values h s = inl ValueError.
Proof.
  intros Hne. unfold gate_values, dot31.
  destruct (Nat.eqb_spec (dim2 h) (len s)) as [Heq | _]; [contradiction | reflexivity].
Qed.

(** X5: when the last axis of the first hyperplane array is not the input
    length plus one, both steps raise [ValueError] at [h.dot(side_info)],
    before any weight is written. *)
Theorem step_input_length_mismatch (x : ndarray1) (w h : ndarray3)
    (ws hs : list ndarray3) (c lr eps : R) (t : option R) (u : bool) :
  dim2 h <> S (len x) ->
  step_square_loss x (w :: ws) (h :: hs) c lr t u = (w :: ws, inl ValueError) /\
  step_bernoulli x (w :: ws) (h :: hs) c lr eps t u = (w :: ws, inl ValueError).
Proof.
  intros Hne. unfold step_square_loss, step_bernoulli. simpl run_layers.
  unfold layer_square_loss, layer_bernoulli.
  rewrite (gate_values_misaligned h (hstack c x)) by exact Hne.
  split; reflexivity.
Qed.

Lemma step_input_length_mismatch_witness :
  step_square_loss (of_list1 [2; 5]) [Examples.sc_w] [Examples.sc_h] 1 0.1 (Some 3) true
  = ([Examples.sc_w], inl ValueError) /\
  step_bernoulli (of_list1 [2; 5]) [Examples.sc_w] [Examples.sc_h] 1 0.1 0.01
    (Some 3) true
  = ([Examples.sc_w], inl ValueError).
Proof.
  apply (step_input_length_mismatch (of_list1 [2; 5]) Examples.sc_w Examples.sc_h [] []).
  simpl. discriminate.
Defined.

Section Unpaired.

Variable layer : ndarray3 -> ndarray3 -> ndarray1 -> result (ndarray3 * ndarray1).

Lemma run_layers_extra_weights (extra : list ndarray3) :
  forall ws hs r ro, (length hs <= length ws)%nat ->
    run_layers layer (ws ++ extra) hs r ro
    = (fst (run_layers layer ws hs r ro) ++ extra, snd (run_layers layer ws hs r ro)).
Proof.
  induction ws as [| w ws IH]; intros hs r ro Hlen.
  - destruct hs as [| h hs]; [| simpl in Hlen; lia].
    simpl. destruct extra; reflexivity.
  - destruct hs as [| h hs]; [reflexivity |]. simpl.
    destruct (layer w h r) as [e | [w' r']]; [reflexivity |].
    rewrite IH by (simpl in Hlen; lia). reflexivity.
Qed.

Lemma run_layers_extra_hyperplanes (extra : list ndarray3) :
  forall ws hs r ro, (length ws <= length hs)%nat ->
    run_layers layer ws (hs ++ extra) r ro = run_layers layer ws hs r ro.
Proof.
  induction ws as [| w ws IH]; intros hs r ro Hlen.
  - destruct hs, extra; reflexivity.
  - destruct hs as [| h hs]; [simpl in Hlen; lia |]. simpl.
    destruct (layer w h r) as [e | [w' r']]; [reflexivity |].
    rewrite IH by (simpl in Hlen; lia). reflexivity.
Qed.

End Unpaired.

(** X6: the layer loop runs over [zip(weights, hyperplanes)], so arrays
    beyond the common length are ignored: extra weight arrays are returned
    untouched and extra hyperplane arrays are never read, and the result of
    the step is that of the paired prefix; no length mismatch is reported. *)
Theorem step_ignores_unpaired (x : ndarray1) (ws hs extra : list ndarray3)
    (c lr eps : R) (t : option R) (u : bool) :
  length ws = length hs ->
  step_square_loss x (ws ++ extra) hs c lr t u
  = (fst (step_square_loss x ws hs c lr t u) ++ extra,
     snd (step_square_loss x ws hs c lr t u)) /\
  step_square_loss x ws (hs ++ extra) c lr t u = step_square_loss x ws hs c lr t u /\
  step_bernoulli x (ws ++ extra) hs c lr eps t u
  = (fst (step_bernoulli x ws hs c lr eps t u) ++ extra,
     snd (step_bernoulli x ws hs c lr eps t u)) /\
  step_bernoulli x ws (hs ++ extra) c lr eps t u = step_bernoulli x ws hs c lr eps t u.
Proof.
  intros Hlen. unfold step_square_loss, step_bernoulli.
  rewrite !run_layers_extra_weights, !run_layers_extra_hyperplanes by lia.
  repeat split; reflexivity.
Qed.

Lemma step_ignores_unpaired_witness :
  snd (step_square_loss Examples.sc_x [Examples.sc_w; Examples.loc_w] [Examples.sc_h]
         1 0.1 (Some 3) false)
  = snd (step_square_loss Examples.sc_x [Examples.sc_w] [Examples.sc_h]
           1 0.1 (Some 3) false).
Proof.
  destruct (step_ignores_unpaired Examples.sc_x [Examples.sc_w] [Examples.sc_h]
              [Examples.loc_w] 1 0.1 0.01 (Some 3) false eq_refl) as (H & _).
  simpl app in H. rewrite H. reflexivity.
Defined.

(** ** Losses *)

(** X7: the loss returned by [step_square_loss] is never negative, and it is
    zero exactly when the prediction equals the target. *)
Theorem square_loss_nonneg (x : ndarray1) (ws hs : list ndarray3) (c lr : R)
    (t : option R) (u : bool) (p l : R) :
  snd (step_square_loss x ws hs c lr t u) = inr (p, l) ->
  0 <= l /\ (l = 0 <-> t = Some p).
Proof.
  intros H.
  destruct (step_square_loss_inr _ _ _ _ _ _ _ _ _ H) as (v & tv & _ & _ & -> & ->).
  pose proof (pow2_ge_0 (tv - p)) as Hsq.
  split; [lra |]. split.
  - intros Hz. assert (Hp : (tv - p) ^ 2 = 0) by lra.
    simpl in Hp. rewrite Rmult_1_r in Hp.
    apply Rmult_integral in Hp. f_equal. destruct Hp; lra.
  - intros Heq. injection Heq as ->. rewrite Rminus_diag. simpl. lra.
Qed.

Lemma square_loss_nonneg_witness :
  0 <= 4.5 /\ (4.5 = 0 <-> Some 3 = Some 0).
Proof.
  apply (square_loss_nonneg Examples.sc_x [Examples.sc_w] [Examples.sc_h]
           1 0.1 (Some 3) false 0 4.5).
  np_eval. unfold ret. do 2 f_equal; lra.
Defined.

(** X8: the loss returned by [step_bernoulli] is the negated likelihood of
    the target under the prediction, not its logarithm: for target 1 it is
    [- prediction], for target 0 it is [- (1 - prediction)], and for either,
    with [epsilon <= 1 - epsilon], it lies in [[-(1 - epsilon), -epsilon]]. *)
Theorem bernoulli_loss_range (x : ndarray1) (ws hs : list ndarray3) (c lr eps t : R)
    (u : bool) (p l : R) :
  eps <= 1 - eps ->
  snd (step_bernoulli x ws hs c lr eps (Some t) u) = inr (p, l) ->
  (t = 1 -> l = - p) /\
  (t = 0 -> l = - (1 - p)) /\
  (t = 0 \/ t = 1 -> - (1 - eps) <= l <= - eps).
Proof.
  intros Heps H.
  destruct (step_bernoulli_inr _ _ _ _ _ _ _ _ _ _ H) as (v & tv & Hv & -> & Ht & ->).
  injection Ht as <-.
  destruct (run_layers_last _ _ _ _ _ _ Hv)
    as [Hnone | (w & h & r0 & w1 & _ & Hl)]; [discriminate Hnone |].
  pose proof (layer_bernoulli_bounds _ _ _ _ _ _ _ _ _ _ Heps Hl 0%nat) as Hb.
  split; [intros ->; ring |]. split; [intros ->; ring |].
  intros [-> | ->]; lra.
Qed.

Lemma bernoulli_loss_range_witness :
  exists p l,
    snd (step_bernoulli Examples.sc_x [Examples.sc_w] [Examples.sc_h]
           1 0.1 0.01 (Some 1) false) = inr (p, l) /\
    l = - p /\ - (1 - 0.01) <= l <= - (0.01).
Proof.
  destruct (step_bernoulli_total Examples.sc_x [Examples.sc_w] [Examples.sc_h]
              1 0.1 0.01 1 false eq_refl) as (v & _ & Hstep).
  do 2 eexists. split; [exact Hstep |].
  assert (Heps : 0.01 <= 1 - 0.01) by lra.
  destruct (bernoulli_loss_range _ _ _ _ _ _ _ _ _ _ Heps Hstep) as (H1 & _ & Hr).
  split; [apply H1; reflexivity | apply Hr; right; reflexivity].
Defined.

(** ** The learning rule *)

Lemma rsum_plus (n : nat) (f g : nat -> R) :
  rsum n (fun i => f i + g i) = rsum n f + rsum n g.
Proof.
  induction n as [| n IH]; simpl.
  - lra.
  - rewrite IH. lra.
Qed.

Lemma rsum_scal (n : nat) (c : R) (f : nat -> R) :
  rsum n (fun i => c * f i) = c * rsum n f.
Proof.
  induction n as [| n IH]; simpl.
  - lra.
  - rewrite IH. lra.
Qed.

Lemma b2r_idem (b : bool) : b2r b * b2r b = b2r b.
Proof. destruct b; simpl; lra. Qed.

Lemma b2r_range (b : bool) : 0 <= b2r b <= 1.
Proof. destruct b; simpl; lra. Qed.

(** The row written by the in-place subtraction, with the broadcast of the
    neuron axis kept explicit. *)
Lemma layer_square_loss_update (side : ndarray1) (lr t : R)
    (w h : ndarray3) (r : ndarray1) (w' : ndarray3) (r_out : ndarray1) :
  layer_square_loss side lr (Some t) true w h r = inr (w', r_out) ->
  broadcastable (dim0 h) (dim0 w) = true /\
  forall n b m,
    at3 w' n b m =
    at3 w n b m
    - lr * b2r (gate_bit h side (bidx (dim0 h) (dim0 w) n) b)
      * ((at1 r_out (bidx (dim0 h) (dim0 w) n) - t) * at1 (hstack 1 r) m).
Proof.
  intros H.
  destruct (layer_square_loss_inr _ _ _ _ _ _ _ _ _ H)
    as (G & E & HG & HE & Hdot & (t' & Ht & Hsub)).
  injection Ht as <-.
  destruct (gate_values_inr _ _ _ HG) as (_ & Hr & _ & Hbit).
  destruct (effective_weights_inr _ _ _ HE) as (Hb & _ & Hc & _).
  destruct (dot21_inr _ _ _ Hdot) as (Hcols & _).
  destruct (isub_inr _ _ _ Hsub) as (_ & _ & _ & Hat).
  split.
  - unfold isub in Hsub. simpl in Hsub. rewrite Hr in Hsub.
    destruct (broadcastable (dim0 h) (dim0 w)); [reflexivity | discriminate Hsub].
  - intros n b m. rewrite Hat. simpl.
    rewrite Hr, Hb. simpl in Hcols. rewrite <- Hcols, Hc, !bidx_same, Hbit.
    reflexivity.
Qed.

(** X9: the square-loss update of a layer whose hyperplane and weight arrays
    have the same neuron count is
    [W[n,b,:] -= learning_rate * G[n,b] * (r_out[n] - target) * r_in], with
    [r_in] the bias-prepended input of the layer; in particular a neuron
    whose output already equals the target keeps all its rows. *)
Theorem square_loss_update_rule (side : ndarray1) (lr t : R)
    (w h : ndarray3) (r : ndarray1) (w' : ndarray3) (r_out : ndarray1) :
  layer_square_loss side lr (Some t) true w h r = inr (w', r_out) ->
  dim0 h = dim0 w ->
  forall n b m,
    at3 w' n b m =
      at3 w n b m
      - lr * b2r (gate_bit h side n b) * ((at1 r_out n - t) * at1 (hstack 1 r) m)
    /\ (at1 r_out n = t -> at3 w' n b m = at3 w n b m).
Proof.
  intros H Hn n b m.
  destruct (layer_square_loss_update _ _ _ _ _ _ _ _ H) as [_ Hat].
  specialize (Hat n b m). rewrite Hn, bidx_same in Hat.
  split; [exact Hat |].
  intros Heq. rewrite Hat, Heq. ring.
Qed.

Lemma square_loss_update_rule_witness :
  exists w' r_out,
    layer_square_loss (hstack 1 Examples.sc_x) 0.1 (Some 3) true
      Examples.sc_w Examples.sc_h Examples.sc_x = inr (w', r_out) /\
    at3 w' 0 0 1 =
      at3 Examples.sc_w 0 0 1
      - 0.1 * b2r (gate_bit Examples.sc_h (hstack 1 Examples.sc_x) 0 0)
        * ((at1 r_out 0 - 3) * at1 (hstack 1 Examples.sc_x) 1).
Proof.
  do 2 eexists. split; [reflexivity |].
  apply (square_loss_update_rule (hstack 1 Examples.sc_x) 0.1 3
           Examples.sc_w Examples.sc_h Examples.sc_x _ _ eq_refl eq_refl 0%nat 0%nat 1%nat).
Defined.

(** X10: when the hyperplane array has a single neuron and the weight array
    several, NumPy broadcasts the update: no exception is raised, and every
    neuron's rows of [W] move by the update of hyperplane neuron 0. *)
Theorem single_hyperplane_neuron_broadcasts (side : ndarray1) (lr t : R)
    (w h : ndarray3) (r : ndarray1) (w' : ndarray3) (r_out : ndarray1) :
  layer_square_loss side lr (Some t) true w h r = inr (w', r_out) ->
  dim0 h = 1%nat -> dim0 w <> 1%nat ->
  forall n b m,
    at3 w' n b m =
    at3 w n b m
    - lr * b2r (gate_bit h side 0 b) * ((at1 r_out 0 - t) * at1 (hstack 1 r) m).
Proof.
  intros H H1 Hw n b m.
  destruct (layer_square_loss_update _ _ _ _ _ _ _ _ H) as [_ Hat].
  rewrite Hat. unfold bidx. rewrite H1.
  destruct (Nat.eqb_spec 1 (dim0 w)) as [Heq | _]; [| reflexivity].
  contradiction Hw. symmetry. exact Heq.
Qed.

Lemma single_hyperplane_neuron_broadcasts_witness :
  exists w' r_out,
    layer_square_loss (hstack 1 Examples.mix_x) 0.1 (Some 0) true
      Examples.mix_w1 Examples.mix_h2 Examples.mix_x = inr (w', r_out) /\
    forall n b m,
      at3 w' n b m =
      at3 Examples.mix_w1 n b m
      - 0.1 * b2r (gate_bit Examples.mix_h2 (hstack 1 Examples.mix_x) 0 b)
        * ((at1 r_out 0 - 0) * at1 (hstack 1 Examples.mix_x) m).
Proof.
  do 2 eexists. split; [reflexivity |].
  apply (single_hyperplane_neuron_broadcasts (hstack 1 Examples.mix_x) 0.1 0
           Examples.mix_w1 Examples.mix_h2 Examples.mix_x _ _ eq_refl eq_refl).
  simpl. discriminate.
Defined.

(** The forward part of a layer needs the branch and width axes to agree;
    the neuron counts of [h] and [w] are not compared. *)
Lemma layer_forward_aligned (side : ndarray1) (w h : ndarray3) (v : ndarray1) :
  dim2 h = len side -> dim1 h = dim1 w -> dim2 w = len v ->
  exists G E ro,
    gate_values h side = inr G /\ effective_weights G w = inr E /\
    dot21 E v = inr ro /\
    brows G = dim0 h /\ bcols G = dim1 w /\ len ro = dim0 h.
Proof.
  intros H2 H1 Hw.
  destruct (gate_values_aligned h side H2) as [G HG].
  destruct (gate_values_inr _ _ _ HG) as (_ & Hr & Hc & _).
  destruct (effective_weights_aligned G w) as [E HE]; [congruence |].
  destruct (effective_weights_inr _ _ _ HE) as (_ & HEr & HEc & _).
  exists G, E. unfold dot21. rewrite HEc, Hw, Nat.eqb_refl.
  eexists. repeat split; try eassumption; simpl; congruence.
Qed.

Lemma isub_not_broadcastable (w d : ndarray3) :
  broadcastable (dim0 d) (dim0 w) = false -> isub w d = inl ValueError.
Proof. intros H. unfold isub. rewrite H. reflexivity. Qed.

Lemma not_broadcastable (src dst : nat) :
  src <> dst -> src <> 1%nat -> broadcastable src dst = false.
Proof.
  intros Hd H1. unfold broadcastable.
  destruct (Nat.eqb_spec src dst); [contradiction |].
  destruct (Nat.eqb_spec src 1); [contradiction | reflexivity].
Qed.

Lemma layer_square_loss_count_mismatch (side : ndarray1) (lr t : R)
    (w h : ndarray3) (r : ndarray1) :
  dim2 h = len side -> dim1 h = dim1 w -> dim2 w = S (len r) ->
  dim0 h <> dim0 w -> dim0 h <> 1%nat ->
  (exists ro, layer_square_loss side lr (Some t) false w h r = inr (w, ro)
              /\ len ro = dim0 h) /\
  layer_square_loss side lr (Some t) true w h r = inl ValueError.
Proof.
  intros H2 H1 Hw Hd Hone.
  destruct (layer_forward_aligned side w h (hstack 1 r) H2 H1 Hw)
    as (G & E & ro & HG & HE & Hdot & Hr & _ & Hlen).
  unfold layer_square_loss. rewrite HG. simpl. rewrite HE. simpl.
  rewrite Hdot. simpl. split.
  - exists ro. split; [reflexivity | exact Hlen].
  - rewrite isub_not_broadcastable; [reflexivity |].
    simpl. rewrite Hr. apply not_broadcastable; assumption.
Qed.

Lemma layer_bernoulli_count_mismatch (side : ndarray1) (lr eps t : R)
    (w h : ndarray3) (r : ndarray1) :
  dim2 h = len side -> dim1 h = dim1 w -> dim2 w = S (len r) ->
  dim0 h <> dim0 w -> dim0 h <> 1%nat ->
  (exists ro, layer_bernoulli side lr eps (Some t) false w h r = inr (w, ro)
              /\ len ro = dim0 h) /\
  layer_bernoulli side lr eps (Some t) true w h r = inl ValueError.
Proof.
  intros H2 H1 Hw Hd Hone.
  destruct (layer_forward_aligned side w h
              (map1 inverse_sigmoid (hstack (sigmoid 1) r)) H2 H1 Hw)
    as (G & E & ro & HG & HE & Hdot & Hr & _ & Hlen).
  unfold layer_bernoulli. rewrite HG. simpl. rewrite HE. simpl.
  rewrite Hdot. simpl. split.
  - eexists. split; [reflexivity | exact Hlen].
  - rewrite isub_not_broadcastable; [reflexivity |].
    simpl. rewrite Hr. apply not_broadcastable; assumption.
Qed.

(** X11: on a single layer whose hyperplane array has a neuron count that is
    neither that of the weight array nor 1, a step with [update = false]
    returns a prediction, and the same step with [update = true] raises
    [ValueError] at the in-place subtraction, with the weights unchanged:
    the two neuron counts are compared only when the weights are updated. *)
Theorem neuron_count_checked_on_update (x : ndarray1) (w h : ndarray3)
    (c lr eps t : R) :
  dim2 h = S (len x) -> dim1 h = dim1 w -> dim2 w = S (len x) ->
  dim0 h <> dim0 w -> dim0 h <> 1%nat -> dim0 h <> 0%nat ->
  (exists p l, step_square_loss x [w] [h] c lr (Some t) false = ([w], inr (p, l))) /\
  step_square_loss x [w] [h] c lr (Some t) true = ([w], inl ValueError) /\
  (exists p l, step_bernoulli x [w] [h] c lr eps (Some t) false = ([w], inr (p, l))) /\
  step_bernoulli x [w] [h] c lr eps (Some t) true = ([w], inl ValueError).
Proof.
  intros H2 H1 Hw Hd Hone Hzero.
  destruct (layer_square_loss_count_mismatch (hstack c x) lr t w h x H2 H1 Hw Hd Hone)
    as ((ro & Hfalse & Hlen) & Htrue).
  destruct (layer_bernoulli_count_mismatch (hstack c x) lr eps t w h
              (map1 (fun v => clip (sigmoid v) eps (1 - eps)) x) H2 H1 Hw Hd Hone)
    as ((rb & Hbfalse & Hblen) & Hbtrue).
  unfold step_square_loss, step_bernoulli. simpl run_layers.
  rewrite Hfalse, Htrue, Hbfalse, Hbtrue. simpl.
  unfold getitem0. rewrite Hlen, Hblen.
  destruct (dim0 h) as [| k]; [contradiction Hzero; reflexivity |].
  simpl. repeat split; try reflexivity; do 2 eexists; reflexivity.
Qed.

Lemma neuron_count_checked_on_update_witness :
  (exists p l,
     step_square_loss Examples.mix_x [MoreExamples.wide_w] [Examples.mix_h1]
       1 0.1 (Some 0) false
     = ([MoreExamples.wide_w], inr (p, l))) /\
  step_square_loss Examples.mix_x [MoreExamples.wide_w] [Examples.mix_h1]
    1 0.1 (Some 0) true
  = ([MoreExamples.wide_w], inl ValueError).
Proof.
  destruct (neuron_count_checked_on_update Examples.mix_x MoreExamples.wide_w
              Examples.mix_h1 1 0.1 0.01 0) as (Hf & Ht & _);
    try reflexivity; try (simpl; discriminate).
  split; assumption.
Defined.

(** ** One update, seen by the next call *)

(** On a single-neuron layer, the output of the layer after an update, on
    the same input, in terms of the output before. *)
Lemma layer_square_loss_after_update (side : ndarray1) (lr t : R) (t2 : option R)
    (u2 : bool) (w h : ndarray3) (r : ndarray1) (w' w'' : ndarray3)
    (ro ro' : ndarray1) :
  layer_square_loss side lr (Some t) true w h r = inr (w', ro) ->
  dim0 h = dim0 w -> dim0 w = 1%nat ->
  layer_square_loss side lr t2 u2 w' h r = inr (w'', ro') ->
  at1 ro' 0 - t
  = (at1 ro 0 - t) * (1 - lr * active_branches h side 0 * sq_norm (hstack 1 r)).
Proof.
  intros H1 Hn Hone H2.
  destruct (layer_square_loss_update _ _ _ _ _ _ _ _ H1) as [_ Hw'].
  destruct (layer_square_loss_inr _ _ _ _ _ _ _ _ _ H1)
    as (G & E & HG & HE & Hdot & (t' & _ & Hsub)).
  destruct (layer_square_loss_inr _ _ _ _ _ _ _ _ _ H2)
    as (G2 & E2 & HG2 & HE2 & Hdot2 & _).
  rewrite HG in HG2. injection HG2 as <-.
  destruct (gate_values_inr _ _ _ HG) as (_ & _ & Hc & Hbit).
  destruct (effective_weights_inr _ _ _ HE) as (Hb & _ & _ & HEat).
  destruct (effective_weights_inr _ _ _ HE2) as (_ & _ & _ & HE2at).
  destruct (isub_inr _ _ _ Hsub) as (Hd0 & Hd1 & _ & _).
  destruct (dot21_inr _ _ _ Hdot) as (_ & _ & Hro).
  destruct (dot21_inr _ _ _ Hdot2) as (_ & _ & Hro').
  rewrite Hro'. unfold active_branches, sq_norm.
  assert (HB : dim1 h = dim1 w) by congruence.
  rewrite (rsum_ext _ _
             (fun m => at2 E 0 m * at1 (hstack 1 r) m
                       + (- (lr * (at1 ro 0 - t)
                             * rsum (dim1 w) (fun b => b2r (gate_bit h side 0 b))))
                         * (at1 (hstack 1 r) m * at1 (hstack 1 r) m))).
  - rewrite rsum_plus, rsum_scal, <- Hro, HB. ring.
  - intros m _. rewrite HE2at, HEat, Hd0, Hd1, Hone, !rsum_one.
    rewrite (rsum_ext _ _
               (fun j => b2r (bat2 G 0 j) * at3 w 0 j m
                         + (- (lr * (at1 ro 0 - t) * at1 (hstack 1 r) m))
                           * b2r (gate_bit h side 0 j))).
    + rewrite rsum_plus, rsum_scal. ring.
    + intros j _. rewrite Hw', Hn, bidx_same, Hbit.
      pose proof (b2r_idem (gate_bit h side 0 j)) as Hid.
      transitivity
        (b2r (gate_bit h side 0 j) * at3 w 0 j m
         - lr * (at1 ro 0 - t) * at1 (hstack 1 r) m
           * (b2r (gate_bit h side 0 j) * b2r (gate_bit h side 0 j)));
        [ring | rewrite Hid; ring].
Qed.

(** X12: a single layer with a single neuron, trained on one example by
    [step_square_loss] and then asked again for the same input, answers with
    the residual multiplied by
    [1 - learning_rate * active_branches * (1 + |x|^2)]: while that product
    lies in [[0, 2]], the loss on the example does not grow. *)
Theorem square_loss_update_contracts (x : ndarray1) (w h : ndarray3) (c lr t : R) :
  layer_ok (len x) (len x) w h = true -> dim0 w = 1%nat ->
  exists p l p' l',
    snd (step_square_loss x [w] [h] c lr (Some t) true) = inr (p, l) /\
    snd (step_square_loss x
           (fst (step_square_loss x [w] [h] c lr (Some t) true)) [h]
           c lr (Some t) false) = inr (p', l') /\
    p' - t
    = (p - t) * (1 - lr * active_branches h (hstack c x) 0 * sq_norm (hstack 1 x)) /\
    (0 <= lr * active_branches h (hstack c x) 0 * sq_norm (hstack 1 x) <= 2 ->
     l' <= l).
Proof.
  intros Hok Hone.
  destruct (layer_square_loss_total (hstack c x) lr (Some t) true (len x) w h x)
    as (w' & ro & H1 & Hlen); [reflexivity | discriminate | exact Hok |].
  destruct (layer_square_loss_frame _ _ _ _ _ _ _ _ _ H1) as (Hd0 & Hd1 & Hd2 & _).
  assert (Hok' : layer_ok (len x) (len x) w' h = true).
  { unfold layer_ok in *. rewrite Hd0, Hd1, Hd2. exact Hok. }
  destruct (layer_square_loss_total (hstack c x) lr (Some t) false (len x) w' h x)
    as (w'' & ro' & H2 & Hlen'); [reflexivity | discriminate | exact Hok' |].
  pose proof (layer_ok_true _ _ _ _ Hok) as (Hn & _).
  pose proof (layer_square_loss_after_update _ _ _ _ _ _ _ _ _ _ _ _ H1 Hn Hone H2)
    as Hres.
  exists (at1 ro 0), ((t - at1 ro 0) ^ 2 / 2), (at1 ro' 0), ((t - at1 ro' 0) ^ 2 / 2).
  assert (Hfirst : step_square_loss x [w] [h] c lr (Some t) true
                   = ([w'], inr (at1 ro 0, (t - at1 ro 0) ^ 2 / 2))).
  { unfold step_square_loss. simpl run_layers. rewrite H1. simpl.
    rewrite getitem0_one by congruence. reflexivity. }
  rewrite Hfirst. simpl fst. simpl snd.
  split; [reflexivity |]. split; [| split].
  - unfold step_square_loss. simpl run_layers. rewrite H2. simpl.
    rewrite getitem0_one by congruence. reflexivity.
  - exact Hres.
  - intros Hk.
    set (k := lr * active_branches h (hstack c x) 0 * sq_norm (hstack 1 x)) in *.
    assert (Hsq : (t - at1 ro' 0) ^ 2 = (t - at1 ro 0) ^ 2 * (1 - k) ^ 2).
    { replace (t - at1 ro' 0) with (- (at1 ro' 0 - t)) by ring.
      rewrite Hres. ring. }
    rewrite Hsq.
    assert (Hk2 : (1 - k) ^ 2 <= 1) by nra.
    pose proof (pow2_ge_0 (t - at1 ro 0)) as Hpos.
    nra.
Qed.

Lemma square_loss_update_contracts_witness :
  exists p l p' l',
    snd (step_square_loss Examples.sc_x [Examples.sc_w] [Examples.sc_h]
           1 0.1 (Some 3) true) = inr (p, l) /\
    snd (step_square_loss Examples.sc_x
           (fst (step_square_loss Examples.sc_x [Examples.sc_w] [Examples.sc_h]
                   1 0.1 (Some 3) true))
           [Examples.sc_h] 1 0.1 (Some 3) false) = inr (p', l') /\
    p' - 3
    = (p - 3) * (1 - 0.1 * active_branches Examples.sc_h (hstack 1 Examples.sc_x) 0
                     * sq_norm (hstack 1 Examples.sc_x)) /\
    l' <= l.
Proof.
  destruct (square_loss_update_contracts Examples.sc_x Examples.sc_w Examples.sc_h
              1 0.1 3 eq_refl eq_refl) as (p & l & p' & l' & H1 & H2 & Hres & Hloss).
  exists p, l, p', l'.
  split; [exact H1 |]. split; [exact H2 |]. split; [exact Hres |].
  apply Hloss. unfold active_branches, sq_norm, gate_bit, hyperplane_dot.
  np_eval. lra.
Defined.

(** ** [forward_pass] *)

Section ForwardLoop.

Variable step_fn : step_fn_type.
Variables (hs : list ndarray3) (lr : R) (u : bool).

(** The lists a pass starts with are a prefix of the lists it ends with. *)
Lemma forward_loop_acc (xy : list (ndarray1 * R)) :
  forall ws losses outputs,
    forward_loop step_fn xy ws hs lr u losses outputs
    = (fst (forward_loop step_fn xy ws hs lr u [] []),
       lo <- snd (forward_loop step_fn xy ws hs lr u [] []) ;;
       ret (losses ++ fst lo, outputs ++ snd lo)).
Proof.
  induction xy as [| [x_i y_i] rest IH]; intros ws losses outputs.
  - simpl. rewrite !app_nil_r. reflexivity.
  - simpl. destruct (snd (step_fn x_i ws hs (Some y_i) lr u)) as [e | [y l]].
    + reflexivity.
    + rewrite (IH _ (losses ++ [l]) (outputs ++ [y])).
      rewrite (IH _ [l] [y]). simpl.
      destruct (snd (forward_loop step_fn rest _ hs lr u [] [])) as [e | [ls os]];
        simpl; [reflexivity |].
      rewrite <- !app_assoc. reflexivity.
Qed.

(** A pass over [xy1 ++ xy2] is the pass over [xy1] followed by the pass
    over [xy2] on the weights the first one left. *)
Lemma forward_loop_app (xy1 xy2 : list (ndarray1 * R)) :
  forall ws losses outputs,
    forward_loop step_fn (xy1 ++ xy2) ws hs lr u losses outputs
    = match snd (forward_loop step_fn xy1 ws hs lr u losses outputs) with
      | inl e => (fst (forward_loop step_fn xy1 ws hs lr u losses outputs), inl e)
      | inr (ls, os) =>
          forward_loop step_fn xy2
            (fst (forward_loop step_fn xy1 ws hs lr u losses outputs)) hs lr u ls os
      end.
Proof.
  induction xy1 as [| [x_i y_i] rest IH]; intros ws losses outputs.
  - reflexivity.
  - simpl. destruct (snd (step_fn x_i ws hs (Some y_i) lr u)) as [e | [y l]].
    + reflexivity.
    + apply IH.
Qed.

(** What holds of every example and the pair a step returns for it holds
    of every example of a pass and the pair the pass collects for it. *)
Lemma forward_loop_forall (P : ndarray1 * R -> R * R -> Prop) :
  (forall x ws t p l,
     snd (step_fn x ws hs (Some t) lr u) = inr (p, l) -> P (x, t) (p, l)) ->
  forall xy ws ls os,
    snd (forward_loop step_fn xy ws hs lr u [] []) = inr (ls, os) ->
    length ls = length xy /\ length os = length xy /\
    Forall2 P xy (combine os ls).
Proof.
  intros Hstep. induction xy as [| [x_i y_i] rest IH]; intros ws ls os H.
  - simpl in H. injection H as <- <-. repeat split; constructor.
  - simpl in H.
    destruct (snd (step_fn x_i ws hs (Some y_i) lr u)) as [e | [y l]] eqn:Hs;
      [discriminate H |].
    rewrite forward_loop_acc in H. simpl in H.
    destruct (snd (forward_loop step_fn rest _ hs lr u [] [])) as [e | [ls' os']] eqn:Hr;
      [discriminate H |].
    simpl in H. injection H as <- <-.
    destruct (IH _ _ _ Hr) as (Hl & Ho & Hall).
    simpl. repeat split; try congruence.
    constructor; [apply (Hstep _ _ _ _ _ Hs) | exact Hall].
Qed.

(** A pass whose steps never rebind a weight array returns the weight list
    it was given. *)
Lemma forward_loop_unchanged :
  (forall x ws t, fst (step_fn x ws hs t lr u) = ws) ->
  forall xy ws losses outputs,
    fst (forward_loop step_fn xy ws hs lr u losses outputs) = ws.
Proof.
  intros Hstep. induction xy as [| [x_i y_i] rest IH]; intros ws losses outputs.
  - reflexivity.
  - simpl. destruct (snd (step_fn x_i ws hs (Some y_i) lr u)) as [e | [y l]].
    + apply Hstep.
    + rewrite IH. apply Hstep.
Qed.

End ForwardLoop.

Lemma call_step_no_update (x : ndarray1) (ws hs : list ndarray3) (t : option R) (lr : R) :
  fst (call_step_square_loss x ws hs t lr false) = ws /\
  fst (call_step_bernoulli x ws hs t lr false) = ws.
Proof.
  unfold call_step_square_loss, call_step_bernoulli, step_square_loss, step_bernoulli.
  simpl fst. split; apply run_layers_unchanged; intros w h r w' r'.
  - apply layer_square_loss_no_update.
  - apply layer_bernoulli_no_update.
Qed.

(** X13: an evaluation pass, [forward_pass] with [update = false], returns
    the weight list it was given, for either step function, on any data,
    whether it returns or raises. *)
Theorem forward_pass_evaluation_keeps_weights (x : list ndarray1) (y : list R)
    (ws hs : list ndarray3) (lr : R) :
  fst (forward_pass call_step_square_loss x y ws hs lr false) = ws /\
  fst (forward_pass call_step_bernoulli x y ws hs lr false) = ws.
Proof.
  unfold forward_pass. simpl fst.
  split; apply forward_loop_unchanged; intros x0 ws0 t; apply call_step_no_update.
Qed.

Lemma combine_app_same {A B : Type} (l1 l2 : list A) (k1 k2 : list B) :
  length l1 = length k1 ->
  combine (l1 ++ l2) (k1 ++ k2) = combine l1 k1 ++ combine l2 k2.
Proof.
  revert k1. induction l1 as [| a l1 IH]; intros [| b k1] Hlen;
    simpl in *; try discriminate.
  - reflexivity.
  - rewrite IH by congruence. reflexivity.
Qed.

Lemma fold_sum_app (l1 l2 : list R) :
  fold_right Rplus 0 (l1 ++ l2) = fold_right Rplus 0 l1 + fold_right Rplus 0 l2.
Proof.
  induction l1 as [| a l1 IH]; simpl.
  - lra.
  - rewrite IH. lra.
Qed.

Lemma np_mean_sum (l : list R) :
  l <> [] -> fold_right Rplus 0 l = INR (length l) * np_mean l.
Proof.
  intros Hne. unfold np_mean. field.
  apply not_0_INR. destruct l; [contradiction Hne; reflexivity | discriminate].
Qed.

(** The mean of two chunks, from the means of the chunks. *)
Lemma np_mean_app (l1 l2 : list R) :
  l1 <> [] -> l2 <> [] ->
  np_mean (l1 ++ l2)
  = (INR (length l1) * np_mean l1 + INR (length l2) * np_mean l2)
    / INR (length l1 + length l2).
Proof.
  intros H1 H2. unfold np_mean at 1.
  rewrite fold_sum_app, length_app, (np_mean_sum l1 H1), (np_mean_sum l2 H2).
  reflexivity.
Qed.

(** X14: a pass over a data set given in two chunks.  If the pass over the
    first chunk raises, so does the pass over both, with the same exception
    and the same weights.  If it returns, the pass over both is the pass over
    the second chunk started on the weights the first one left: the outputs
    are concatenated and the mean loss is the mean of the chunk means
    weighted by the chunk sizes. *)
Theorem forward_pass_chunks (step_fn : step_fn_type) (x1 x2 : list ndarray1)
    (y1 y2 : list R) (ws hs : list ndarray3) (lr : R) (u : bool) :
  length x1 = length y1 ->
  (forall e, snd (forward_pass step_fn x1 y1 ws hs lr u) = inl e ->
     forward_pass step_fn (x1 ++ x2) (y1 ++ y2) ws hs lr u
     = (fst (forward_pass step_fn x1 y1 ws hs lr u), inl e)) /\
  (forall m1 o1 m2 o2,
     snd (forward_pass step_fn x1 y1 ws hs lr u) = inr (m1, o1) ->
     snd (forward_pass step_fn x2 y2
            (fst (forward_pass step_fn x1 y1 ws hs lr u)) hs lr u) = inr (m2, o2) ->
     o1 <> [] -> o2 <> [] ->
     forward_pass step_fn (x1 ++ x2) (y1 ++ y2) ws hs lr u
     = (fst (forward_pass step_fn x2 y2
               (fst (forward_pass step_fn x1 y1 ws hs lr u)) hs lr u),
        inr ((INR (length o1) * m1 + INR (length o2) * m2)
             / INR (length o1 + length o2),
             o1 ++ o2))).
Proof.
  intros Hlen. unfold forward_pass. simpl fst. simpl snd.
  rewrite (combine_app_same x1 x2 y1 y2 Hlen), forward_loop_app.
  destruct (snd (forward_loop step_fn (combine x1 y1) ws hs lr u [] []))
    as [e | [ls1 os1]] eqn:H1; simpl.
  - split; [| intros m1 o1 m2 o2 Habs; discriminate Habs].
    intros e' He'. injection He' as <-. reflexivity.
  - split; [intros e Habs; discriminate Habs |].
    intros m1 o1 m2 o2 Hm1 H2 Ho1 Ho2. injection Hm1 as <- <-.
    rewrite forward_loop_acc.
    destruct (snd (forward_loop step_fn (combine x2 y2) _ hs lr u [] []))
      as [e | [ls2 os2]] eqn:Hr2; simpl in H2; [discriminate H2 |].
    injection H2 as <- <-. simpl.
    destruct (forward_loop_forall step_fn hs lr u (fun _ _ => True)
                (fun _ _ _ _ _ _ => I) _ _ _ _ H1) as (Hl1 & Hos1 & _).
    destruct (forward_loop_forall step_fn hs lr u (fun _ _ => True)
                (fun _ _ _ _ _ _ => I) _ _ _ _ Hr2) as (Hl2 & Hos2 & _).
    assert (Hne1 : ls1 <> []).
    { intros ->. destruct os1; [contradiction Ho1; reflexivity |].
      simpl in Hl1, Hos1. congruence. }
    assert (Hne2 : ls2 <> []).
    { intros ->. destruct os2; [contradiction Ho2; reflexivity |].
      simpl in Hl2, Hos2. congruence. }
    rewrite (np_mean_app ls1 ls2 Hne1 Hne2).
    replace (length os1) with (length ls1) by congruence.
    replace (length os2) with (length ls2) by congruence.
    reflexivity.
Qed.

(** X15: a pass that returns has one output per zipped example: as many as
    the shorter of [x] and [y] has entries. *)
Theorem forward_pass_output_count (step_fn : step_fn_type) (x : list ndarray1)
    (y : list R) (ws hs : list ndarray3) (lr : R) (u : bool) (m : R) (outs : list R) :
  snd (forward_pass step_fn x y ws hs lr u) = inr (m, outs) ->
  length outs = Nat.min (length x) (length y).
Proof.
  unfold forward_pass. simpl snd. intros H.
  apply bind_inr in H as ([ls os] & Hloop & H). injection H as _ <-.
  destruct (forward_loop_forall step_fn hs lr u (fun _ _ => True)
              (fun _ _ _ _ _ _ => I) _ _ _ _ Hloop) as (_ & Hos & _).
  simpl. rewrite Hos. apply length_combine.
Qed.

Lemma forward_pass_chunks_witness :
  exists m1 o1 m2 o2,
    snd (forward_pass call_step_square_loss [Examples.sc_x] [3]
           [Examples.sc_w] [Examples.sc_h] 0.1 true) = inr (m1, o1) /\
    snd (forward_pass call_step_square_loss [Examples.sc_x] [3]
           (fst (forward_pass call_step_square_loss [Examples.sc_x] [3]
                   [Examples.sc_w] [Examples.sc_h] 0.1 true))
           [Examples.sc_h] 0.1 true) = inr (m2, o2) /\
    snd (forward_pass call_step_square_loss [Examples.sc_x; Examples.sc_x] [3; 3]
           [Examples.sc_w] [Examples.sc_h] 0.1 true)
    = inr ((INR (length o1) * m1 + INR (length o2) * m2)
           / INR (length o1 + length o2), o1 ++ o2).
Proof.
  do 4 eexists. split; [reflexivity |]. split; [reflexivity |].
  destruct (forward_pass_chunks call_step_square_loss [Examples.sc_x] [Examples.sc_x]
              [3] [3] [Examples.sc_w] [Examples.sc_h] 0.1 true eq_refl) as [_ Hok].
  simpl app in Hok.
  rewrite (Hok _ _ _ _ eq_refl eq_refl); [reflexivity | discriminate | discriminate].
Defined.

Lemma forward_pass_output_count_witness :
  exists m outs,
    snd (forward_pass call_step_square_loss [Examples.sc_x; Examples.sc_x] [3]
           [Examples.sc_w] [Examples.sc_h] 0.1 false) = inr (m, outs) /\
    length outs = 1%nat.
Proof.
  do 2 eexists. split; [reflexivity |].
  apply (forward_pass_output_count call_step_square_loss
           [Examples.sc_x; Examples.sc_x] [3] [Examples.sc_w] [Examples.sc_h]
           0.1 false _ _ eq_refl).
Defined.

Section Evaluation.

Variable step_fn : step_fn_type.
Variables (ws hs : list ndarray3) (lr : R).

Hypothesis step_keeps : forall x t, fst (step_fn x ws hs t lr false) = ws.

(** An evaluation pass collects, example by example, what the step returns
    on the one weight list. *)
Lemma forward_loop_eval (xy : list (ndarray1 * R)) (ls os : list R) :
  snd (forward_loop step_fn xy ws hs lr false [] []) = inr (ls, os) <->
  exists res, example_results step_fn ws hs lr xy res /\
              ls = map snd res /\ os = map fst res.
Proof.
  revert ls os. induction xy as [| [x_i y_i] rest IH]; intros ls os.
  - simpl. split.
    + intros H. injection H as <- <-. exists []. repeat split. constructor.
    + intros (res & Hres & -> & ->). inversion Hres. reflexivity.
  - simpl. rewrite step_keeps.
    destruct (snd (step_fn x_i ws hs (Some y_i) lr false)) as [e | [y l]] eqn:Hs.
    + split; [intros H; discriminate H |].
      intros (res & Hres & _). inversion Hres as [| ? r ? ? Hr _]; subst.
      simpl in Hr. rewrite Hs in Hr. discriminate Hr.
    + rewrite forward_loop_acc. split.
      * intros H.
        destruct (snd (forward_loop step_fn rest ws hs lr false [] []))
          as [e | [ls' os']] eqn:Hrest; [discriminate H |].
        simpl in H. injection H as <- <-.
        destruct (proj1 (IH ls' os') eq_refl) as (res & Hres & -> & ->).
        exists ((y, l) :: res). repeat split. constructor; assumption.
      * intros (res & Hres & -> & ->).
        inversion Hres as [| ? r ? res' Hr Hres']; subst.
        simpl in Hr. rewrite Hs in Hr. injection Hr as <-.
        rewrite (proj2 (IH (map snd res') (map fst res'))); [reflexivity |].
        exists res'. repeat split. exact Hres'.
Qed.

End Evaluation.

Lemma fold_sum_perm (l l' : list R) :
  Permutation l l' -> fold_right Rplus 0 l = fold_right Rplus 0 l'.
Proof.
  induction 1 as [| a l l' _ IH | a b l | l l' l'' _ IH1 _ IH2]; simpl.
  - reflexivity.
  - rewrite IH. reflexivity.
  - lra.
  - congruence.
Qed.

Lemma np_mean_perm (l l' : list R) : Permutation l l' -> np_mean l = np_mean l'.
Proof.
  intros HP. unfold np_mean.
  rewrite (fold_sum_perm l l' HP), (Permutation_length HP). reflexivity.
Qed.

Lemma evaluation_permuted (step_fn : step_fn_type) (ws hs : list ndarray3) (lr : R)
    (x x' : list ndarray1) (y y' : list R) (m : R) (outs : list R) :
  (forall x0 t, fst (step_fn x0 ws hs t lr false) = ws) ->
  Permutation (combine x y) (combine x' y') ->
  snd (forward_pass step_fn x y ws hs lr false) = inr (m, outs) ->
  exists outs',
    snd (forward_pass step_fn x' y' ws hs lr false) = inr (m, outs') /\
    Permutation outs outs'.
Proof.
  intros Hkeep HP H. unfold forward_pass in *. simpl snd in *.
  apply bind_inr in H as ([ls os] & Hloop & H). injection H as <- <-.
  apply (forward_loop_eval step_fn ws hs lr Hkeep) in Hloop
    as (res & Hres & -> & ->).
  destruct (Permutation_Forall2 HP Hres) as (res' & HPres & Hres').
  exists (map fst res'). split.
  - rewrite (proj2 (forward_loop_eval step_fn ws hs lr Hkeep _
                      (map snd res') (map fst res'))).
    + simpl. rewrite (np_mean_perm _ _ (Permutation_map snd HPres)). reflexivity.
    + exists res'. repeat split. exact Hres'.
  - apply Permutation_map, HPres.
Qed.

(** X16: the evaluation pass does not depend on the order of the examples:
    on a reordering of the zipped (row, target) pairs, [forward_pass] with
    [update = false] returns the same mean loss and the same outputs,
    reordered; for either step function. *)
Theorem evaluation_order_irrelevant (x x' : list ndarray1) (y y' : list R)
    (ws hs : list ndarray3) (lr m : R) (outs : list R) :
  Permutation (combine x y) (combine x' y') ->
  (snd (forward_pass call_step_square_loss x y ws hs lr false) = inr (m, outs) ->
   exists outs',
     snd (forward_pass call_step_square_loss x' y' ws hs lr false) = inr (m, outs') /\
     Permutation outs outs') /\
  (snd (forward_pass call_step_bernoulli x y ws hs lr false) = inr (m, outs) ->
   exists outs',
     snd (forward_pass call_step_bernoulli x' y' ws hs lr false) = inr (m, outs') /\
     Permutation outs outs').
Proof.
  intros HP. split; apply evaluation_permuted; try exact HP;
    intros x0 t; apply call_step_no_update.
Qed.

Lemma evaluation_order_irrelevant_witness :
  exists m outs outs',
    snd (forward_pass call_step_square_loss [Examples.sc_x; Examples.tie_x] [3; 1]
           [Examples.sc_w] [Examples.sc_h] 0.1 false) = inr (m, outs) /\
    snd (forward_pass call_step_square_loss [Examples.tie_x; Examples.sc_x] [1; 3]
           [Examples.sc_w] [Examples.sc_h] 0.1 false) = inr (m, outs') /\
    Permutation outs outs'.
Proof.
  assert (H : exists m outs,
             snd (forward_pass call_step_square_loss [Examples.sc_x; Examples.tie_x]
                    [3; 1] [Examples.sc_w] [Examples.sc_h] 0.1 false) = inr (m, outs))
    by (do 2 eexists; reflexivity).
  destruct H as (m & outs & H).
  destruct (evaluation_order_irrelevant
              [Examples.sc_x; Examples.tie_x] [Examples.tie_x; Examples.sc_x]
              [3; 1] [1; 3] [Examples.sc_w] [Examples.sc_h] 0.1 m outs
              (perm_swap _ _ [])) as [Hsq _].
  destruct (Hsq H) as (outs' & Hrun & Hperm).
  exists m, outs, outs'. split; [exact H |]. split; [exact Hrun | exact Hperm].
Defined.

Lemma fold_sum_bounds (a b : R) (l : list R) :
  Forall (fun v => a <= v <= b) l ->
  INR (length l) * a <= fold_right Rplus 0 l <= INR (length l) * b.
Proof.
  induction 1 as [| v l Hv _ IH].
  - simpl. lra.
  - change (length (v :: l)) with (S (length l)). rewrite S_INR. simpl. lra.
Qed.

Lemma np_mean_bounds (a b : R) (l : list R) :
  l <> [] -> Forall (fun v => a <= v <= b) l -> a <= np_mean l <= b.
Proof.
  intros Hne Hall. pose proof (fold_sum_bounds a b l Hall) as Hsum.
  assert (Hn : 0 < INR (length l)).
  { apply lt_0_INR. destruct l; [contradiction Hne; reflexivity | simpl; lia]. }
  unfold np_mean. split.
  - apply Rmult_le_reg_l with (INR (length l)); [exact Hn |].
    replace (INR (length l) * (fold_right Rplus 0 l / INR (length l)))
      with (fold_right Rplus 0 l) by (field; lra).
    lra.
  - apply Rmult_le_reg_l with (INR (length l)); [exact Hn |].
    replace (INR (length l) * (fold_right Rplus 0 l / INR (length l)))
      with (fold_right Rplus 0 l) by (field; lra).
    lra.
Qed.

Lemma Forall2_combine_split {A : Type} (P : A -> R * R -> Prop) (Q1 Q2 : R -> Prop)
    (S : A -> Prop) (xy : list A) (os ls : list R) :
  length os = length ls ->
  Forall2 P xy (combine os ls) ->
  (forall e p l, P e (p, l) -> Q1 p /\ (S e -> Q2 l)) ->
  Forall Q1 os /\ (Forall S xy -> Forall Q2 ls).
Proof.
  intros Hlen Hall HP. revert ls Hlen xy Hall.
  induction os as [| o os IH]; intros [| l ls] Hlen xy Hall;
    simpl in *; try discriminate.
  - split; constructor.
  - inversion Hall as [| e pl xy' rest He Hrest]; subst.
    destruct (HP _ _ _ He) as [Hq1 Hq2].
    destruct (IH ls ltac:(congruence) xy' Hrest) as [Hos Hls].
    split; [constructor; assumption |].
    intros HS. inversion HS; subst. constructor; [apply Hq2 | apply Hls]; assumption.
Qed.

(** X17: every output of a pass with [step_bernoulli] lies in
    [[0.01, 0.99]], with or without updates; and when the targets are 0 or 1
    and there is at least one example, the mean loss lies in
    [[-0.99, -0.01]]. *)
Theorem forward_pass_bernoulli_bounds (x : list ndarray1) (y : list R)
    (ws hs : list ndarray3) (lr : R) (u : bool) (m : R) (outs : list R) :
  snd (forward_pass call_step_bernoulli x y ws hs lr u) = inr (m, outs) ->
  Forall (fun p => 0.01 <= p <= 0.99) outs /\
  (outs <> [] -> Forall (fun t => t = 0 \/ t = 1) y ->
   - (0.99) <= m <= - (0.01)).
Proof.
  unfold forward_pass. simpl snd. intros H.
  apply bind_inr in H as ([ls os] & Hloop & H). injection H as <- <-. simpl.
  assert (Heps : 0.01 <= 1 - 0.01) by lra.
  destruct (forward_loop_forall call_step_bernoulli hs lr u
              (fun e pl => 0.01 <= fst pl <= 0.99 /\
                           (snd e = 0 \/ snd e = 1 -> - (0.99) <= snd pl <= - (0.01)))
              ) with (xy := combine x y) (ws := ws) (ls := ls) (os := os)
    as (Hl & Ho & Hall); [| exact Hloop |].
  { intros x0 ws0 t p l Hs. unfold call_step_bernoulli in Hs. simpl.
    destruct (step_bernoulli_inr _ _ _ _ _ _ _ _ _ _ Hs)
      as (v & tv & Hv & -> & Htv & ->).
    injection Htv as <-.
    destruct (run_layers_last _ _ _ _ _ _ Hv)
      as [Hnone | (w & h & r0 & w1 & _ & Hlay)]; [discriminate Hnone |].
    pose proof (layer_bernoulli_bounds _ _ _ _ _ _ _ _ _ _ Heps Hlay 0%nat) as Hb.
    split; [lra |]. intros [-> | ->]; lra. }
  destruct (Forall2_combine_split _ (fun p => 0.01 <= p <= 0.99)
              (fun l => - (0.99) <= l <= - (0.01))
              (fun e : ndarray1 * R => snd e = 0 \/ snd e = 1)
              (combine x y) os ls ltac:(congruence) Hall) as [Hos Hls].
  { intros e p l. simpl. tauto. }
  split; [exact Hos |].
  intros Hne Hy. apply np_mean_bounds.
  - intros ->. destruct os; [contradiction Hne; reflexivity |].
    simpl in Hl, Ho. congruence.
  - apply Hls. apply Forall_forall. intros [x0 t] Hin.
    apply in_combine_r in Hin. simpl.
    apply (proj1 (Forall_forall _ _) Hy t Hin).
Qed.

Lemma forward_pass_bernoulli_bounds_witness :
  exists m outs,
    snd (forward_pass call_step_bernoulli [Examples.sc_x; Examples.tie_x] [1; 0]
           [Examples.sc_w] [Examples.sc_h] 0.1 true) = inr (m, outs) /\
    Forall (fun p => 0.01 <= p <= 0.99) outs /\
    - (0.99) <= m <= - (0.01).
Proof.
  assert (H : exists m outs,
             snd (forward_pass call_step_bernoulli [Examples.sc_x; Examples.tie_x]
                    [1; 0] [Examples.sc_w] [Examples.sc_h] 0.1 true) = inr (m, outs)
             /\ outs <> [])
    by (do 2 eexists; split; [reflexivity | discriminate]).
  destruct H as (m & outs & H & Hne).
  destruct (forward_pass_bernoulli_bounds [Examples.sc_x; Examples.tie_x] [1; 0]
              [Examples.sc_w] [Examples.sc_h] 0.1 true m outs H) as [Hout Hmean].
  exists m, outs. split; [exact H |]. split; [exact Hout |].
  apply Hmean; [exact Hne |].
  constructor; [right; reflexivity |].
  constructor; [left; reflexivity | constructor].
Defined.

(** ** Initialisation *)

Lemma np_zeros_all_zero (n b k : nat) : all_zero (np_zeros n b k).
Proof. intros i j m _ _ _. reflexivity. Qed.

Lemma init_weights_all_zero (ns : list nat) (B d : nat) :
  Forall all_zero (init_weights ns B d).
Proof.
  unfold init_weights. apply Forall_forall. intros w Hin.
  apply in_map_iff in Hin as ([n k] & <- & _). apply np_zeros_all_zero.
Qed.

(** The stack built from [num_neurons], started at incoming width [k]. *)
Lemma init_stack_ok (B d : nat) :
  forall ns raw k,
    ns <> [] -> last ns 0%nat = 1%nat -> drawn ns B d raw ->
    stack_ok d k
      (map (fun ni => np_zeros (fst ni) B (snd ni))
           (combine ns ((k + 1)%nat :: map (fun n => (n + 1)%nat) (removelast ns))))
      (init_hyperplanes raw) = true.
Proof.
  induction ns as [| n ns IH]; intros raw k Hne Hlast Hraw.
  - contradiction Hne. reflexivity.
  - destruct raw as [| h raw']; [inversion Hraw |].
    apply Forall2_cons_iff in Hraw as [(H0 & H1 & H2) Hraw'].
    destruct ns as [| n2 ns].
    + inversion Hraw'; subst raw'. simpl in Hlast.
      simpl. unfold layer_ok. simpl.
      rewrite H0, H1, H2, Hlast, !Nat.add_1_r, !Nat.eqb_refl. reflexivity.
    + change (removelast (n :: n2 :: ns)) with (n :: removelast (n2 :: ns)).
      simpl map. simpl combine.
      change (stack_ok d k (?w :: ?ws) (?a :: ?hs))
        with (layer_ok d k w a && stack_ok d (dim0 w) ws hs).
      apply andb_true_iff. split.
      * unfold layer_ok. simpl.
        rewrite H0, H1, H2, !Nat.add_1_r, !Nat.eqb_refl. reflexivity.
      * simpl dim0. apply IH; [discriminate | exact Hlast | exact Hraw'].
Qed.

Lemma init_network_shapes (ns : list nat) (B d : nat) (raw : list ndarray3) :
  ns <> [] -> last ns 0%nat = 1%nat -> drawn ns B d raw ->
  network_ok d (init_weights ns B d) (init_hyperplanes raw) = true.
Proof.
  intros Hne Hlast Hraw.
  pose proof (init_stack_ok B d ns raw d Hne Hlast Hraw) as Hok.
  unfold network_ok, init_weights, num_inputs.
  destruct ns as [| n ns]; [contradiction Hne; reflexivity |].
  exact Hok.
Qed.

(** X18: for a nonempty [num_neurons] whose last element is 1, the weights
    and hyperplanes the notebook initialises form a well-shaped network for
    inputs of length [input_dim]: every layer has matching neuron and branch
    counts, each layer's input width is the previous neuron count plus one,
    and the last layer has one neuron; and every weight is zero. *)
Theorem init_network_ok (num_neurons : list nat) (num_branches input_dim : nat)
    (raw : list ndarray3) :
  num_neurons <> [] -> last num_neurons 0%nat = 1%nat ->
  drawn num_neurons num_branches input_dim raw ->
  network_ok input_dim (init_weights num_neurons num_branches input_dim)
    (init_hyperplanes raw) = true /\
  Forall all_zero (init_weights num_neurons num_branches input_dim).
Proof.
  intros Hne Hlast Hraw. split.
  - apply init_network_shapes; assumption.
  - apply init_weights_all_zero.
Qed.

Lemma init_network_ok_witness :
  network_ok 1 (init_weights [2; 1]%nat 1 1)
    (init_hyperplanes [Examples.mix_h1; Examples.mix_h2]) = true /\
  Forall all_zero (init_weights [2; 1]%nat 1 1).
Proof.
  apply (init_network_ok [2; 1]%nat 1 1 [Examples.mix_h1; Examples.mix_h2]).
  - discriminate.
  - reflexivity.
  - constructor; [repeat split | constructor; [repeat split | constructor]].
Defined.

(** An evaluation pass on all-zero weights. *)
Lemma zero_weights_evaluation (d : nat) (x : list ndarray1) (y : list R)
    (ws hs : list ndarray3) (lr : R) :
  network_ok d ws hs = true -> Forall all_zero ws ->
  Forall (fun x_i => len x_i = d) x -> length x = length y ->
  forward_pass call_step_square_loss x y ws hs lr false
  = (ws, inr (np_mean (map (fun t => (t - 0) ^ 2 / 2) y), map (fun _ => 0) y)) /\
  forward_pass call_step_bernoulli x y ws hs lr false
  = (ws, inr (np_mean (map (fun _ => - (1 / 2)) y), map (fun _ => 1 / 2) y)).
Proof.
  intros Hok Hz Hx Hlen.
  assert (Hsq : example_results call_step_square_loss ws hs lr (combine x y)
                  (map (fun t => (0, (t - 0) ^ 2 / 2)) y)).
  { revert y Hlen. induction Hx as [| x_i x Hxi _ IH]; intros [| t y] Hlen;
      simpl in Hlen; try discriminate Hlen; [constructor |].
    constructor; [| apply IH; congruence].
    unfold call_step_square_loss. cbn [fst snd]. subst d.
    destruct (step_square_loss_total x_i ws hs 1 lr t false Hok) as (v & _ & Hstep).
    rewrite Hstep.
    rewrite (zero_weights_square_loss_returned _ _ _ _ _ _ _ _ Hz Hstep).
    reflexivity. }
  assert (Hbe : example_results call_step_bernoulli ws hs lr (combine x y)
                  (map (fun _ => (1 / 2, - (1 / 2))) y)).
  { clear Hsq. revert y Hlen. induction Hx as [| x_i x Hxi _ IH]; intros [| t y] Hlen;
      simpl in Hlen; try discriminate Hlen; [constructor |].
    constructor; [| apply IH; congruence].
    unfold call_step_bernoulli. cbn [fst snd]. subst d.
    destruct (step_bernoulli_total x_i ws hs 1 lr 0.01 t false Hok) as (v & _ & Hstep).
    rewrite Hstep.
    assert (Heps : 0.01 <= 1 / 2) by lra.
    rewrite (zero_weights_bernoulli_returned _ _ _ _ _ _ _ _ _ Hz Heps Hstep).
    unfold ret. do 2 f_equal. lra. }
  assert (Hk1 : fst (forward_pass call_step_square_loss x y ws hs lr false) = ws).
  { unfold forward_pass. simpl fst. apply forward_loop_unchanged.
    intros x0 ws0 t. apply call_step_no_update. }
  assert (Hk2 : fst (forward_pass call_step_bernoulli x y ws hs lr false) = ws).
  { unfold forward_pass. simpl fst. apply forward_loop_unchanged.
    intros x0 ws0 t. apply call_step_no_update. }
  split.
  - rewrite (surjective_pairing (forward_pass call_step_square_loss x y ws hs lr false)).
    rewrite Hk1. f_equal. unfold forward_pass. simpl snd.
    rewrite (proj2 (forward_loop_eval call_step_square_loss ws hs lr
                      (fun x0 t => proj1 (call_step_no_update x0 ws hs t lr)) _
                      (map snd (map (fun t => (0, (t - 0) ^ 2 / 2)) y))
                      (map fst (map (fun t => (0, (t - 0) ^ 2 / 2)) y)))).
    + simpl. rewrite !map_map. reflexivity.
    + eexists. split; [exact Hsq |]. split; reflexivity.
  - rewrite (surjective_pairing (forward_pass call_step_bernoulli x y ws hs lr false)).
    rewrite Hk2. f_equal. unfold forward_pass. simpl snd.
    rewrite (proj2 (forward_loop_eval call_step_bernoulli ws hs lr
                      (fun x0 t => proj2 (call_step_no_update x0 ws hs t lr)) _
                      (map snd (map (fun _ : R => (1 / 2, - (1 / 2))) y))
                      (map fst (map (fun _ : R => (1 / 2, - (1 / 2))) y)))).
    + simpl. rewrite !map_map. reflexivity.
    + eexists. split; [exact Hbe |]. split; reflexivity.
Qed.

(** X19: the evaluation pass of a freshly initialised network, on rows of
    length [input_dim] with one target each: with [step_square_loss] every
    output is 0 and the mean loss is the mean of [target^2 / 2]; with
    [step_bernoulli] every output is 1/2 and every loss is -1/2, whatever the
    targets and the drawn hyperplanes. *)
Theorem fresh_network_evaluation (num_neurons : list nat)
    (num_branches input_dim : nat) (raw : list ndarray3)
    (x : list ndarray1) (y : list R) (lr : R) :
  num_neurons <> [] -> last num_neurons 0%nat = 1%nat ->
  drawn num_neurons num_branches input_dim raw ->
  Forall (fun x_i => len x_i = input_dim) x -> length x = length y ->
  forward_pass call_step_square_loss x y
    (init_weights num_neurons num_branches input_dim) (init_hyperplanes raw) lr false
  = (init_weights num_neurons num_branches input_dim,
     inr (np_mean (map (fun t => (t - 0) ^ 2 / 2) y), map (fun _ => 0) y)) /\
  forward_pass call_step_bernoulli x y
    (init_weights num_neurons num_branches input_dim) (init_hyperplanes raw) lr false
  = (init_weights num_neurons num_branches input_dim,
     inr (np_mean (map (fun _ => - (1 / 2)) y), map (fun _ => 1 / 2) y)).
Proof.
  intros Hne Hlast Hraw Hx Hlen.
  apply (zero_weights_evaluation input_dim); try assumption.
  - apply init_network_shapes; assumption.
  - apply init_weights_all_zero.
Qed.

Lemma fresh_network_evaluation_witness :
  forward_pass call_step_bernoulli [Examples.mix_x; Examples.tie_x] [1; 0]
    (init_weights [2; 1]%nat 1 1)
    (init_hyperplanes [Examples.mix_h1; Examples.mix_h2]) 0.1 false
  = (init_weights [2; 1]%nat 1 1,
     inr (np_mean (map (fun _ => - (1 / 2)) [1; 0]), map (fun _ => 1 / 2) [1; 0])).
Proof.
  apply (fresh_network_evaluation [2; 1]%nat 1 1 [Examples.mix_h1; Examples.mix_h2]
           [Examples.mix_x; Examples.tie_x] [1; 0] 0.1).
  - discriminate.
  - reflexivity.
  - constructor; [repeat split | constructor; [repeat split | constructor]].
  - repeat constructor.
  - reflexivity.
Defined.

(** ** Normalisation of the hyperplanes *)

Lemma rsum_nonneg (n : nat) (f : nat -> R) :
  (forall i, 0 <= f i) -> 0 <= rsum n f.
Proof.
  intros Hf. induction n as [| n IH]; simpl.
  - lra.
  - specialize (Hf n). lra.
Qed.

Lemma hyperplane_dot_normalise (h : ndarray3) (s : ndarray1) (n b : nat) :
  hyperplane_dot (normalise h) s n b = / norm_head h n * hyperplane_dot h s n b.
Proof.
  unfold hyperplane_dot. rewrite <- rsum_scal. apply rsum_ext.
  intros k _. simpl. unfold Rdiv. ring.
Qed.

Lemma gate_bit_normalise (h : ndarray3) (s : ndarray1) (n b : nat) :
  0 < norm_head h n -> gate_bit (normalise h) s n b = gate_bit h s n b.
Proof.
  intros Hpos.
  pose proof (gate_bit_true_iff (normalise h) s n b) as H1.
  pose proof (gate_bit_true_iff h s n b) as H2.
  rewrite hyperplane_dot_normalise in H1.
  assert (Hinv : 0 < / norm_head h n) by (apply Rinv_0_lt_compat, Hpos).
  destruct (gate_bit (normalise h) s n b), (gate_bit h s n b); try reflexivity.
  - assert (Hd : 0 < / norm_head h n * hyperplane_dot h s n b)
      by (apply H1; reflexivity).
    assert (0 < hyperplane_dot h s n b).
    { destruct (Rlt_or_le 0 (hyperplane_dot h s n b)) as [Hlt | Hle]; [exact Hlt |].
      assert (/ norm_head h n * hyperplane_dot h s n b <= 0) by nra. lra. }
    symmetry. apply H2. assumption.
  - assert (Hd : 0 < hyperplane_dot h s n b) by (apply H2; reflexivity).
    apply H1. apply Rmult_lt_0_compat; assumption.
Qed.

(** X20: the normalisation of the hyperplanes changes no gate: where the
    norm it divides by is positive for every neuron, the normalised and the
    drawn hyperplanes give the same gate pattern on every side information
    of matching length. *)
Theorem normalise_keeps_gates (h : ndarray3) (s : ndarray1) :
  (forall n, (n < dim0 h)%nat -> 0 < norm_head h n) ->
  dim2 h = len s ->
  exists G G',
    gate_values h s = inr G /\ gate_values (normalise h) s = inr G' /\
    Ext.beq2 G G'.
Proof.
  intros Hpos Hal.
  destruct (gate_values_aligned h s Hal) as [G HG].
  destruct (gate_values_aligned (normalise h) s Hal) as [G' HG'].
  exists G, G'. split; [exact HG |]. split; [exact HG' |].
  destruct (gate_values_inr _ _ _ HG) as (_ & Hr & Hc & Hbit).
  destruct (gate_values_inr _ _ _ HG') as (_ & Hr' & Hc' & Hbit').
  split; [rewrite Hr, Hr'; reflexivity |].
  split; [rewrite Hc, Hc'; reflexivity |].
  intros i j Hi _. rewrite Hbit, Hbit'. symmetry.
  apply gate_bit_normalise, Hpos. rewrite <- Hr. exact Hi.
Qed.

(** X21: after the normalisation, the norm the notebook divides by, that of
    a neuron's rows without their last column, is 1 for every neuron where
    it was positive. *)
Theorem normalise_unit_norm (h : ndarray3) (n : nat) :
  0 < norm_head h n -> norm_head (normalise h) n = 1.
Proof.
  intros Hpos. unfold norm_head at 1. simpl.
  set (S := rsum (dim1 h) (fun b =>
              rsum (pred (dim2 h)) (fun k => at3 h n b k * at3 h n b k))).
  assert (HS : 0 <= S).
  { apply rsum_nonneg. intros b. apply rsum_nonneg. intros k.
    apply Rle_0_sqr. }
  assert (Hnorm : norm_head h n * norm_head h n = S) by (apply sqrt_sqrt, HS).
  rewrite (rsum_ext _ _
             (fun b => (/ norm_head h n * / norm_head h n)
                       * rsum (pred (dim2 h)) (fun k => at3 h n b k * at3 h n b k))).
  - rewrite rsum_scal. fold S. rewrite <- Hnorm.
    replace (/ norm_head h n * / norm_head h n * (norm_head h n * norm_head h n))
      with 1 by (field; lra).
    apply sqrt_1.
  - intros b _. rewrite <- rsum_scal. apply rsum_ext. intros k _.
    unfold Rdiv. ring.
Qed.

(** The two-branch hyperplane array has norm [sqrt 2]. *)
Lemma loc_h_norm_pos (n : nat) :
  (n < dim0 Examples.loc_h)%nat -> 0 < norm_head Examples.loc_h n.
Proof.
  simpl. intros Hn. replace n with 0%nat by lia.
  unfold norm_head. simpl. apply sqrt_lt_R0. lra.
Qed.

Lemma normalise_keeps_gates_witness :
  exists G G',
    gate_values Examples.loc_h (hstack 1 Examples.sc_x) = inr G /\
    gate_values (normalise Examples.loc_h) (hstack 1 Examples.sc_x) = inr G' /\
    Ext.beq2 G G'.
Proof.
  apply (normalise_keeps_gates Examples.loc_h (hstack 1 Examples.sc_x)).
  - exact loc_h_norm_pos.
  - reflexivity.
Defined.

Lemma normalise_unit_norm_witness : norm_head (normalise Examples.loc_h) 0 = 1.
Proof.
  apply (normalise_unit_norm Examples.loc_h 0).
  apply loc_h_norm_pos. simpl. lia.
Defined.

(** ** The training cell *)

Section Training.

Variable step : step_fn_type.
Variable do_classification : bool.
Variables (x_train : list ndarray1) (y_train : list R).
Variables (x_test : list ndarray1) (y_test : list R).
Variables (hs : list ndarray3) (lr : R).

Hypothesis step_keeps : forall x ws t, fst (step x ws hs t lr false) = ws.

Lemma training_loop_returns (epochs : list nat) :
  forall ws printed,
    snd (training_loop step do_classification x_train y_train x_test y_test
           hs lr epochs ws printed) = inr tt ->
    fst (fst (training_loop step do_classification x_train y_train x_test y_test
                hs lr epochs ws printed))
    = training_passes step x_train y_train hs lr (length epochs) ws /\
    length (snd (fst (training_loop step do_classification x_train y_train
                        x_test y_test hs lr epochs ws printed)))
    = (length printed
       + (if do_classification then 2 else 1) * length epochs)%nat.
Proof.
  induction epochs as [| epoch rest IH]; intros ws printed H.
  - simpl. split; [reflexivity | lia].
  - cbn [training_loop length] in H |- *.
    destruct (snd (forward_pass step x_train y_train ws hs lr true))
      as [e | [train_loss train_pred]]; [discriminate H |].
    set (ws1 := fst (forward_pass step x_train y_train ws hs lr true)) in *.
    assert (Hkeep : fst (forward_pass step x_test y_test ws1 hs lr false) = ws1).
    { unfold forward_pass. simpl fst. apply forward_loop_unchanged.
      intros x ws0 t. apply step_keeps. }
    destruct (snd (forward_pass step x_test y_test ws1 hs lr false))
      as [e | [test_loss test_pred]]; [discriminate H |].
    rewrite Hkeep in H |- *.
    destruct do_classification.
    + destruct (accuracy test_pred y_test) as [e | a]; [discriminate H |].
      destruct (IH _ _ H) as [Hw Hp]. split; [exact Hw |].
      rewrite Hp, !length_app. simpl. lia.
    + destruct (IH _ _ H) as [Hw Hp]. split; [exact Hw |].
      rewrite Hp, !length_app. simpl. lia.
Qed.

End Training.

(** X22: when the training cell runs to the end, the weights it leaves are
    those of [n_epochs] training passes in a row, 3 for classification and
    10 for regression: the evaluation passes and the accuracy computation in
    between change nothing; and it has printed two lines per epoch for
    classification and one for regression. *)
Theorem training_ignores_evaluation (do_classification : bool)
    (x_train : list ndarray1) (y_train : list R)
    (x_test : list ndarray1) (y_test : list R) (ws hs : list ndarray3) :
  snd (train do_classification x_train y_train x_test y_test ws hs) = inr tt ->
  fst (fst (train do_classification x_train y_train x_test y_test ws hs))
  = training_passes (cell_step do_classification) x_train y_train hs
      (cell_learning_rate do_classification) (cell_n_epochs do_classification) ws /\
  length (snd (fst (train do_classification x_train y_train x_test y_test ws hs)))
  = (if do_classification then 6 else 10)%nat.
Proof.
  intros H. unfold train in *.
  destruct (training_loop_returns (cell_step do_classification) do_classification
              x_train y_train x_test y_test hs
              (cell_learning_rate do_classification))
    with (epochs := seq 0 (cell_n_epochs do_classification)) (ws := ws)
         (printed := @nil line) as [Hw Hp].
  - intros x ws0 t. unfold cell_step.
    destruct do_classification; apply call_step_no_update.
  - exact H.
  - rewrite length_seq in Hw, Hp. split; [exact Hw |].
    rewrite Hp. destruct do_classification; reflexivity.
Qed.

Lemma training_ignores_evaluation_witness :
  snd (train false [Examples.sc_x] [3] [Examples.tie_x] [1]
         [Examples.sc_w] [Examples.sc_h]) = inr tt /\
  fst (fst (train false [Examples.sc_x] [3] [Examples.tie_x] [1]
              [Examples.sc_w] [Examples.sc_h]))
  = training_passes call_step_square_loss [Examples.sc_x] [3] [Examples.sc_h]
      1e-5 10 [Examples.sc_w] /\
  length (snd (fst (train false [Examples.sc_x] [3] [Examples.tie_x] [1]
                      [Examples.sc_w] [Examples.sc_h]))) = 10%nat.
Proof.
  assert (H : snd (train false [Examples.sc_x] [3] [Examples.tie_x] [1]
                     [Examples.sc_w] [Examples.sc_h]) = inr tt) by reflexivity.
  split; [exact H |].
  apply (training_ignores_evaluation false [Examples.sc_x] [3] [Examples.tie_x] [1]
           [Examples.sc_w] [Examples.sc_h] H).
Defined.

(** ** The test accuracy *)

Lemma up_unit (p : R) : 0 < p < 1 -> up p = 1%Z.
Proof.
  intros Hp. symmetry. apply tech_up; simpl; lra.
Qed.

Lemma np_round_unit (p : R) :
  0 < p < 1 -> astype_bool (np_round p) = Rltb (1 / 2) p.
Proof.
  intros Hp. unfold np_round, Rltb. rewrite (up_unit p Hp). simpl.
  replace (p - 0) with p by lra.
  destruct (Rlt_dec p (1 / 2)) as [Hlt | Hge].
  - rewrite astype_bool_0. destruct (Rlt_dec (1 / 2) p); [lra | reflexivity].
  - destruct (Rlt_dec (1 / 2) p) as [Hgt | Hle].
    + apply astype_bool_1.
    + apply astype_bool_0.
Qed.

Lemma np_mean_compl (l : list R) :
  l <> [] -> 1 - np_mean l = np_mean (map (fun v => 1 - v) l).
Proof.
  intros Hne. unfold np_mean. rewrite length_map.
  assert (Hsum : fold_right Rplus 0 (map (fun v => 1 - v) l)
                 = INR (length l) - fold_right Rplus 0 l).
  { clear Hne. induction l as [| a l IH].
    - simpl. lra.
    - change (length (a :: l)) with (S (length l)). rewrite S_INR. simpl.
      rewrite IH. lra. }
  rewrite Hsum. field.
  apply not_0_INR. destruct l; [contradiction Hne; reflexivity | discriminate].
Qed.

Lemma xor_agrees (pred y : list R) :
  Forall (fun p => 0 < p < 1) pred ->
  map (fun v => 1 - v)
      (map b2r (map (fun p => xorb (astype_bool (fst p)) (astype_bool (snd p)))
                    (combine (map np_round pred) y)))
  = map (fun pt => b2r (agrees (fst pt) (snd pt))) (combine pred y).
Proof.
  intros Hp. revert y. induction Hp as [| p pred Hp0 _ IH]; intros [| t y];
    try reflexivity.
  simpl. rewrite IH. f_equal.
  unfold agrees. rewrite (np_round_unit p Hp0).
  destruct (Rltb (1 / 2) p), (astype_bool t); simpl; lra.
Qed.

Lemma b2r_mean_range (l : list bool) :
  l <> [] -> 0 <= np_mean (map b2r l) <= 1.
Proof.
  intros Hne. apply np_mean_bounds.
  - destruct l; [contradiction Hne; reflexivity | discriminate].
  - apply Forall_forall. intros v Hin.
    apply in_map_iff in Hin as (b & <- & _). apply b2r_range.
Qed.

(** X23: for predictions strictly between 0 and 1, one per label, and at
    least one of them, the test accuracy the cell prints is the fraction of
    examples on which the prediction is above one half exactly when the
    label is nonzero; it lies between 0 and 1; and a prediction of exactly
    one half rounds to 0, the even neighbour, so it counts as class 0. *)
Theorem accuracy_counts_agreements (test_pred y_test : list R) :
  length test_pred = length y_test -> test_pred <> [] ->
  Forall (fun p => 0 < p < 1) test_pred ->
  exists a,
    accuracy test_pred y_test = inr a /\
    a = np_mean (map (fun pt => b2r (agrees (fst pt) (snd pt)))
                     (combine test_pred y_test)) /\
    0 <= a <= 1 /\
    np_round (1 / 2) = 0.
Proof.
  intros Hlen Hne Hp. unfold accuracy, logical_xor.
  rewrite length_map, Hlen, Nat.eqb_refl. simpl.
  set (d := map (fun p => xorb (astype_bool (fst p)) (astype_bool (snd p)))
                (combine (map np_round test_pred) y_test)).
  assert (Hd : map b2r d <> []).
  { unfold d. destruct test_pred as [| p ps]; [contradiction Hne; reflexivity |].
    destruct y_test as [| t ts]; [discriminate Hlen | discriminate]. }
  eexists. split; [reflexivity |]. split; [| split].
  - rewrite (np_mean_compl _ Hd). unfold d.
    rewrite (xor_agrees test_pred y_test Hp). reflexivity.
  - assert (Hd' : d <> []) by (intros Hnil; rewrite Hnil in Hd; apply Hd; reflexivity).
    pose proof (b2r_mean_range d Hd'). lra.
  - unfold np_round. rewrite (up_unit (1 / 2)) by lra. simpl.
    replace (1 / 2 - 0) with (1 / 2) by lra.
    destruct (Rlt_dec (1 / 2) (1 / 2)); [lra | reflexivity].
Qed.

Lemma accuracy_counts_agreements_witness :
  exists a,
    accuracy [1 / 2; 3 / 4] [0; 1] = inr a /\
    a = np_mean (map (fun pt => b2r (agrees (fst pt) (snd pt)))
                     (combine [1 / 2; 3 / 4] [0; 1])) /\
    0 <= a <= 1 /\
    np_round (1 / 2) = 0.
Proof.
  apply (accuracy_counts_agreements [1 / 2; 3 / 4] [0; 1]).
  - reflexivity.
  - discriminate.
  - constructor; [lra |]. constructor; [lra | constructor].
Defined.

(** ** What a training call returns *)

Lemma layer_square_loss_forward_only (side : ndarray1) (lr lr' : R)
    (t t' : option R) (u : bool) (w h : ndarray3) (r : ndarray1)
    (w' : ndarray3) (ro : ndarray1) :
  layer_square_loss side lr t u w h r = inr (w', ro) ->
  layer_square_loss side lr' t' false w h r = inr (w, ro).
Proof.
  intros H.
  destruct (layer_square_loss_inr _ _ _ _ _ _ _ _ _ H) as (G & E & HG & HE & Hdot & _).
  unfold layer_square_loss. rewrite HG. simpl. rewrite HE. simpl.
  rewrite Hdot. reflexivity.
Qed.

Lemma layer_bernoulli_forward_only (side : ndarray1) (lr lr' eps : R)
    (t t' : option R) (u : bool) (w h : ndarray3) (r : ndarray1)
    (w' : ndarray3) (ro : ndarray1) :
  layer_bernoulli side lr eps t u w h r = inr (w', ro) ->
  layer_bernoulli side lr' eps t' false w h r = inr (w, ro).
Proof.
  intros H.
  destruct (layer_bernoulli_inr _ _ _ _ _ _ _ _ _ _ H)
    as (G & E & ho & HG & HE & Hdot & -> & _).
  unfold layer_bernoulli. rewrite HG. simpl. rewrite HE. simpl.
  rewrite Hdot. reflexivity.
Qed.

Section ForwardOnly.

Variables layer1 layer2 :
  ndarray3 -> ndarray3 -> ndarray1 -> result (ndarray3 * ndarray1).

Hypothesis forward_only :
  forall w h r w' ro, layer1 w h r = inr (w', ro) -> layer2 w h r = inr (w, ro).

Lemma run_layers_forward_only (ws hs : list ndarray3) :
  forall r ro res,
    snd (run_layers layer1 ws hs r ro) = inr res ->
    snd (run_layers layer2 ws hs r ro) = inr res.
Proof.
  revert hs. induction ws as [| w ws IH]; intros hs r ro res H.
  - exact H.
  - destruct hs as [| h hs]; [exact H |]. simpl in H |- *.
    destruct (layer1 w h r) as [e | [w' r']] eqn:Hl; [discriminate H |].
    rewrite (forward_only _ _ _ _ _ Hl). simpl in H |- *.
    apply IH, H.
Qed.

End ForwardOnly.

(** X24: the pair a step returns with [update = true] is the pair the same
    call returns with [update = false], at any learning rate: every layer's
    output is computed before its weights are written, so a training call
    reports the prediction and the loss of the weights as they were before
    the call.  For both variants. *)
Theorem training_call_reports_prior_prediction (x : ndarray1)
    (ws hs : list ndarray3) (c lr lr' eps t : R) (p l : R) :
  (snd (step_square_loss x ws hs c lr (Some t) true) = inr (p, l) ->
   snd (step_square_loss x ws hs c lr' (Some t) false) = inr (p, l)) /\
  (snd (step_bernoulli x ws hs c lr eps (Some t) true) = inr (p, l) ->
   snd (step_bernoulli x ws hs c lr' eps (Some t) false) = inr (p, l)).
Proof.
  split; intros H.
  - unfold step_square_loss in *. simpl snd in *.
    apply bind_inr in H as (ro & Hro & H).
    apply (run_layers_forward_only _
             (layer_square_loss (hstack c x) lr' (Some t) false)) in Hro.
    + rewrite Hro. exact H.
    + intros w h r w' ro0. apply layer_square_loss_forward_only.
  - unfold step_bernoulli in *. simpl snd in *.
    apply bind_inr in H as (ro & Hro & H).
    apply (run_layers_forward_only _
             (layer_bernoulli (hstack c x) lr' eps (Some t) false)) in Hro.
    + rewrite Hro. exact H.
    + intros w h r w' ro0. apply layer_bernoulli_forward_only.
Qed.

Lemma training_call_reports_prior_prediction_witness :
  snd (step_square_loss Examples.sc_x [Examples.sc_w] [Examples.sc_h]
         1 5 (Some 3) false) = inr (0, 4.5).
Proof.
  destruct (training_call_reports_prior_prediction Examples.sc_x
              [Examples.sc_w] [Examples.sc_h] 1 0.1 5 0.01 3 0 4.5) as [Hsq _].
  apply Hsq. np_eval. unfold ret. do 2 f_equal; lra.
Defined.
